(** * whoop-scraper: a shallow embedding of the token lifecycle, the paginated
      client, the flattening upserts and the scrape orchestration.

    Conventions of the embedding.
    - A [datetime] is an integer number of microseconds since the epoch (UTC);
      a [date] is an integer day ordinal.  The finite range of [date] is
      represented where the program computes one (today minus N days); that
      of [datetime] is not.
    - JSON documents and Python dictionaries received from the outside are
      values of [pyval]; a dictionary is a finite map keyed by strings.  The
      dictionary the program builds and iterates over, the scraper's
      [stats], keeps its insertion order.
    - Everything the program does to the outside (clock, HTTP, database, log)
      goes through an [Env] (what the process cannot change) and a [State]
      (what it changes); a method maps both to a result-or-exception and the
      state afterwards.
    - Library functions whose code is not part of the repository
      ([datetime.isoformat], [Fernet], the HTTP provider, the PostgreSQL
      server) are oracles carried by the environment or by the object that
      owns them. *)

From Stdlib Require Import ZArith Lia.
From stdpp Require Import base option list strings gmap pretty.

Local Open Scope string_scope.
Local Open Scope list_scope.
Local Open Scope Z_scope.
Set Warnings "-register-all".

(** ** Python values *)

Inductive pyval : Type :=
| PNone
| PBool (b : bool)
| PInt (n : Z)
| PFloat (mantissa exponent : Z)
| PStr (s : string)
| PList (l : list pyval)
| PDict (d : gmap string pyval).

(** Python truthiness ([bool(v)]), as used by [x or y] and [if x]. *)
Definition truthy (v : pyval) : bool :=
  match v with
  | PNone => false
  | PBool b => b
  | PInt n => negb (n =? 0)
  | PFloat m _ => negb (m =? 0)
  | PStr s => negb (String.eqb s "")
  | PList l => match l with [] => false | _ => true end
  | PDict d => negb (bool_decide (size d = 0%nat))
  end.

Definition truthy_str (s : string) : bool := negb (String.eqb s "").

(** [x or y] *)
Definition py_or (x y : pyval) : pyval := if truthy x then x else y.

(** ** Exceptions and results *)

Inductive exn : Type :=
| ValueError (msg : string)
| KeyError (key : string)
| TypeError (msg : string)
| AttributeError (msg : string)
| JSONDecodeError
| HTTPStatusError (status : Z)
| TransportError (msg : string)
| IndexError
| InvalidToken
| PsycopgError (msg : string)
| OverflowError (msg : string).

(** [str(e)] *)
Definition exn_str (e : exn) : string :=
  match e with
  | ValueError m => m
  | KeyError k => "'" +:+ k +:+ "'"
  | TypeError m => m
  | AttributeError m => m
  | JSONDecodeError => "Expecting value"
  | HTTPStatusError st => "HTTP status " +:+ pretty st
  | TransportError m => m
  | IndexError => "list index out of range"
  | InvalidToken => ""
  | PsycopgError m => m
  | OverflowError m => m
  end.

(** [except Exception], [isinstance(e, psycopg.Error)], and the pair caught by
    the file loader. *)
Definition any_exception (e : exn) : bool := true.

Definition is_psycopg_error (e : exn) : bool :=
  match e with PsycopgError _ => true | _ => false end.

Definition is_json_or_key_error (e : exn) : bool :=
  match e with JSONDecodeError | KeyError _ => true | _ => false end.

(** What a pure piece of code yields: a value or an exception. *)
Inductive result (A : Type) : Type :=
| Value (a : A)
| Error (e : exn).
Arguments Value {A} a.
Arguments Error {A} e.

Definition rbind {A B} (r : result A) (k : A -> result B) : result B :=
  match r with
  | Value a => k a
  | Error e => Error e
  end.

(** The outcome of running a method: a value, an exception, or no outcome
    within the number of loop iterations allowed ([OutOfFuel] is only ever
    produced by the pagination loop and is caught by nothing). *)
Inductive outcome (A : Type) : Type :=
| Ok (a : A)
| Raise (e : exn)
| OutOfFuel.
Arguments Ok {A} a.
Arguments Raise {A} e.
Arguments OutOfFuel {A}.

Notation "x <-? r ;; k" := (rbind r (fun x => k))
  (at level 100, r at next level, right associativity).

(** [d.get(k)], [d.get(k, default)] and [d[k]] on a value that should be a
    dictionary; on anything else Python raises [AttributeError] (for [.get])
    or [TypeError] (for subscription). *)
Definition dict_get (v : pyval) (k : string) (default : pyval) : result pyval :=
  match v with
  | PDict d => Value (match d !! k with Some x => x | None => default end)
  | _ => Error (AttributeError "object has no attribute 'get'")
  end.

Definition dict_item (v : pyval) (k : string) : result pyval :=
  match v with
  | PDict d => match d !! k with Some x => Value x | None => Error (KeyError k) end
  | _ => Error (TypeError "object is not subscriptable")
  end.

(** ** Time *)

Definition datetime := Z.
Definition timedelta := Z.
Definition timedelta_seconds (s : Z) : timedelta := s * 1000000.
Definition timedelta_minutes (m : Z) : timedelta := timedelta_seconds (m * 60).
Definition timedelta_days (d : Z) : timedelta := timedelta_seconds (d * 86400).

(** ** config.py *)

Module Settings.
Record t : Type := mk {
  database_url : string;
  client_id : string;
  client_secret : string;
  access_token : string;
  refresh_token : string;
  token_path : string;
  encryption_key : string;
  scrape_days : Z
}.
End Settings.

(** ** auth.py: the token value *)

Definition AUTHORIZE_URL : string := "https://api.prod.whoop.com/oauth/oauth2/auth".
Definition TOKEN_URL : string := "https://api.prod.whoop.com/oauth/oauth2/token".

Definition ALL_SCOPES : list string :=
  ["offline"; "read:profile"; "read:body_measurement"; "read:cycles";
   "read:recovery"; "read:sleep"; "read:workout"].

(** [" ".join(l)] *)
Fixpoint join_spaces (l : list string) : string :=
  match l with
  | [] => ""
  | [x] => x
  | x :: rest => x +:+ " " +:+ join_spaces rest
  end.

Record OAuthTokens : Type := mkTokens {
  access_token : string;
  refresh_token : string;
  expires_at : datetime;
  token_type : string
}.

#[global] Instance OAuthTokens_eq_dec : EqDecision OAuthTokens.
Proof. solve_decision. Defined.

(** ** Objects outside the process *)

(** A file: its text and its permission bits.  The text of a file is either
    the serialisation of a JSON value ([json.dumps] / [json.loads] are inverse
    on it) or something [json.loads] rejects. *)
Inductive FileText : Type :=
| JsonText (v : pyval)
| Malformed.

Record File : Type := mkFile { file_text : FileText; file_mode : Z }.

(** The single row (id = 1) of table whoop_oauth_tokens; token_type is
    nullable in the schema. *)
Record TokenRow : Type := mkRow {
  row_access_token : string;
  row_refresh_token : string;
  row_expires_at : datetime;
  row_token_type : option string
}.

Inductive HttpRequest : Type :=
| POST (url : string) (data : list (string * string))
| GET (url : string) (headers : list (string * string)) (params : list (string * pyval)).

(** What comes back: no response at all (an [httpx.TransportError]), or a
    status with a body that is JSON ([Some]) or not ([None]). *)
Inductive HttpOutcome : Type :=
| NoResponse (msg : string)
| Response (status : Z) (body : option pyval).

Inductive LogLevel : Type := DEBUG | INFO | WARNING | ERROR.

(** The statements of db/operations.py, and what is sent over the scraper's
    connection. *)
Inductive Statement : Type :=
| UpsertUserProfile
| DeleteBodyMeasurement
| InsertBodyMeasurement
| UpsertCycle
| UpsertRecovery
| UpsertSleep
| UpsertWorkout.

Inductive DbOp : Type :=
| Execute (stmt : Statement) (params : gmap string pyval)
| Commit.

(** The class attributes of [OAuthCallbackHandler]. *)
Record HandlerState : Type := mkHandler {
  authorization_code : option string;
  state : option string;
  error : option string
}.

(** One entry of [WhoopScraper.stats]:
    [{"success": True, "records": n}] or [{"success": False, "error": msg}]. *)
Inductive StatEntry : Type :=
| Success (records : nat)
| Failure (error_message : string).

(** A Python dict with string keys whose order of iteration matters, as
    [WhoopScraper.stats]: the items in insertion order.  Assigning to a key
    that is present replaces its value where it stands; assigning to a new
    key appends the item. *)
Definition pydict (V : Type) : Type := list (string * V).

Fixpoint pydict_get {V : Type} (k : string) (d : pydict V) : option V :=
  match d with
  | [] => None
  | (k', v) :: rest => if String.eqb k' k then Some v else pydict_get k rest
  end.

Fixpoint pydict_set {V : Type} (k : string) (v : V) (d : pydict V) : pydict V :=
  match d with
  | [] => [(k, v)]
  | (k', v') :: rest =>
      if String.eqb k' k then (k', v) :: rest else (k', v') :: pydict_set k v rest
  end.

#[global] Instance pydict_lookup {V : Type} : Lookup string V (pydict V) := pydict_get.
#[global] Instance pydict_insert {V : Type} : Insert string V (pydict V) := pydict_set.
#[global] Instance pydict_empty {V : Type} : Empty (pydict V) := [].

Definition QueryParams := gmap string (list string).

(** A [cryptography.fernet.Fernet] object: its two methods. *)
Record Fernet : Type := mkFernet {
  encrypt : string -> string;
  decrypt : string -> result string
}.

(** What the process cannot change: clocks, configuration, and the behaviour
    of the parties it talks to. *)
Record Env : Type := mkEnv {
  e_clock : nat -> datetime;          (* successive readings of datetime.now(UTC) *)
  e_today : Z;                        (* date.today() *)
  e_settings : Settings.t;            (* get_settings() *)
  e_provider : list HttpRequest -> HttpRequest -> HttpOutcome;
  e_pg_fail : nat -> option string;   (* Some msg: the n-th session raises psycopg.Error *)
  e_pg_reject : list DbOp -> DbOp -> option string;
  e_token_urlsafe : nat -> string;    (* successive secrets.token_urlsafe(32) *)
  e_urlencode : list (string * string) -> string;
  e_isoformat : datetime -> string;   (* datetime.isoformat *)
  e_fromisoformat : string -> result datetime;
  e_date_isoformat : Z -> string;     (* date.isoformat *)
  e_fernet : string -> result Fernet; (* Fernet(key) *)
  e_home : string;                    (* Path.home() *)
  e_callback : string -> bool -> option QueryParams
      (* the query of the one request that reaches the listener within the
         timeout, if any, given the authorization URL and open_browser *)
}.

(** What the process changes: its own objects and the stores it writes. *)
Record State : Type := mkState {
  s_ticks : nat;                      (* clock readings taken *)
  s_sent : list HttpRequest;          (* HTTP requests issued, oldest first *)
  s_fs : gmap string File;            (* files by path *)
  s_pg_sessions : nat;                (* database sessions opened *)
  s_pg_tokens : option TokenRow;      (* table whoop_oauth_tokens *)
  s_pg_ops : list DbOp;               (* statements on the scraper's connection *)
  s_log : list (LogLevel * string);   (* log records, oldest first *)
  s_nonces : nat;                     (* nonces drawn *)
  s_tokens : option OAuthTokens;      (* WhoopAuth._tokens *)
  s_handler : HandlerState;           (* OAuthCallbackHandler.* *)
  s_stats : pydict StatEntry          (* WhoopScraper.stats *)
}.

Definition set_ticks (n : nat) (s : State) : State :=
  mkState n (s_sent s) (s_fs s) (s_pg_sessions s) (s_pg_tokens s) (s_pg_ops s)
          (s_log s) (s_nonces s) (s_tokens s) (s_handler s) (s_stats s).
Definition set_sent (l : list HttpRequest) (s : State) : State :=
  mkState (s_ticks s) l (s_fs s) (s_pg_sessions s) (s_pg_tokens s) (s_pg_ops s)
          (s_log s) (s_nonces s) (s_tokens s) (s_handler s) (s_stats s).
Definition set_fs (fs : gmap string File) (s : State) : State :=
  mkState (s_ticks s) (s_sent s) fs (s_pg_sessions s) (s_pg_tokens s) (s_pg_ops s)
          (s_log s) (s_nonces s) (s_tokens s) (s_handler s) (s_stats s).
Definition set_pg_sessions (n : nat) (s : State) : State :=
  mkState (s_ticks s) (s_sent s) (s_fs s) n (s_pg_tokens s) (s_pg_ops s)
          (s_log s) (s_nonces s) (s_tokens s) (s_handler s) (s_stats s).
Definition set_pg_tokens (r : option TokenRow) (s : State) : State :=
  mkState (s_ticks s) (s_sent s) (s_fs s) (s_pg_sessions s) r (s_pg_ops s)
          (s_log s) (s_nonces s) (s_tokens s) (s_handler s) (s_stats s).
Definition set_pg_ops (l : list DbOp) (s : State) : State :=
  mkState (s_ticks s) (s_sent s) (s_fs s) (s_pg_sessions s) (s_pg_tokens s) l
          (s_log s) (s_nonces s) (s_tokens s) (s_handler s) (s_stats s).
Definition set_log (l : list (LogLevel * string)) (s : State) : State :=
  mkState (s_ticks s) (s_sent s) (s_fs s) (s_pg_sessions s) (s_pg_tokens s) (s_pg_ops s)
          l (s_nonces s) (s_tokens s) (s_handler s) (s_stats s).
Definition set_nonces (n : nat) (s : State) : State :=
  mkState (s_ticks s) (s_sent s) (s_fs s) (s_pg_sessions s) (s_pg_tokens s) (s_pg_ops s)
          (s_log s) n (s_tokens s) (s_handler s) (s_stats s).
Definition set_tokens (t : option OAuthTokens) (s : State) : State :=
  mkState (s_ticks s) (s_sent s) (s_fs s) (s_pg_sessions s) (s_pg_tokens s) (s_pg_ops s)
          (s_log s) (s_nonces s) t (s_handler s) (s_stats s).
Definition set_handler (h : HandlerState) (s : State) : State :=
  mkState (s_ticks s) (s_sent s) (s_fs s) (s_pg_sessions s) (s_pg_tokens s) (s_pg_ops s)
          (s_log s) (s_nonces s) (s_tokens s) h (s_stats s).
Definition set_stats (m : pydict StatEntry) (s : State) : State :=
  mkState (s_ticks s) (s_sent s) (s_fs s) (s_pg_sessions s) (s_pg_tokens s) (s_pg_ops s)
          (s_log s) (s_nonces s) (s_tokens s) (s_handler s) m.

(** ** The monad of methods: read the environment, thread the state, return a
       value or raise. *)

Definition M (A : Type) : Type := Env -> State -> outcome A * State.

Definition ret {A} (a : A) : M A := fun _ s => (Ok a, s).
Definition raise {A} (e : exn) : M A := fun _ s => (Raise e, s).
Definition bind {A B} (c : M A) (k : A -> M B) : M B :=
  fun env s => match c env s with
               | (Ok a, s') => k a env s'
               | (Raise e, s') => (Raise e, s')
               | (OutOfFuel, s') => (OutOfFuel, s')
               end.
(** [try: c   except E as e: h e], where [handles] tells the members of E. *)
Definition try_except {A} (c : M A) (handles : exn -> bool) (h : exn -> M A) : M A :=
  fun env s => match c env s with
               | (Ok a, s') => (Ok a, s')
               | (Raise e, s') => if handles e then h e env s' else (Raise e, s')
               | (OutOfFuel, s') => (OutOfFuel, s')
               end.
Definition lift {A} (r : result A) : M A :=
  fun _ s => (match r with Value a => Ok a | Error e => Raise e end, s).
Definition ask {A} (f : Env -> A) : M A := fun env s => (Ok (f env), s).
Definition gets {A} (f : State -> A) : M A := fun _ s => (Ok (f s), s).
Definition modify (f : State -> State) : M unit := fun _ s => (Ok tt, f s).

Notation "x <- c1 ;; c2" := (bind c1 (fun x => c2))
  (at level 100, c1 at next level, right associativity).
Notation "c1 ;; c2" := (bind c1 (fun _ => c2))
  (at level 100, right associativity).

Definition get_settings : M Settings.t := ask e_settings.

(** [datetime.now(UTC)]: the next reading of the clock. *)
Definition datetime_now : M datetime :=
  fun env s => (Ok (e_clock env (s_ticks s)), set_ticks (S (s_ticks s)) s).

Definition date_today : M Z := ask e_today.

Definition logger (lvl : LogLevel) (msg : string) : M unit :=
  modify (fun s => set_log (s_log s ++ [(lvl, msg)]) s).

(** One HTTP exchange: the request is recorded, the provider answers. *)
Definition http_send (req : HttpRequest) : M HttpOutcome :=
  fun env s => (Ok (e_provider env (s_sent s) req), set_sent (s_sent s ++ [req]) s).

(** [response.raise_for_status()] followed by [response.json()]. *)
Definition raise_for_status_json (o : HttpOutcome) : M pyval :=
  match o with
  | NoResponse msg => raise (TransportError msg)
  | Response status body =>
      if (200 <=? status) && (status <=? 299)
      then match body with Some v => ret v | None => raise JSONDecodeError end
      else raise (HTTPStatusError status)
  end.

(** [with psycopg.connect(url) as conn, conn.cursor() as cur: body; commit]
    for the token table: the session either fails as a whole with
    [psycopg.Error] or runs [body]. *)
Definition pg_session {A} (body : M A) : M A :=
  fun env s =>
    let s' := set_pg_sessions (S (s_pg_sessions s)) s in
    match e_pg_fail env (s_pg_sessions s) with
    | Some msg => (Raise (PsycopgError msg), s')
    | None => body env s'
    end.

(** ** auth.py: OAuthTokens *)

(** A field annotated [str]: a JSON value of another type is stopped where it
    would enter the dataclass. *)
Definition as_str (v : pyval) : result string :=
  match v with
  | PStr s => Value s
  | _ => Error (TypeError "expected str")
  end.

Definition round_half_even (num den : Z) : Z :=
  let q := num / den in
  let r := num mod den in
  if 2 * r <? den then q
  else if den <? 2 * r then q + 1
  else if Z.even q then q else q + 1.

(** [timedelta(seconds=v)] for a JSON number [v]. *)
Definition timedelta_of (v : pyval) : result timedelta :=
  match v with
  | PInt n => Value (timedelta_seconds n)
  | PBool b => Value (timedelta_seconds (if b then 1 else 0))
  | PFloat m e =>
      let k := e + 6 in
      Value (if 0 <=? k then m * 10 ^ k else round_half_even m (10 ^ (- k)))
  | _ => Error (TypeError "unsupported type for timedelta seconds component")
  end.

(** [OAuthTokens.is_expired]: [now >= expires_at - 5 minutes]. *)
Definition is_expired (self : OAuthTokens) : M bool :=
  now <- datetime_now ;;
  ret (now >=? expires_at self - timedelta_minutes 5).

Definition to_dict (self : OAuthTokens) : M pyval :=
  isoformat <- ask e_isoformat ;;
  ret (PDict (<["access_token" := PStr (access_token self)]>
             (<["refresh_token" := PStr (refresh_token self)]>
             (<["expires_at" := PStr (isoformat (expires_at self))]>
             (<["token_type" := PStr (token_type self)]> ∅))))).

Definition from_dict (data : pyval) : M OAuthTokens :=
  fromisoformat <- ask e_fromisoformat ;;
  a <- lift (dict_item data "access_token") ;;
  a <- lift (as_str a) ;;
  r <- lift (dict_item data "refresh_token") ;;
  r <- lift (as_str r) ;;
  e <- lift (dict_item data "expires_at") ;;
  e <- lift (as_str e) ;;
  e <- lift (fromisoformat e) ;;
  t <- lift (dict_get data "token_type" (PStr "bearer")) ;;
  t <- lift (as_str t) ;;
  ret (mkTokens a r e t).

Definition from_token_response (response : pyval) : M OAuthTokens :=
  expires_in <- lift (dict_get response "expires_in" (PInt 3600)) ;;
  now <- datetime_now ;;
  delta <- lift (timedelta_of expires_in) ;;
  a <- lift (dict_item response "access_token") ;;
  a <- lift (as_str a) ;;
  r <- lift (dict_item response "refresh_token") ;;
  r <- lift (as_str r) ;;
  t <- lift (dict_get response "token_type" (PStr "bearer")) ;;
  t <- lift (as_str t) ;;
  ret (mkTokens a r (now + delta) t).

(** ** auth.py: the storage protocol and its two implementations *)

Class TokenStorageProtocol (S : Type) : Type := {
  save : S -> OAuthTokens -> M unit;
  load : S -> M (option OAuthTokens);
  clear : S -> M unit
}.

(** *** File storage *)

Record TokenStorage : Type := mkTokenStorage { path : string }.

Definition get_default_token_path : M string :=
  home <- ask e_home ;;
  ret (home +:+ "/.config/whoop-scraper/tokens.json").

Definition TokenStorage_init (p : option string) : M TokenStorage :=
  match p with
  | None =>
      settings <- get_settings ;;
      token_path <- (if truthy_str (Settings.token_path settings)
                     then ret (Settings.token_path settings)
                     else get_default_token_path) ;;
      ret (mkTokenStorage token_path)
  | Some p => ret (mkTokenStorage p)
  end.

(** [json.loads(path.read_text())] *)
Definition json_loads_file (f : File) : M pyval :=
  match file_text f with
  | JsonText v => ret v
  | Malformed => raise JSONDecodeError
  end.

Definition TokenStorage_save (self : TokenStorage) (tokens : OAuthTokens) : M unit :=
  d <- to_dict tokens ;;
  (* write_text, then chmod(0o600) *)
  modify (fun s => set_fs (<[path self := mkFile (JsonText d) 384]> (s_fs s)) s) ;;
  logger INFO ("Tokens saved to " +:+ path self).

Definition TokenStorage_load (self : TokenStorage) : M (option OAuthTokens) :=
  settings <- get_settings ;;
  if truthy_str (Settings.access_token settings) && truthy_str (Settings.refresh_token settings)
  then
    logger DEBUG "Loading tokens from environment variables" ;;
    now <- datetime_now ;;
    ret (Some (mkTokens (Settings.access_token settings) (Settings.refresh_token settings)
                        (now + timedelta_days 365) "bearer"))
  else
    fs <- gets s_fs ;;
    match fs !! path self with
    | None => ret None
    | Some f =>
        try_except
          (data <- json_loads_file f ;;
           t <- from_dict data ;;
           ret (Some t))
          is_json_or_key_error
          (fun e => logger WARNING ("Failed to load tokens: " +:+ exn_str e) ;; ret None)
    end.

Definition TokenStorage_clear (self : TokenStorage) : M unit :=
  fs <- gets s_fs ;;
  match fs !! path self with
  | Some _ =>
      modify (fun s => set_fs (delete (path self) (s_fs s)) s) ;;
      logger INFO "Tokens cleared"
  | None => ret tt
  end.

#[global] Instance TokenStorage_protocol : TokenStorageProtocol TokenStorage := {
  save := TokenStorage_save;
  load := TokenStorage_load;
  clear := TokenStorage_clear
}.

(** *** Database storage *)

Record DatabaseTokenStorage : Type := mkDatabaseTokenStorage {
  database_url : string;
  _cipher : option Fernet
}.

Definition DatabaseTokenStorage_init (url : string) (encryption_key : option string)
  : M DatabaseTokenStorage :=
  match encryption_key with
  | Some k =>
      if truthy_str k then
        fernet <- ask e_fernet ;;
        c <- lift (fernet k) ;;
        logger DEBUG "Token encryption enabled" ;;
        ret (mkDatabaseTokenStorage url (Some c))
      else ret (mkDatabaseTokenStorage url None)
  | None => ret (mkDatabaseTokenStorage url None)
  end.

Definition _encrypt (self : DatabaseTokenStorage) (value : string) : string :=
  match _cipher self with
  | None => value
  | Some c => encrypt c value
  end.

Definition _decrypt (self : DatabaseTokenStorage) (value : string) : result string :=
  match _cipher self with
  | None => Value value
  | Some c => decrypt c value
  end.

Definition DatabaseTokenStorage_save (self : DatabaseTokenStorage) (tokens : OAuthTokens)
  : M unit :=
  pg_session
    (modify (set_pg_tokens
       (Some (mkRow (_encrypt self (access_token tokens))
                    (_encrypt self (refresh_token tokens))
                    (expires_at tokens)
                    (Some (token_type tokens)))))) ;;
  logger INFO "Tokens saved to database (encrypted)".

(** [row[3] or "bearer"] *)
Definition token_type_or_bearer (t : option string) : string :=
  match t with
  | Some s => if truthy_str s then s else "bearer"
  | None => "bearer"
  end.

Definition DatabaseTokenStorage_load (self : DatabaseTokenStorage) : M (option OAuthTokens) :=
  found <- try_except
             (pg_session
                (row <- gets s_pg_tokens ;;
                 match row with
                 | Some r =>
                     logger DEBUG "Loading tokens from database (decrypting)" ;;
                     a <- lift (_decrypt self (row_access_token r)) ;;
                     rt <- lift (_decrypt self (row_refresh_token r)) ;;
                     ret (Some (mkTokens a rt (row_expires_at r)
                                         (token_type_or_bearer (row_token_type r))))
                 | None => ret None
                 end))
             is_psycopg_error
             (fun e =>
                logger WARNING ("Failed to load tokens from database: " +:+ exn_str e) ;;
                ret None) ;;
  match found with
  | Some t => ret (Some t)
  | None =>
      settings <- get_settings ;;
      if truthy_str (Settings.access_token settings)
         && truthy_str (Settings.refresh_token settings)
      then
        logger DEBUG "Loading tokens from environment variables (bootstrap)" ;;
        now <- datetime_now ;;
        ret (Some (mkTokens (Settings.access_token settings)
                            (Settings.refresh_token settings) now "bearer"))
      else ret None
  end.

Definition DatabaseTokenStorage_clear (self : DatabaseTokenStorage) : M unit :=
  pg_session (modify (set_pg_tokens None)) ;;
  logger INFO "Tokens cleared from database".

#[global] Instance DatabaseTokenStorage_protocol : TokenStorageProtocol DatabaseTokenStorage := {
  save := DatabaseTokenStorage_save;
  load := DatabaseTokenStorage_load;
  clear := DatabaseTokenStorage_clear
}.

(** ** auth.py: the callback handler *)

(** [l[0]] *)
Definition first {A} (l : list A) : result A :=
  match l with
  | x :: _ => Value x
  | [] => Error IndexError
  end.

(** [OAuthCallbackHandler.do_GET] on the parsed query of the request; returns
    the status and message handed to [_send_response]. *)
Definition do_GET (params : QueryParams) : M (Z * string) :=
  match params !! "error" with
  | Some l =>
      e <- lift (first l) ;;
      modify (fun s => set_handler
                (mkHandler (authorization_code (s_handler s)) (state (s_handler s)) (Some e)) s) ;;
      ret (200, "Authorization denied. You can close this window.")
  | None =>
      match params !! "code" with
      | Some l =>
          c <- lift (first l) ;;
          modify (fun s => set_handler
                    (mkHandler (Some c) (state (s_handler s)) (error (s_handler s))) s) ;;
          st <- match params !! "state" with
                | Some l' => x <- lift (first l') ;; ret (Some x)
                | None => ret None
                end ;;
          modify (fun s => set_handler
                    (mkHandler (authorization_code (s_handler s)) st (error (s_handler s))) s) ;;
          ret (200, "Authorization successful! You can close this window.")
      | None => ret (400, "Invalid callback. Missing code parameter.")
      end
  end.

(** ** auth.py: WhoopAuth *)

(** The attributes fixed at construction; the cached tokens ([_tokens]) are
    the [s_tokens] component of the state. *)
Record WhoopAuth (S : Type) : Type := mkWhoopAuth {
  client_id : string;
  client_secret : string;
  storage : S
}.
Arguments mkWhoopAuth {S}.
Arguments client_id {S}.
Arguments client_secret {S}.
Arguments storage {S}.

Section WhoopAuth.
Context {S : Type} `{!TokenStorageProtocol S}.

(** [a or b] on strings when [a] may be [None]. *)
Definition str_or (a : option string) (b : string) : string :=
  match a with
  | Some x => if truthy_str x then x else b
  | None => b
  end.

(** [WhoopAuth.__init__] with a storage backend given (without one the
    constructor builds a [TokenStorage] from [TokenStorage_init None]). *)
Definition WhoopAuth_init (cid csecret : option string) (token_storage : S)
  : M (WhoopAuth S) :=
  settings <- get_settings ;;
  modify (set_tokens None) ;;
  ret (mkWhoopAuth (str_or cid (Settings.client_id settings))
                   (str_or csecret (Settings.client_secret settings))
                   token_storage).

Definition get_authorization_url (self : WhoopAuth S) (redirect_uri : string)
           (scopes : option (list string)) : M (string * string) :=
  n <- gets s_nonces ;;
  gen <- ask e_token_urlsafe ;;
  modify (set_nonces (Datatypes.S n)) ;;
  let state := gen n in
  let scope_str := join_spaces (match scopes with
                                | Some (x :: l) => x :: l
                                | _ => ALL_SCOPES
                                end) in
  urlencode <- ask e_urlencode ;;
  let params := [("response_type", "code"); ("client_id", client_id self);
                 ("redirect_uri", redirect_uri); ("scope", scope_str);
                 ("state", state)] in
  ret (AUTHORIZE_URL +:+ "?" +:+ urlencode params, state).

Definition exchange_code (self : WhoopAuth S) (code redirect_uri : string) : M OAuthTokens :=
  let data := [("grant_type", "authorization_code"); ("code", code);
               ("redirect_uri", redirect_uri); ("client_id", client_id self);
               ("client_secret", client_secret self)] in
  response <- http_send (POST TOKEN_URL data) ;;
  body <- raise_for_status_json response ;;
  tokens <- from_token_response body ;;
  save (storage self) tokens ;;
  modify (set_tokens (Some tokens)) ;;
  logger INFO "Authorization successful, tokens stored" ;;
  ret tokens.

Definition refresh_tokens (self : WhoopAuth S) (refresh_token_arg : option string)
  : M OAuthTokens :=
  rt <- match refresh_token_arg with
        | Some rt => ret rt
        | None =>
            tokens <- load (storage self) ;;
            match tokens with
            | None => raise (ValueError "No stored tokens and no refresh_token provided")
            | Some t => ret (refresh_token t)
            end
        end ;;
  let data := [("grant_type", "refresh_token"); ("refresh_token", rt);
               ("client_id", client_id self); ("client_secret", client_secret self);
               ("scope", join_spaces ALL_SCOPES)] in
  response <- http_send (POST TOKEN_URL data) ;;
  body <- raise_for_status_json response ;;
  tokens <- from_token_response body ;;
  save (storage self) tokens ;;
  modify (set_tokens (Some tokens)) ;;
  logger INFO "Tokens refreshed successfully" ;;
  ret tokens.

Definition get_valid_token (self : WhoopAuth S) : M string :=
  cached <- gets s_tokens ;;
  hit <- match cached with
         | Some t => expired <- is_expired t ;; ret (if expired then None else Some t)
         | None => ret None
         end ;;
  match hit with
  | Some t => ret (access_token t)
  | None =>
      tokens <- load (storage self) ;;
      match tokens with
      | None => raise (ValueError "No tokens available. Run 'whoop-scraper auth' first.")
      | Some t =>
          expired <- is_expired t ;;
          t' <- (if expired
                 then logger INFO "Access token expired, refreshing..." ;;
                      refresh_tokens self (Some (refresh_token t))
                 else ret t) ;;
          modify (set_tokens (Some t')) ;;
          ret (access_token t')
      end
  end.

Definition authorize_interactive (self : WhoopAuth S) (port : Z) (open_browser : bool)
  : M OAuthTokens :=
  let redirect_uri := "http://localhost:" +:+ pretty port +:+ "/callback" in
  url_state <- get_authorization_url self redirect_uri None ;;
  let auth_url := url_state.1 in
  let expected_state := url_state.2 in
  modify (set_handler (mkHandler None None None)) ;;
  logger INFO "Opening browser for authorization..." ;;
  logger INFO ("If browser doesn't open, visit: " +:+ auth_url) ;;
  (* the listener thread handles at most one request before the join times
     out; an exception inside the handler stays in that thread *)
  callback <- ask e_callback ;;
  match callback auth_url open_browser with
  | Some params => try_except (do_GET params ;; ret tt) any_exception (fun _ => ret tt)
  | None => ret tt
  end ;;
  h <- gets s_handler ;;
  match error h with
  | Some e =>
      if truthy_str e then raise (ValueError ("Authorization failed: " +:+ e)) else ret tt
  | None => ret tt
  end ;;
  match authorization_code h with
  | None => raise (ValueError "Authorization timed out or failed")
  | Some code =>
      if bool_decide (state h = Some expected_state)
      then exchange_code self code redirect_uri
      else raise (ValueError "State mismatch - possible CSRF attack")
  end.
End WhoopAuth.

(** ** api_client.py *)

Definition BASE_URL : string := "https://api.prod.whoop.com/developer/v1".

(** [d - timedelta(days=days)] on a date [d], dates being ordinals: the
    number of days has to fit a C int and to have a magnitude a timedelta can
    hold, and the result has to lie between [date.min] (ordinal 1) and
    [date.max] (ordinal 3652059). *)
Definition date_minus_days (d days : Z) : result Z :=
  if (days <? -2147483648) || (2147483647 <? days)
  then Error (OverflowError "Python int too large to convert to C int")
  else if (days <? -999999999) || (999999999 <? days)
  then Error (OverflowError ("days=" +:+ pretty days +:+ "; must have magnitude <= 999999999"))
  else if (1 <=? d - days) && (d - days <=? 3652059)
  then Value (d - days)
  else Error (OverflowError "date value out of range").

Definition get_date_range (days : Z) : M (string * string) :=
  end_date <- date_today ;;
  start_date <- lift (date_minus_days end_date days) ;;
  isoformat <- ask e_date_isoformat ;;
  ret (isoformat start_date, isoformat end_date).

(** The items a [list.extend(v)] appends.  (For a dictionary Python appends
    the keys in insertion order, which a finite map does not keep.) *)
Definition iterate (v : pyval) : result (list pyval) :=
  match v with
  | PList l => Value l
  | PStr s => Value ((fun c => PStr (String c EmptyString)) <$> String.list_ascii_of_string s)
  | PDict d => Value ((fun kv => PStr kv.1) <$> map_to_list d)
  | _ => Error (TypeError "object is not iterable")
  end.

Record WhoopAPIClient (S : Type) : Type := mkWhoopAPIClient { auth : WhoopAuth S }.
Arguments mkWhoopAPIClient {S}.
Arguments auth {S}.

Section WhoopAPIClient.
Context {S : Type} `{!TokenStorageProtocol S}.

Definition _get_headers (self : WhoopAPIClient S) : M (list (string * string)) :=
  token <- get_valid_token (auth self) ;;
  ret [("Authorization", "Bearer " +:+ token); ("Content-Type", "application/json")].

Definition _get (self : WhoopAPIClient S) (endpoint : string)
           (params : list (string * pyval)) : M pyval :=
  let url := BASE_URL +:+ endpoint in
  headers <- _get_headers self ;;
  response <- http_send (GET url headers params) ;;
  raise_for_status_json response.

Definition page_params (start_date end_date : string) (next_token : pyval)
  : list (string * pyval) :=
  ([("start", PStr (start_date +:+ "T00:00:00.000Z"));
    ("end", PStr (end_date +:+ "T23:59:59.999Z"))]
   ++ (if truthy next_token then [("nextToken", next_token)] else []))%list.

(** The [while True] loop of [_get_paginated]; [fuel] bounds the number of
    iterations. *)
Fixpoint _get_paginated_loop (fuel : nat) (self : WhoopAPIClient S)
         (endpoint start_date end_date : string)
         (all_records : list pyval) (next_token : pyval) : M (list pyval) :=
  match fuel with
  | O => fun _ s => (OutOfFuel, s)
  | Datatypes.S fuel' =>
      data <- _get self endpoint (page_params start_date end_date next_token) ;;
      records <- lift (dict_get data "records" (PList [])) ;;
      items <- lift (iterate records) ;;
      let all_records := (all_records ++ items)%list in
      next_token <- lift (dict_get data "next_token" PNone) ;;
      if truthy next_token
      then _get_paginated_loop fuel' self endpoint start_date end_date all_records next_token
      else ret all_records
  end.

Definition _get_paginated (fuel : nat) (self : WhoopAPIClient S)
           (endpoint start_date end_date : string) : M (list pyval) :=
  _get_paginated_loop fuel self endpoint start_date end_date [] PNone.

Definition get_user_profile (self : WhoopAPIClient S) : M pyval :=
  logger INFO "Fetching user profile" ;;
  data <- _get self "/user/profile/basic" [] ;;
  logger INFO "Successfully fetched user profile" ;;
  ret data.

Definition get_body_measurement (self : WhoopAPIClient S) : M pyval :=
  logger INFO "Fetching body measurement" ;;
  data <- _get self "/user/measurement/body" [] ;;
  logger INFO "Successfully fetched body measurement" ;;
  ret data.

Definition get_cycles (fuel : nat) (self : WhoopAPIClient S) (start_date end_date : string)
  : M (list pyval) :=
  logger INFO ("Fetching cycles from " +:+ start_date +:+ " to " +:+ end_date) ;;
  records <- _get_paginated fuel self "/cycle" start_date end_date ;;
  logger INFO ("Successfully fetched " +:+ pretty (length records) +:+ " cycle records") ;;
  ret records.

Definition get_recovery (fuel : nat) (self : WhoopAPIClient S) (start_date end_date : string)
  : M (list pyval) :=
  logger INFO ("Fetching recovery from " +:+ start_date +:+ " to " +:+ end_date) ;;
  records <- _get_paginated fuel self "/recovery" start_date end_date ;;
  logger INFO ("Successfully fetched " +:+ pretty (length records) +:+ " recovery records") ;;
  ret records.

Definition get_sleep (fuel : nat) (self : WhoopAPIClient S) (start_date end_date : string)
  : M (list pyval) :=
  logger INFO ("Fetching sleep from " +:+ start_date +:+ " to " +:+ end_date) ;;
  records <- _get_paginated fuel self "/activity/sleep" start_date end_date ;;
  logger INFO ("Successfully fetched " +:+ pretty (length records) +:+ " sleep records") ;;
  ret records.

Definition get_workouts (fuel : nat) (self : WhoopAPIClient S) (start_date end_date : string)
  : M (list pyval) :=
  logger INFO ("Fetching workouts from " +:+ start_date +:+ " to " +:+ end_date) ;;
  records <- _get_paginated fuel self "/activity/workout" start_date end_date ;;
  logger INFO ("Successfully fetched " +:+ pretty (length records) +:+ " workout records") ;;
  ret records.
End WhoopAPIClient.

(** ** db/operations.py *)

(** [cur.execute(stmt, params)] and [conn.commit()] on the scraper's
    connection: the statement is recorded; the server accepts or rejects it. *)
Definition pg_issue (op : DbOp) : M unit :=
  fun env s =>
    let s' := set_pg_ops (s_pg_ops s ++ [op]) s in
    match e_pg_reject env (s_pg_ops s) op with
    | Some msg => (Raise (PsycopgError msg), s')
    | None => (Ok tt, s')
    end.

Definition cur_execute (stmt : Statement) (params : gmap string pyval) : M unit :=
  pg_issue (Execute stmt params).

Definition conn_commit : M unit := pg_issue Commit.

(** [for x in l: f x] *)
Fixpoint for_each {A} (l : list A) (f : A -> M unit) : M unit :=
  match l with
  | [] => ret tt
  | x :: rest => f x ;; for_each rest f
  end.

(** [v.get(k, {}) or {}] *)
Definition nested (v : pyval) (k : string) : result pyval :=
  x <-? dict_get v k (PDict ∅) ;;
  Value (py_or x (PDict ∅)).

(** A dictionary display [{name: src.get(key, default), ...}], evaluated entry
    by entry. *)
Fixpoint extract (fields : list (string * pyval * string * pyval))
  : result (list (string * pyval)) :=
  match fields with
  | [] => Value []
  | (name, src, key, default) :: rest =>
      v <-? dict_get src key default ;;
      vs <-? extract rest ;;
      Value ((name, v) :: vs)
  end.

Definition params_of (fields : list (string * pyval * string * pyval))
  : result (gmap string pyval) :=
  l <-? extract fields ;;
  Value (list_to_map l).

Definition user_profile_params (data : pyval) : result (gmap string pyval) :=
  params_of [("user_id", data, "user_id", PStr "unknown");
             ("email", data, "email", PNone);
             ("first_name", data, "first_name", PNone);
             ("last_name", data, "last_name", PNone)].

Definition upsert_user_profile (data : pyval) : M unit :=
  params <- lift (user_profile_params data) ;;
  cur_execute UpsertUserProfile params ;;
  conn_commit ;;
  logger INFO "Upserted user profile".

Definition body_measurement_params (data : pyval) : result (gmap string pyval) :=
  params_of [("user_id", data, "user_id", PStr "unknown");
             ("height_meter", data, "height_meter", PNone);
             ("weight_kilogram", data, "weight_kilogram", PNone);
             ("max_heart_rate", data, "max_heart_rate", PNone)].

(** [data] itself is the parameter mapping of the DELETE: it has to be a
    dictionary that binds the placeholder; psycopg checks this before it
    sends anything.  (Only dictionaries are followed further: for [None]
    the library sends the statement without parameters and the server
    rejects it, which is an exception here too, though of another class.) *)
Definition delete_params (data : pyval) : result (gmap string pyval) :=
  match data with
  | PDict d =>
      match d !! "user_id" with
      | Some _ => Value d
      | None => Error (PsycopgError "query parameter missing: user_id")
      end
  | _ => Error (TypeError "query parameters should be a mapping")
  end.

Definition upsert_body_measurement (data : pyval) : M unit :=
  dparams <- lift (delete_params data) ;;
  cur_execute DeleteBodyMeasurement dparams ;;
  params <- lift (body_measurement_params data) ;;
  cur_execute InsertBodyMeasurement params ;;
  conn_commit ;;
  logger INFO "Upserted body measurement".

Definition cycle_params (record : pyval) : result (gmap string pyval) :=
  score <-? nested record "score" ;;
  params_of [("id", record, "id", PNone);
             ("user_id", record, "user_id", PStr "unknown");
             ("start", record, "start", PNone);
             ("end", record, "end", PNone);
             ("timezone_offset", record, "timezone_offset", PNone);
             ("strain", score, "strain", PNone);
             ("kilojoule", score, "kilojoule", PNone);
             ("average_heart_rate", score, "average_heart_rate", PNone);
             ("max_heart_rate", score, "max_heart_rate", PNone)].

Definition upsert_cycles (records : list pyval) : M nat :=
  match records with
  | [] => ret 0%nat
  | _ =>
      for_each records (fun record =>
        params <- lift (cycle_params record) ;;
        cur_execute UpsertCycle params) ;;
      conn_commit ;;
      logger INFO ("Upserted " +:+ pretty (length records) +:+ " cycle records") ;;
      ret (length records)
  end.

Definition recovery_params (record : pyval) : result (gmap string pyval) :=
  score <-? nested record "score" ;;
  params_of [("cycle_id", record, "cycle_id", PNone);
             ("user_id", record, "user_id", PStr "unknown");
             ("sleep_id", record, "sleep_id", PNone);
             ("recovery_score", score, "recovery_score", PNone);
             ("resting_heart_rate", score, "resting_heart_rate", PNone);
             ("hrv_rmssd_milli", score, "hrv_rmssd_milli", PNone);
             ("spo2_percentage", score, "spo2_percentage", PNone);
             ("skin_temp_celsius", score, "skin_temp_celsius", PNone)].

Definition upsert_recovery (records : list pyval) : M nat :=
  match records with
  | [] => ret 0%nat
  | _ =>
      for_each records (fun record =>
        params <- lift (recovery_params record) ;;
        cur_execute UpsertRecovery params) ;;
      conn_commit ;;
      logger INFO ("Upserted " +:+ pretty (length records) +:+ " recovery records") ;;
      ret (length records)
  end.

Definition sleep_params (record : pyval) : result (gmap string pyval) :=
  score <-? nested record "score" ;;
  stage_summary <-? nested score "stage_summary" ;;
  sleep_needed <-? nested score "sleep_needed" ;;
  params_of [("id", record, "id", PNone);
             ("user_id", record, "user_id", PStr "unknown");
             ("start", record, "start", PNone);
             ("end", record, "end", PNone);
             ("timezone_offset", record, "timezone_offset", PNone);
             ("nap", record, "nap", PBool false);
             ("total_in_bed_time_milli", stage_summary, "total_in_bed_time_milli", PNone);
             ("total_awake_time_milli", stage_summary, "total_awake_time_milli", PNone);
             ("total_no_data_time_milli", stage_summary, "total_no_data_time_milli", PNone);
             ("total_light_sleep_time_milli", stage_summary,
              "total_light_sleep_time_milli", PNone);
             ("total_slow_wave_sleep_time_milli", stage_summary,
              "total_slow_wave_sleep_time_milli", PNone);
             ("total_rem_sleep_time_milli", stage_summary, "total_rem_sleep_time_milli", PNone);
             ("sleep_cycle_count", stage_summary, "sleep_cycle_count", PNone);
             ("disturbance_count", stage_summary, "disturbance_count", PNone);
             ("baseline_milli", sleep_needed, "baseline_milli", PNone);
             ("need_from_sleep_debt_milli", sleep_needed, "need_from_sleep_debt_milli", PNone);
             ("need_from_recent_strain_milli", sleep_needed,
              "need_from_recent_strain_milli", PNone);
             ("need_from_recent_nap_milli", sleep_needed, "need_from_recent_nap_milli", PNone);
             ("respiratory_rate", score, "respiratory_rate", PNone);
             ("sleep_performance_percentage", score, "sleep_performance_percentage", PNone);
             ("sleep_consistency_percentage", score, "sleep_consistency_percentage", PNone);
             ("sleep_efficiency_percentage", score, "sleep_efficiency_percentage", PNone)].

Definition upsert_sleep (records : list pyval) : M nat :=
  match records with
  | [] => ret 0%nat
  | _ =>
      for_each records (fun record =>
        params <- lift (sleep_params record) ;;
        cur_execute UpsertSleep params) ;;
      conn_commit ;;
      logger INFO ("Upserted " +:+ pretty (length records) +:+ " sleep records") ;;
      ret (length records)
  end.

Definition workout_params (record : pyval) : result (gmap string pyval) :=
  score <-? nested record "score" ;;
  zone_duration <-? nested score "zone_duration" ;;
  params_of [("id", record, "id", PNone);
             ("user_id", record, "user_id", PStr "unknown");
             ("start", record, "start", PNone);
             ("end", record, "end", PNone);
             ("timezone_offset", record, "timezone_offset", PNone);
             ("sport_id", record, "sport_id", PNone);
             ("strain", score, "strain", PNone);
             ("average_heart_rate", score, "average_heart_rate", PNone);
             ("max_heart_rate", score, "max_heart_rate", PNone);
             ("kilojoule", score, "kilojoule", PNone);
             ("percent_recorded", score, "percent_recorded", PNone);
             ("distance_meter", score, "distance_meter", PNone);
             ("altitude_gain_meter", score, "altitude_gain_meter", PNone);
             ("altitude_change_meter", score, "altitude_change_meter", PNone);
             ("zone_zero_milli", zone_duration, "zone_zero_milli", PNone);
             ("zone_one_milli", zone_duration, "zone_one_milli", PNone);
             ("zone_two_milli", zone_duration, "zone_two_milli", PNone);
             ("zone_three_milli", zone_duration, "zone_three_milli", PNone);
             ("zone_four_milli", zone_duration, "zone_four_milli", PNone);
             ("zone_five_milli", zone_duration, "zone_five_milli", PNone)].

Definition upsert_workouts (records : list pyval) : M nat :=
  match records with
  | [] => ret 0%nat
  | _ =>
      for_each records (fun record =>
        params <- lift (workout_params record) ;;
        cur_execute UpsertWorkout params) ;;
      conn_commit ;;
      logger INFO ("Upserted " +:+ pretty (length records) +:+ " workout records") ;;
      ret (length records)
  end.

(** ** scraper.py *)

Record WhoopScraper : Type := mkWhoopScraper {
  days : Z;
  start_date : string;
  end_date : string;
  client : WhoopAPIClient DatabaseTokenStorage
}.

Definition truthy_opt (s : option string) : bool :=
  match s with
  | Some x => truthy_str x
  | None => false
  end.

(** The window chosen by [WhoopScraper.__init__]. *)
Definition scrape_window (days : Z) (start_date end_date : option string)
  : M (string * string) :=
  match start_date, end_date with
  | Some sd, Some ed =>
      if truthy_str sd && truthy_str ed then ret (sd, ed) else get_date_range days
  | _, _ => get_date_range days
  end.

Definition WhoopScraper_init (days : Z) (start_date end_date : option string)
  : M WhoopScraper :=
  window <- scrape_window days start_date end_date ;;
  settings <- get_settings ;;
  token_storage <- DatabaseTokenStorage_init
                     (Settings.database_url settings)
                     (if truthy_str (Settings.encryption_key settings)
                      then Some (Settings.encryption_key settings) else None) ;;
  auth <- WhoopAuth_init None None token_storage ;;
  modify (set_stats ∅) ;;
  ret (mkWhoopScraper days window.1 window.2 (mkWhoopAPIClient auth)).

Definition set_stat (name : string) (entry : StatEntry) : M unit :=
  modify (fun s => set_stats (<[name := entry]> (s_stats s)) s).

Definition _scrape_user_profile (self : WhoopScraper) : M unit :=
  try_except
    (logger INFO "Scraping user_profile..." ;;
     data <- get_user_profile (client self) ;;
     upsert_user_profile data ;;
     set_stat "user_profile" (Success 1))
    any_exception
    (fun e =>
       logger ERROR ("Failed to scrape user_profile: " +:+ exn_str e) ;;
       set_stat "user_profile" (Failure (exn_str e))).

Definition _scrape_body_measurement (self : WhoopScraper) : M unit :=
  try_except
    (logger INFO "Scraping body_measurement..." ;;
     data <- get_body_measurement (client self) ;;
     upsert_body_measurement data ;;
     set_stat "body_measurement" (Success 1))
    any_exception
    (fun e =>
       logger ERROR ("Failed to scrape body_measurement: " +:+ exn_str e) ;;
       set_stat "body_measurement" (Failure (exn_str e))).

Definition _scrape_cycles (fuel : nat) (self : WhoopScraper) : M unit :=
  try_except
    (logger INFO "Scraping cycles..." ;;
     data <- get_cycles fuel (client self) (start_date self) (end_date self) ;;
     count <- upsert_cycles data ;;
     set_stat "cycles" (Success count))
    any_exception
    (fun e =>
       logger ERROR ("Failed to scrape cycles: " +:+ exn_str e) ;;
       set_stat "cycles" (Failure (exn_str e))).

Definition _scrape_recovery (fuel : nat) (self : WhoopScraper) : M unit :=
  try_except
    (logger INFO "Scraping recovery..." ;;
     data <- get_recovery fuel (client self) (start_date self) (end_date self) ;;
     count <- upsert_recovery data ;;
     set_stat "recovery" (Success count))
    any_exception
    (fun e =>
       logger ERROR ("Failed to scrape recovery: " +:+ exn_str e) ;;
       set_stat "recovery" (Failure (exn_str e))).

Definition _scrape_sleep (fuel : nat) (self : WhoopScraper) : M unit :=
  try_except
    (logger INFO "Scraping sleep..." ;;
     data <- get_sleep fuel (client self) (start_date self) (end_date self) ;;
     count <- upsert_sleep data ;;
     set_stat "sleep" (Success count))
    any_exception
    (fun e =>
       logger ERROR ("Failed to scrape sleep: " +:+ exn_str e) ;;
       set_stat "sleep" (Failure (exn_str e))).

Definition _scrape_workouts (fuel : nat) (self : WhoopScraper) : M unit :=
  try_except
    (logger INFO "Scraping workouts..." ;;
     data <- get_workouts fuel (client self) (start_date self) (end_date self) ;;
     count <- upsert_workouts data ;;
     set_stat "workouts" (Success count))
    any_exception
    (fun e =>
       logger ERROR ("Failed to scrape workouts: " +:+ exn_str e) ;;
       set_stat "workouts" (Failure (exn_str e))).

(** [with psycopg.connect(url) as conn: body]: opening may fail; leaving the
    block without an exception commits. *)
Definition with_connection {A} (body : M A) : M A :=
  pg_session (a <- body ;; conn_commit ;; ret a).

Definition scrape_all (fuel : nat) (self : WhoopScraper) : M (pydict StatEntry) :=
  logger INFO ("Starting scrape for " +:+ pretty (days self) +:+ " days: "
               +:+ start_date self +:+ " to " +:+ end_date self) ;;
  with_connection
    (_scrape_user_profile self ;;
     _scrape_body_measurement self ;;
     _scrape_cycles fuel self ;;
     _scrape_recovery fuel self ;;
     _scrape_sleep fuel self ;;
     _scrape_workouts fuel self) ;;
  logger INFO "Scrape completed successfully" ;;
  gets s_stats.

(** ** __init__.py: the scrape command *)

(** The arguments of the [scrape] sub-command: [--days], [--start-date] and
    [--end-date], each [None] when not given. *)
Record ScrapeArgs : Type := mkScrapeArgs {
  arg_days : option Z;
  arg_start_date : option string;
  arg_end_date : option string
}.

Definition newline : string := String (Ascii.ascii_of_nat 10) EmptyString.

(** The line printed for one endpoint of the result map. *)
Definition result_line (endpoint : string) (entry : StatEntry) : string :=
  match entry with
  | Success count => "  " +:+ endpoint +:+ ": " +:+ pretty count +:+ " records"
  | Failure err => "  " +:+ endpoint +:+ ": FAILED - " +:+ err
  end.

Definition records_of (entry : StatEntry) : nat :=
  match entry with
  | Success count => count
  | Failure _ => 0%nat
  end.

(** [cmd_scrape] returns the exit status; with it comes what it has printed
    on standard output, the endpoints in the order they entered the result
    map. *)
Definition cmd_scrape (fuel : nat) (args : ScrapeArgs) : M (Z * list string) :=
  settings <- get_settings ;;
  let days := match arg_days args with
              | Some d => if d =? 0 then Settings.scrape_days settings else d
              | None => Settings.scrape_days settings
              end in
  try_except
    (scraper <- WhoopScraper_init days (arg_start_date args) (arg_end_date args) ;;
     stats <- scrape_all fuel scraper ;;
     let items : list (string * StatEntry) := stats in
     let total_records := sum_list ((fun item => records_of item.2) <$> items) in
     ret (0, [newline +:+ "Scrape completed (" +:+ start_date scraper +:+ " to "
                +:+ end_date scraper +:+ ")";
              "Results:"]
             ++ ((fun item => result_line item.1 item.2) <$> items)
             ++ [newline +:+ "Total: " +:+ pretty total_records +:+ " records"]))
    any_exception
    (fun e =>
       logger ERROR ("Scrape failed: " +:+ exn_str e) ;;
       ret (1, [])).

(** * Vocabulary of the statements, and sample surroundings *)

Definition absent_or_null (d : gmap string pyval) (k : string) : Prop :=
  d !! k = None \/ d !! k = Some PNone.

(** The sub-object is missing, null, or an object. *)
Definition object_if_present (d : gmap string pyval) (k : string) : Prop :=
  absent_or_null d k \/ exists d', d !! k = Some (PDict d').

Definition all_null (p : gmap string pyval) (names : list string) : Prop :=
  Forall (fun n => p !! n = Some PNone) names.

Definition cycle_score_fields : list string :=
  ["strain"; "kilojoule"; "average_heart_rate"; "max_heart_rate"].
Definition recovery_score_fields : list string :=
  ["recovery_score"; "resting_heart_rate"; "hrv_rmssd_milli"; "spo2_percentage";
   "skin_temp_celsius"].
Definition stage_summary_fields : list string :=
  ["total_in_bed_time_milli"; "total_awake_time_milli"; "total_no_data_time_milli";
   "total_light_sleep_time_milli"; "total_slow_wave_sleep_time_milli";
   "total_rem_sleep_time_milli"; "sleep_cycle_count"; "disturbance_count"].
Definition sleep_needed_fields : list string :=
  ["baseline_milli"; "need_from_sleep_debt_milli"; "need_from_recent_strain_milli";
   "need_from_recent_nap_milli"].
Definition sleep_score_fields : list string :=
  ["respiratory_rate"; "sleep_performance_percentage"; "sleep_consistency_percentage";
   "sleep_efficiency_percentage"].
Definition workout_score_fields : list string :=
  ["strain"; "average_heart_rate"; "max_heart_rate"; "kilojoule"; "percent_recorded";
   "distance_meter"; "altitude_gain_meter"; "altitude_change_meter"].
Definition zone_duration_fields : list string :=
  ["zone_zero_milli"; "zone_one_milli"; "zone_two_milli"; "zone_three_milli";
   "zone_four_milli"; "zone_five_milli"].

Definition sample_settings : Settings.t :=
  Settings.mk "postgresql://health:@localhost:5432/health" "client" "secret" "" "" "" "" 7.

(** A stand-in for the ISO codec on timestamps: the decimal numeral of the
    microsecond count, read back only for the one numeral the examples
    store. *)
Definition sample_env : Env :=
  {| e_clock := fun n => 1000000000 + Z.of_nat n;
     e_today := 739000;
     e_settings := sample_settings;
     e_provider := fun _ _ => NoResponse "connection refused";
     e_pg_fail := fun _ => None;
     e_pg_reject := fun _ _ => None;
     e_token_urlsafe := fun n => "nonce-" +:+ pretty n;
     e_urlencode := fun l => join_spaces ((fun kv => kv.1 +:+ "=" +:+ kv.2) <$> l);
     e_isoformat := fun t => pretty t;
     e_fromisoformat := fun x => if String.eqb x "0" then Value 0
                                 else Error (ValueError "Invalid isoformat string");
     e_date_isoformat := fun d => pretty d;
     e_fernet := fun _ => Error (ValueError "Fernet key must be 32 url-safe base64-encoded bytes.");
     e_home := "/home/user";
     e_callback := fun _ _ => None |}.

Definition initial_state : State :=
  {| s_ticks := 0; s_sent := []; s_fs := ∅; s_pg_sessions := 0; s_pg_tokens := None;
     s_pg_ops := []; s_log := []; s_nonces := 0; s_tokens := None;
     s_handler := mkHandler None None None; s_stats := ∅ |}.

Definition tick (s : State) : State := set_ticks (S (s_ticks s)) s.
Definition now_of (env : Env) (s : State) : datetime := e_clock env (s_ticks s).

Definition bootstrap_present (env : Env) : bool :=
  truthy_str (Settings.access_token (e_settings env))
  && truthy_str (Settings.refresh_token (e_settings env)).

(** The dictionary written by [to_dict], with the timestamp already printed. *)
Definition token_dict (T : OAuthTokens) (printed : string) : gmap string pyval :=
  <["access_token" := PStr (access_token T)]>
  (<["refresh_token" := PStr (refresh_token T)]>
  (<["expires_at" := PStr printed]>
  (<["token_type" := PStr (token_type T)]> ∅))).

Definition cipher_inverts (self : DatabaseTokenStorage) (x : string) : Prop :=
  forall c, _cipher self = Some c -> decrypt c (encrypt c x) = Value x.

Definition row_of (self : DatabaseTokenStorage) (T : OAuthTokens) : TokenRow :=
  mkRow (_encrypt self (access_token T)) (_encrypt self (refresh_token T))
        (expires_at T) (Some (token_type T)).

Definition bootstrap_settings : Settings.t :=
  Settings.mk "postgresql://health:@localhost:5432/health" "client" "secret"
              "boot-access" "boot-refresh" "" "" 7.

Definition with_settings (st : Settings.t) (env : Env) : Env :=
  mkEnv (e_clock env) (e_today env) st (e_provider env) (e_pg_fail env) (e_pg_reject env)
        (e_token_urlsafe env) (e_urlencode env) (e_isoformat env) (e_fromisoformat env)
        (e_date_isoformat env) (e_fernet env) (e_home env) (e_callback env).

Definition bootstrap_env : Env := with_settings bootstrap_settings sample_env.

Definition sample_tokens : OAuthTokens := mkTokens "a" "r" 0 "bearer".
Definition sample_file_store : TokenStorage := mkTokenStorage "/home/user/tokens.json".
Definition plain_db_store : DatabaseTokenStorage := mkDatabaseTokenStorage "postgresql://" None.

(** A toy cipher: a marker in front of the plaintext. *)
Definition marker_cipher : Fernet :=
  mkFernet (fun x => String (Ascii.ascii_of_nat 103) x)
           (fun x => match x with
                     | String c rest =>
                         if Ascii.eqb c (Ascii.ascii_of_nat 103) then Value rest
                         else Error InvalidToken
                     | _ => Error InvalidToken
                     end).
Definition encrypted_db_store : DatabaseTokenStorage :=
  mkDatabaseTokenStorage "postgresql://" (Some marker_cipher).

(** What [from_token_response] builds from a response read at [now]. *)
Definition tokens_of_response (response : pyval) (now : datetime) : result OAuthTokens :=
  expires_in <-? dict_get response "expires_in" (PInt 3600) ;;
  delta <-? timedelta_of expires_in ;;
  a <-? dict_item response "access_token" ;;
  a <-? as_str a ;;
  r <-? dict_item response "refresh_token" ;;
  r <-? as_str r ;;
  t <-? dict_get response "token_type" (PStr "bearer") ;;
  t <-? as_str t ;;
  Value (mkTokens a r (now + delta) t).

Definition bootstrap_tokens (env : Env) (now : datetime) : OAuthTokens :=
  mkTokens (Settings.access_token (e_settings env))
           (Settings.refresh_token (e_settings env)) now "bearer".

Definition after_bootstrap_load (s : State) : State :=
  set_ticks (S (s_ticks s))
    (set_log (s_log s ++ [(DEBUG, "Loading tokens from environment variables (bootstrap)")])
       (set_pg_sessions (S (s_pg_sessions s)) s)).

Definition refresh_request {S} (self : WhoopAuth S) (rt : string) : HttpRequest :=
  POST TOKEN_URL
       [("grant_type", "refresh_token"); ("refresh_token", rt);
        ("client_id", client_id self); ("client_secret", client_secret self);
        ("scope", join_spaces ALL_SCOPES)].

Section TokenManagerVocabulary.
Context {S : Type} `{!TokenStorageProtocol S}.
Variable self : WhoopAuth S.
Variable env : Env.

Definition not_authenticated : exn :=
  ValueError "No tokens available. Run 'whoop-scraper auth' first.".

Definition expired_at (now : datetime) (t : OAuthTokens) : Prop :=
  now >= expires_at t - 300000000.

(** The state in which [get_valid_token] turns to the storage: the clock has
    been read once if there was a cached token to check. *)
Definition state_at_load (s : State) : State :=
  match s_tokens s with
  | Some _ => tick s
  | None => s
  end.

Definition cache_unusable (s : State) : Prop :=
  match s_tokens s with
  | Some t => expired_at (now_of env s) t
  | None => True
  end.

Definition announce_refresh (s : State) : State :=
  set_log (s_log s ++ [(INFO, "Access token expired, refreshing...")]) s.

Definition refresh_done (T : OAuthTokens) (s : State) : State :=
  set_log (s_log s ++ [(INFO, "Tokens refreshed successfully")]) (set_tokens (Some T) s).

(** What [get_valid_token] does once the cache has been found unusable. *)
Definition from_storage : M string :=
  tokens <- load (storage self) ;;
  match tokens with
  | None => raise not_authenticated
  | Some t =>
      expired <- is_expired t ;;
      t' <- (if expired
             then logger INFO "Access token expired, refreshing..." ;;
                  refresh_tokens self (Some (refresh_token t))
             else ret t) ;;
      modify (set_tokens (Some t')) ;;
      ret (access_token t')
  end.

(** How the token handed out by [get_valid_token] was obtained. *)
Inductive provenance (s : State) (t : OAuthTokens) : Prop :=
| from_cache :
    s_tokens s = Some t -> ~ expired_at (now_of env s) t -> provenance s t
| from_store (s2 : State) :
    cache_unusable s ->
    load (storage self) env (state_at_load s) = (Ok (Some t), s2) ->
    ~ expired_at (now_of env s2) t -> provenance s t
| from_refresh (old : OAuthTokens) (s2 sr s3 s4 : State) (body : pyval)
               (expires_in : pyval) (delta : timedelta) :
    cache_unusable s ->
    load (storage self) env (state_at_load s) = (Ok (Some old), s2) ->
    expired_at (now_of env s2) old ->
    from_token_response body env sr = (Ok t, s3) ->
    dict_get body "expires_in" (PInt 3600) = Value expires_in ->
    timedelta_of expires_in = Value delta ->
    expires_at t = now_of env sr + delta ->
    save (storage self) t env s3 = (Ok tt, s4) ->
    provenance s t.

End TokenManagerVocabulary.

(** A provider that issues tokens living one minute. *)
Definition short_lived_response : pyval :=
  PDict (<["access_token" := PStr "new"]>
        (<["refresh_token" := PStr "r2"]>
        (<["expires_in" := PInt 60]> ∅))).

Definition short_lived_env : Env :=
  mkEnv (e_clock sample_env) (e_today sample_env) sample_settings
        (fun _ _ => Response 200 (Some short_lived_response))
        (e_pg_fail sample_env) (e_pg_reject sample_env)
        (e_token_urlsafe sample_env) (e_urlencode sample_env) (e_isoformat sample_env)
        (e_fromisoformat sample_env) (e_date_isoformat sample_env) (e_fernet sample_env)
        (e_home sample_env) (e_callback sample_env).

Definition stale_row_state : State :=
  set_pg_tokens (Some (mkRow "old" "r1" 0 (Some "bearer"))) initial_state.

Definition sample_auth : WhoopAuth DatabaseTokenStorage :=
  mkWhoopAuth "client" "secret" plain_db_store.

Definition respects (R : State -> State -> Prop) {A} (c : M A) : Prop :=
  forall env s, R s (c env s).2.

Definition same_sent (s s' : State) : Prop := s_sent s' = s_sent s.

(** What [refresh_tokens] does with the provider's answer. *)
Definition after_response {S} `{!TokenStorageProtocol S} (self : WhoopAuth S)
           (response : HttpOutcome) : M OAuthTokens :=
  body <- raise_for_status_json response ;;
  tokens <- from_token_response body ;;
  save (storage self) tokens ;;
  modify (set_tokens (Some tokens)) ;;
  logger INFO "Tokens refreshed successfully" ;;
  ret tokens.

Definition redirect_uri_of (port : Z) : string :=
  "http://localhost:" +:+ pretty port +:+ "/callback".

Definition authorization_url {S} (self : WhoopAuth S) (env : Env)
           (redirect_uri nonce : string) : string :=
  AUTHORIZE_URL +:+ "?" +:+
  e_urlencode env [("response_type", "code"); ("client_id", client_id self);
                   ("redirect_uri", redirect_uri); ("scope", join_spaces ALL_SCOPES);
                   ("state", nonce)].

(** The state value carried by a callback, if any. *)
Definition callback_state (params : QueryParams) : option string :=
  match params !! "state" with
  | Some (x :: _) => Some x
  | _ => None
  end.

Definition state_mismatch : exn := ValueError "State mismatch - possible CSRF attack".

(** A callback that carries a code but not the nonce of the run. *)
Definition forged_params : QueryParams :=
  <["code" := ["abc"]]> (<["state" := ["forged"]]> ∅).

Definition forged_callback_env : Env :=
  mkEnv (e_clock sample_env) (e_today sample_env) sample_settings
        (e_provider sample_env) (e_pg_fail sample_env) (e_pg_reject sample_env)
        (e_token_urlsafe sample_env) (e_urlencode sample_env) (e_isoformat sample_env)
        (e_fromisoformat sample_env) (e_date_isoformat sample_env) (e_fernet sample_env)
        (e_home sample_env) (fun _ _ => Some forged_params).

(** A page as the provider sends it: the JSON body, the list under "records"
    and the value under "next_token" ([PNone] when the body has none). *)
Record Page : Type := mkPage {
  page_body : pyval;
  page_records : list pyval;
  page_next : pyval
}.

Definition well_formed_page (p : Page) : Prop :=
  dict_get (page_body p) "records" (PList []) = Value (PList (page_records p))
  /\ dict_get (page_body p) "next_token" PNone = Value (page_next p).

(** The request for one page of a paginated endpoint, as it goes over the
    wire: the token, the window of the fetch and, when there is one, the
    cursor. *)
Definition page_request (token endpoint sd ed : string) (cursor : pyval) : HttpRequest :=
  GET (BASE_URL +:+ endpoint)
      [("Authorization", "Bearer " +:+ token); ("Content-Type", "application/json")]
      ([("start", PStr (sd +:+ "T00:00:00.000Z"));
        ("end", PStr (ed +:+ "T23:59:59.999Z"))]
       ++ (if truthy cursor then [("nextToken", cursor)] else []))%list.

(** The provider hands out [pages] to a client that follows the cursors:
    asked, after the requests [hist], for the page at [cursor], it answers
    with the first of them; asked then for the page at that page's
    next_token, with the second; and so on.  Nothing is said of what it
    answers to any other request. *)
Fixpoint hands_out (env : Env) (token endpoint sd ed : string)
         (hist : list HttpRequest) (cursor : pyval) (pages : list Page) : Prop :=
  match pages with
  | [] => True
  | p :: rest =>
      e_provider env hist (page_request token endpoint sd ed cursor)
      = Response 200 (Some (page_body p))
      /\ hands_out env token endpoint sd ed
           (hist ++ [page_request token endpoint sd ed cursor]) (page_next p) rest
  end.

Definition api_request (token endpoint : string) (params : list (string * pyval))
  : HttpRequest :=
  GET (BASE_URL +:+ endpoint)
      [("Authorization", "Bearer " +:+ token); ("Content-Type", "application/json")]
      params.

(** The cursor sent with each request: none at first, then the one received
    with the page before. *)
Fixpoint cursors (first_cursor : pyval) (pages : list Page) : list pyval :=
  match pages with
  | [] => []
  | p :: rest => first_cursor :: cursors (page_next p) rest
  end.

(** The cursor a client holds after [pages]. *)
Fixpoint final_cursor (first_cursor : pyval) (pages : list Page) : pyval :=
  match pages with
  | [] => first_cursor
  | p :: rest => final_cursor (page_next p) rest
  end.

(** Two pages on a provider that hands out one cursor. *)
Definition first_page : Page :=
  mkPage (PDict (<["records" := PList [PInt 1; PInt 2]]> (<["next_token" := PStr "c1"]> ∅)))
         [PInt 1; PInt 2] (PStr "c1").
Definition second_page : Page :=
  mkPage (PDict (<["records" := PList [PInt 3]]> ∅)) [PInt 3] PNone.

Definition paging_env : Env :=
  mkEnv (fun _ => 1000000000) (e_today sample_env) sample_settings
        (fun hist _ => match hist with
                       | [] => Response 200 (Some (page_body first_page))
                       | _ => Response 200 (Some (page_body second_page))
                       end)
        (e_pg_fail sample_env) (e_pg_reject sample_env)
        (e_token_urlsafe sample_env) (e_urlencode sample_env) (e_isoformat sample_env)
        (e_fromisoformat sample_env) (e_date_isoformat sample_env) (e_fernet sample_env)
        (e_home sample_env) (e_callback sample_env).

(** The value of a query parameter of a request. *)
Fixpoint query_param (name : string) (params : list (string * pyval)) : option pyval :=
  match params with
  | [] => None
  | (k, v) :: rest => if String.eqb k name then Some v else query_param name rest
  end.

(** A provider that answers by the cursor it is sent, whatever came before:
    the first page to a request without cursor, the second to the cursor of
    the first, and 404 to any other cursor. *)
Definition keyed_env : Env :=
  mkEnv (fun _ => 1000000000) (e_today sample_env) sample_settings
        (fun _ req => match req with
                      | GET _ _ params =>
                          match query_param "nextToken" params with
                          | None => Response 200 (Some (page_body first_page))
                          | Some (PStr c) =>
                              if String.eqb c "c1"
                              then Response 200 (Some (page_body second_page))
                              else Response 404 None
                          | Some _ => Response 404 None
                          end
                      | POST _ _ => NoResponse "connection refused"
                      end)
        (e_pg_fail sample_env) (e_pg_reject sample_env)
        (e_token_urlsafe sample_env) (e_urlencode sample_env) (e_isoformat sample_env)
        (e_fromisoformat sample_env) (e_date_isoformat sample_env) (e_fernet sample_env)
        (e_home sample_env) (e_callback sample_env).

Definition long_lived_tokens : OAuthTokens := mkTokens "tok" "r" 2000000000 "bearer".
Definition authorized_state : State := set_tokens (Some long_lived_tokens) initial_state.
Definition sample_client : WhoopAPIClient DatabaseTokenStorage := mkWhoopAPIClient sample_auth.

Definition total {A} (c : M A) : Prop := forall env s, (c env s).1 <> OutOfFuel.

Definition sent_grows (s s' : State) : Prop :=
  (length (s_sent s) <= length (s_sent s'))%nat.

(** From the [bound]-th request on, no response carries a truthy
    next_token. *)
Definition cursor_free_after (env : Env) (bound : nat) : Prop :=
  forall hist req st body nt,
    (bound <= length hist)%nat ->
    e_provider env hist req = Response st (Some body) ->
    dict_get body "next_token" PNone = Value nt ->
    truthy nt = false.

Definition same_stats (s s' : State) : Prop := s_stats s' = s_stats s.

(** The entry a category records for the outcome of its work. *)
Definition entry_of (o : outcome nat) : StatEntry :=
  match o with
  | Ok n => Success n
  | Raise e => Failure (exn_str e)
  | OutOfFuel => Failure ""
  end.

(** The common shape of the six [_scrape_*] methods. *)
Definition guarded (name : string) (work : M nat) : M unit :=
  try_except
    (logger INFO ("Scraping " +:+ name +:+ "...") ;;
     n <- work ;;
     set_stat name (Success n))
    any_exception
    (fun e =>
       logger ERROR ("Failed to scrape " +:+ name +:+ ": " +:+ exn_str e) ;;
       set_stat name (Failure (exn_str e))).

Definition scraping (name : string) (s : State) : State :=
  set_log (s_log s ++ [(INFO, "Scraping " +:+ name +:+ "...")]) s.

(** The work of each category: fetch, then upsert, giving the record count. *)
Definition user_profile_work (self : WhoopScraper) : M nat :=
  data <- get_user_profile (client self) ;;
  upsert_user_profile data ;;
  ret 1%nat.

Definition body_measurement_work (self : WhoopScraper) : M nat :=
  data <- get_body_measurement (client self) ;;
  upsert_body_measurement data ;;
  ret 1%nat.

Definition cycles_work (fuel : nat) (self : WhoopScraper) : M nat :=
  data <- get_cycles fuel (client self) (start_date self) (end_date self) ;;
  upsert_cycles data.

Definition recovery_work (fuel : nat) (self : WhoopScraper) : M nat :=
  data <- get_recovery fuel (client self) (start_date self) (end_date self) ;;
  upsert_recovery data.

Definition sleep_work (fuel : nat) (self : WhoopScraper) : M nat :=
  data <- get_sleep fuel (client self) (start_date self) (end_date self) ;;
  upsert_sleep data.

Definition workouts_work (fuel : nat) (self : WhoopScraper) : M nat :=
  data <- get_workouts fuel (client self) (start_date self) (end_date self) ;;
  upsert_workouts data.

Definition categories : list string :=
  ["user_profile"; "body_measurement"; "cycles"; "recovery"; "sleep"; "workouts"].

(** The body of the [with] block of [scrape_all]. *)
Definition all_categories (fuel : nat) (self : WhoopScraper) : M unit :=
  _scrape_user_profile self ;;
  _scrape_body_measurement self ;;
  _scrape_cycles fuel self ;;
  _scrape_recovery fuel self ;;
  _scrape_sleep fuel self ;;
  _scrape_workouts fuel self.

Definition start_message (self : WhoopScraper) : string :=
  "Starting scrape for " +:+ pretty (days self) +:+ " days: "
  +:+ start_date self +:+ " to " +:+ end_date self.

(** The state in which the first category starts: the opening line is
    logged and the connection is open. *)
Definition connected (self : WhoopScraper) (s : State) : State :=
  set_pg_sessions (S (s_pg_sessions s))
    (set_log (s_log s ++ [(INFO, start_message self)]) s).

(** What a run of [scrape_all] amounts to once its connection is open: the
    six categories run one after the other, in this order, each from the
    state the one before left and each coming back normally; the result map
    holds, for each of them, the entry for the outcome of its own work; and
    the run returns that map unless the commit that closes the connection is
    rejected. *)
Definition scrape_report (fuel : nat) (self : WhoopScraper) (env : Env) (s : State) : Prop :=
  exists s1 s2 s3 s4 s5 s6,
    _scrape_user_profile self env (connected self s) = (Ok tt, s1)
    /\ _scrape_body_measurement self env s1 = (Ok tt, s2)
    /\ _scrape_cycles fuel self env s2 = (Ok tt, s3)
    /\ _scrape_recovery fuel self env s3 = (Ok tt, s4)
    /\ _scrape_sleep fuel self env s4 = (Ok tt, s5)
    /\ _scrape_workouts fuel self env s5 = (Ok tt, s6)
    /\ s_stats s6 !! "user_profile"
       = Some (entry_of (user_profile_work self env
                           (scraping "user_profile" (connected self s))).1)
    /\ s_stats s6 !! "body_measurement"
       = Some (entry_of (body_measurement_work self env (scraping "body_measurement" s1)).1)
    /\ s_stats s6 !! "cycles"
       = Some (entry_of (cycles_work fuel self env (scraping "cycles" s2)).1)
    /\ s_stats s6 !! "recovery"
       = Some (entry_of (recovery_work fuel self env (scraping "recovery" s3)).1)
    /\ s_stats s6 !! "sleep"
       = Some (entry_of (sleep_work fuel self env (scraping "sleep" s4)).1)
    /\ s_stats s6 !! "workouts"
       = Some (entry_of (workouts_work fuel self env (scraping "workouts" s5)).1)
    /\ Forall (fun name => is_Some (s_stats s6 !! name)) categories
    /\ scrape_all fuel self env s
       = match e_pg_reject env (s_pg_ops s6) Commit with
         | None =>
             (Ok (s_stats s6),
              set_log (s_log s6 ++ [(INFO, "Scrape completed successfully")])
                      (set_pg_ops (s_pg_ops s6 ++ [Commit]) s6))
         | Some msg =>
             (Raise (PsycopgError msg), set_pg_ops (s_pg_ops s6 ++ [Commit]) s6)
         end.

Definition sample_scraper : WhoopScraper :=
  mkWhoopScraper 7 "2024-01-01" "2024-01-08" sample_client.

(** A database that refuses connections. *)
Definition down_env : Env :=
  mkEnv (e_clock sample_env) (e_today sample_env) sample_settings
        (e_provider sample_env) (fun _ => Some "connection refused")
        (e_pg_reject sample_env)
        (e_token_urlsafe sample_env) (e_urlencode sample_env) (e_isoformat sample_env)
        (e_fromisoformat sample_env) (e_date_isoformat sample_env) (e_fernet sample_env)
        (e_home sample_env) (e_callback sample_env).

(** A provider whose cycle endpoint is unreachable and whose other endpoints
    answer with an empty object. *)
Definition partial_env : Env :=
  mkEnv (fun _ => 1000000000) (e_today sample_env) sample_settings
        (fun _ req => match req with
                      | GET url _ _ =>
                          if String.eqb url (BASE_URL +:+ "/cycle")
                          then NoResponse "network unreachable"
                          else Response 200 (Some (PDict ∅))
                      | POST _ _ => NoResponse "network unreachable"
                      end)
        (e_pg_fail sample_env) (e_pg_reject sample_env)
        (e_token_urlsafe sample_env) (e_urlencode sample_env) (e_isoformat sample_env)
        (e_fromisoformat sample_env) (e_date_isoformat sample_env) (e_fernet sample_env)
        (e_home sample_env) (e_callback sample_env).

(** ** Further vocabulary: the two stores *)

(** A token file whose timestamp is not in ISO format. *)
Definition garbled_file : File :=
  mkFile (JsonText (PDict (<["access_token" := PStr "a"]>
                          (<["refresh_token" := PStr "r"]>
                          (<["expires_at" := PStr "yesterday"]> ∅))))) 384.

Definition garbled_state : State :=
  set_fs (<["/home/user/tokens.json" := garbled_file]> ∅) initial_state.

(** A row written under another key. *)
Definition foreign_row_state : State :=
  set_pg_tokens (Some (mkRow "x-old" "x-r1" 0 (Some "bearer"))) initial_state.

Definition database_warning (msg : string) : LogLevel * string :=
  (WARNING, "Failed to load tokens from database: " +:+ msg).

(** What the database store falls back to when the table gives nothing. *)
Definition bootstrap_fallback (env : Env) (now : datetime) : option OAuthTokens :=
  if bootstrap_present env then Some (bootstrap_tokens env now) else None.

(** ** Further vocabulary: the token endpoint *)

Definition exchange_request {S} (self : WhoopAuth S) (code redirect_uri : string)
  : HttpRequest :=
  POST TOKEN_URL
       [("grant_type", "authorization_code"); ("code", code);
        ("redirect_uri", redirect_uri); ("client_id", client_id self);
        ("client_secret", client_secret self)].

Definition exchange_done (T : OAuthTokens) (s : State) : State :=
  set_log (s_log s ++ [(INFO, "Authorization successful, tokens stored")])
          (set_tokens (Some T) s).

Definition no_stored_tokens : exn :=
  ValueError "No stored tokens and no refresh_token provided".

(** A token endpoint that turns every request down. *)
Definition rejecting_env : Env :=
  mkEnv (e_clock sample_env) (e_today sample_env) sample_settings
        (fun _ _ => Response 401 None)
        (e_pg_fail sample_env) (e_pg_reject sample_env)
        (e_token_urlsafe sample_env) (e_urlencode sample_env) (e_isoformat sample_env)
        (e_fromisoformat sample_env) (e_date_isoformat sample_env) (e_fernet sample_env)
        (e_home sample_env) (e_callback sample_env).

(** The lifetime of a token response can be read: expires_in is absent, or
    it is a JSON number. *)
Definition lifetime_readable (d : gmap string pyval) : Prop :=
  match d !! "expires_in" with
  | None => True
  | Some v => exists delta, timedelta_of v = Value delta
  end.

(** A token endpoint that answers without a refresh token. *)
Definition access_only_response : gmap string pyval :=
  <["access_token" := PStr "new"]> (<["expires_in" := PInt 3600]> ∅).

Definition access_only_env : Env :=
  mkEnv (e_clock sample_env) (e_today sample_env) sample_settings
        (fun _ _ => Response 200 (Some (PDict access_only_response)))
        (e_pg_fail sample_env) (e_pg_reject sample_env)
        (e_token_urlsafe sample_env) (e_urlencode sample_env) (e_isoformat sample_env)
        (e_fromisoformat sample_env) (e_date_isoformat sample_env) (e_fernet sample_env)
        (e_home sample_env) (e_callback sample_env).

Definition minimal_response : gmap string pyval :=
  <["access_token" := PStr "new"]> (<["refresh_token" := PStr "r2"]> ∅).

(** ** Further vocabulary: the interactive flow *)

Definition authorization_denied (e : string) : exn :=
  ValueError ("Authorization failed: " +:+ e).

Definition authorization_timed_out : exn :=
  ValueError "Authorization timed out or failed".

(** The state in which [authorize_interactive] waits for the callback: the
    nonce is drawn, the handler attributes are reset and the two lines are
    logged. *)
Definition awaiting_callback (url : string) (s : State) : State :=
  set_log ((s_log s ++ [(INFO, "Opening browser for authorization...")])
           ++ [(INFO, "If browser doesn't open, visit: " +:+ url)])
          (set_handler (mkHandler None None None)
                       (set_nonces (S (s_nonces s)) s)).

Definition with_callback (params : option QueryParams) (env : Env) : Env :=
  mkEnv (e_clock env) (e_today env) (e_settings env) (e_provider env) (e_pg_fail env)
        (e_pg_reject env) (e_token_urlsafe env) (e_urlencode env) (e_isoformat env)
        (e_fromisoformat env) (e_date_isoformat env) (e_fernet env) (e_home env)
        (fun _ _ => params).

(** A callback of a user who refused, carrying a code and the nonce all the
    same. *)
Definition denied_params : QueryParams :=
  <["error" := ["access_denied"]]>
    (<["code" := ["abc"]]> (<["state" := [e_token_urlsafe sample_env 0]]> ∅)).

(** The callback of a user who agreed. *)
Definition granted_params : QueryParams :=
  <["code" := ["abc"]]> (<["state" := [e_token_urlsafe sample_env 0]]> ∅).

(** ** Further vocabulary: API calls that fail or never end *)

(** The response is one [_get] turns into the exception [e]. *)
Definition fails_with (response : HttpOutcome) (e : exn) : Prop :=
  forall env s, raise_for_status_json response env s = (Raise e, s).

(** A provider that answers by cursor: the first page to a request without
    cursor, and out of order for every request that carries one. *)
Definition flaky_env : Env :=
  mkEnv (fun _ => 1000000000) (e_today sample_env) sample_settings
        (fun _ req => match req with
                      | GET _ _ params =>
                          match query_param "nextToken" params with
                          | None => Response 200 (Some (page_body first_page))
                          | Some _ => Response 503 None
                          end
                      | POST _ _ => NoResponse "connection refused"
                      end)
        (e_pg_fail sample_env) (e_pg_reject sample_env)
        (e_token_urlsafe sample_env) (e_urlencode sample_env) (e_isoformat sample_env)
        (e_fromisoformat sample_env) (e_date_isoformat sample_env) (e_fernet sample_env)
        (e_home sample_env) (e_callback sample_env).

(** A provider whose every page names a next one. *)
Definition endless_env : Env :=
  mkEnv (fun _ => 1000000000) (e_today sample_env) sample_settings
        (fun _ _ => Response 200 (Some (page_body first_page)))
        (e_pg_fail sample_env) (e_pg_reject sample_env)
        (e_token_urlsafe sample_env) (e_urlencode sample_env) (e_isoformat sample_env)
        (e_fromisoformat sample_env) (e_date_isoformat sample_env) (e_fernet sample_env)
        (e_home sample_env) (e_callback sample_env).

(** ** Further vocabulary: what an upsert issues *)

(** The loop of a multi-record upsert. *)
Definition batch (stmt : Statement) (flatten : pyval -> result (gmap string pyval))
           (records : list pyval) : M unit :=
  for_each records (fun record =>
    params <- lift (flatten record) ;;
    cur_execute stmt params).

(** What a run of a multi-record upsert from [s] has issued on the
    connection: one statement for each record of [done], a prefix of the
    records, each with the flattened record as parameters.  A run that
    returns has gone through all records, issued one commit after the
    statements, and returns their number; a run that raises has issued no
    commit, or has had its commit rejected. *)
Definition batch_outcome (stmt : Statement)
           (flatten : pyval -> result (gmap string pyval))
           (records : list pyval) (env : Env) (s : State)
           (run : outcome nat * State) : Prop :=
  exists done ps,
    done `prefix_of` records
    /\ Forall2 (fun record params => flatten record = Value params) done ps
    /\ match run.1 with
       | Ok n =>
           n = length records /\ done = records
           /\ s_pg_ops run.2 = s_pg_ops s ++ (Execute stmt <$> ps) ++ [Commit]
           /\ e_pg_reject env (s_pg_ops s ++ (Execute stmt <$> ps)) Commit = None
       | Raise e =>
           s_pg_ops run.2 = s_pg_ops s ++ (Execute stmt <$> ps)
           \/ (done = records
               /\ s_pg_ops run.2 = s_pg_ops s ++ (Execute stmt <$> ps) ++ [Commit]
               /\ exists msg,
                    e_pg_reject env (s_pg_ops s ++ (Execute stmt <$> ps)) Commit = Some msg
                    /\ e = PsycopgError msg)
       | OutOfFuel => False
       end.

Definition two_cycles : list pyval :=
  [PDict (<["id" := PInt 1]> ∅); PDict (<["id" := PInt 2]> ∅)].

Definition missing_user_id : exn := PsycopgError "query parameter missing: user_id".

Definition anonymous_measurement : gmap string pyval :=
  <["height_meter" := PInt 2]> ∅.

(** ** Further vocabulary: the scraper and its command *)

(** The number of days [cmd_scrape] passes on. *)
Definition effective_days (args : ScrapeArgs) (env : Env) : Z :=
  match arg_days args with
  | Some d => if d =? 0 then Settings.scrape_days (e_settings env) else d
  | None => Settings.scrape_days (e_settings env)
  end.

(** The server accepts every commit. *)
Definition commits_accepted (env : Env) : Prop :=
  forall ops, e_pg_reject env ops Commit = None.

Definition no_args : ScrapeArgs := mkScrapeArgs None None None.

(** The token table row of a token stored as it is. *)
Definition plain_row (T : OAuthTokens) : TokenRow :=
  mkRow (access_token T) (refresh_token T) (expires_at T) (Some (token_type T)).

(** ** Further vocabulary: dates *)

(** Today minus [days] days is a date: the number of days is one a timedelta
    holds, and the day lies between [date.min] and [date.max]. *)
Definition representable (today days : Z) : Prop :=
  -999999999 <= days <= 999999999 /\ 1 <= today - days <= 3652059.

(** * Properties *)

(** ** Running the monad *)

Lemma bind_ok {A B} (c : M A) (k : A -> M B) env s a s' :
  c env s = (Ok a, s') -> bind c k env s = k a env s'.
Proof. intros H. unfold bind. now rewrite H. Qed.

Lemma bind_raise {A B} (c : M A) (k : A -> M B) env s e s' :
  c env s = (Raise e, s') -> bind c k env s = (Raise e, s').
Proof. intros H. unfold bind. now rewrite H. Qed.

Lemma bind_out_of_fuel {A B} (c : M A) (k : A -> M B) env s s' :
  c env s = (OutOfFuel, s') -> bind c k env s = (OutOfFuel, s').
Proof. intros H. unfold bind. now rewrite H. Qed.

(** Symbolic execution of the monadic primitives and of the state accessors. *)
Ltac msimpl :=
  cbv beta iota zeta delta
      [bind ret raise lift ask gets modify try_except logger datetime_now date_today
       get_settings http_send pg_session pg_issue cur_execute conn_commit
       set_ticks set_sent set_fs set_pg_sessions set_pg_tokens set_pg_ops set_log
       set_nonces set_tokens set_handler set_stats rbind];
  cbn [s_ticks s_sent s_fs s_pg_sessions s_pg_tokens s_pg_ops s_log s_nonces s_tokens
       s_handler s_stats fst snd].

(** ** Expiry (C2) *)


(** ** Empty input lists (C9) *)

(** C9. Each of the four multi-record upserts, called with an empty list,
    returns 0 and leaves the state as it was: no statement is executed, no
    commit is issued and nothing is logged. *)
Theorem upsert_empty_is_noop (env : Env) (s : State) :
  upsert_cycles [] env s = (Ok 0%nat, s)
  /\ upsert_recovery [] env s = (Ok 0%nat, s)
  /\ upsert_sleep [] env s = (Ok 0%nat, s)
  /\ upsert_workouts [] env s = (Ok 0%nat, s).
Proof. repeat split. Qed.

(** ** Flattening (C8) *)

Lemma nested_absent_or_null d k :
  absent_or_null d k -> nested (PDict d) k = Value (PDict ∅).
Proof. intros [H|H]; unfold nested; simpl; rewrite H; reflexivity. Qed.

Lemma nested_object d k d' :
  d !! k = Some (PDict d') -> nested (PDict d) k = Value (PDict d').
Proof.
  intros H. unfold nested, py_or. simpl. rewrite H. simpl.
  case_bool_decide as Hs; simpl; [|reflexivity].
  apply map_size_empty_inv in Hs. now subst.
Qed.

Lemma nested_object_if_present d k :
  object_if_present d k -> exists d', nested (PDict d) k = Value (PDict d').
Proof.
  intros [H|[d' H]].
  - exists ∅. now apply nested_absent_or_null.
  - exists d'. now apply nested_object.
Qed.

Lemma get_of_empty k default : dict_get (PDict ∅) k default = Value default.
Proof. reflexivity. Qed.

Ltac all_null_by_lookup :=
  eexists; split; [reflexivity|];
  unfold all_null, cycle_score_fields, recovery_score_fields, stage_summary_fields,
    sleep_needed_fields, sleep_score_fields, workout_score_fields, zone_duration_fields;
  cbn [app];
  repeat (apply Forall_cons_2; [reflexivity|]); apply Forall_nil_2.

(** C8. When a nested sub-object of a record is absent or null, the
    flattening puts an empty dictionary in its place ([nested]); reading any
    field of that empty dictionary succeeds with the default; and the
    parameters built for the statement then carry null in every column fed
    from that sub-object.  This holds for [score] in cycles and recovery, for
    [score], [stage_summary] and [sleep_needed] in sleep, and for [score] and
    [zone_duration] in workouts (the other sub-objects of the same record
    being missing, null or objects). *)
Theorem flatten_absent_nested :
  (forall d k, absent_or_null d k -> nested (PDict d) k = Value (PDict ∅))
  /\ (forall k default, dict_get (PDict ∅) k default = Value default)
  /\ (forall d, absent_or_null d "score" ->
        exists p, cycle_params (PDict d) = Value p /\ all_null p cycle_score_fields)
  /\ (forall d, absent_or_null d "score" ->
        exists p, recovery_params (PDict d) = Value p /\ all_null p recovery_score_fields)
  /\ (forall d, absent_or_null d "score" ->
        exists p, sleep_params (PDict d) = Value p
                  /\ all_null p (stage_summary_fields ++ sleep_needed_fields
                                 ++ sleep_score_fields))
  /\ (forall d sc, d !! "score" = Some (PDict sc) ->
        absent_or_null sc "stage_summary" -> object_if_present sc "sleep_needed" ->
        exists p, sleep_params (PDict d) = Value p /\ all_null p stage_summary_fields)
  /\ (forall d sc, d !! "score" = Some (PDict sc) ->
        absent_or_null sc "sleep_needed" -> object_if_present sc "stage_summary" ->
        exists p, sleep_params (PDict d) = Value p /\ all_null p sleep_needed_fields)
  /\ (forall d, absent_or_null d "score" ->
        exists p, workout_params (PDict d) = Value p
                  /\ all_null p (workout_score_fields ++ zone_duration_fields))
  /\ (forall d sc, d !! "score" = Some (PDict sc) ->
        absent_or_null sc "zone_duration" ->
        exists p, workout_params (PDict d) = Value p /\ all_null p zone_duration_fields).
Proof.
  split; [exact nested_absent_or_null|].
  split; [exact get_of_empty|].
  split.
  { intros d H. unfold cycle_params. rewrite (nested_absent_or_null _ _ H).
    all_null_by_lookup. }
  split.
  { intros d H. unfold recovery_params. rewrite (nested_absent_or_null _ _ H).
    all_null_by_lookup. }
  split.
  { intros d H. unfold sleep_params. rewrite (nested_absent_or_null _ _ H).
    all_null_by_lookup. }
  split.
  { intros d sc Hsc Hst Hsn. unfold sleep_params.
    rewrite (nested_object _ _ _ Hsc). cbn [rbind].
    rewrite (nested_absent_or_null _ _ Hst). cbn [rbind].
    destruct (nested_object_if_present _ _ Hsn) as [sn ->].
    all_null_by_lookup. }
  split.
  { intros d sc Hsc Hsn Hst. unfold sleep_params.
    rewrite (nested_object _ _ _ Hsc). cbn [rbind].
    destruct (nested_object_if_present _ _ Hst) as [st ->]. cbn [rbind].
    rewrite (nested_absent_or_null _ _ Hsn).
    all_null_by_lookup. }
  split.
  { intros d H. unfold workout_params. rewrite (nested_absent_or_null _ _ H).
    all_null_by_lookup. }
  { intros d sc Hsc Hz. unfold workout_params.
    rewrite (nested_object _ _ _ Hsc). cbn [rbind].
    rewrite (nested_absent_or_null _ _ Hz).
    all_null_by_lookup. }
Qed.

(** ** The scrape window (C10) *)

Lemma get_date_range_eq (days : Z) (env : Env) (s : State) :
  get_date_range days env s
  = match date_minus_days (e_today env) days with
    | Value start_date =>
        (Ok (e_date_isoformat env start_date, e_date_isoformat env (e_today env)), s)
    | Error e => (Raise e, s)
    end.
Proof.
  unfold get_date_range. msimpl. destruct (date_minus_days (e_today env) days); reflexivity.
Qed.

Lemma date_minus_days_representable (today days : Z) :
  representable today days -> date_minus_days today days = Value (today - days).
Proof.
  intros [[Hd1 Hd2] [Hr1 Hr2]]. unfold date_minus_days.
  replace ((days <? -2147483648) || (2147483647 <? days)) with false
    by (symmetry; apply orb_false_iff; split; apply Z.ltb_ge; lia).
  replace ((days <? -999999999) || (999999999 <? days)) with false
    by (symmetry; apply orb_false_iff; split; apply Z.ltb_ge; lia).
  replace ((1 <=? today - days) && (today - days <=? 3652059)) with true
    by (symmetry; apply andb_true_iff; split; apply Z.leb_le; lia).
  reflexivity.
Qed.

Lemma date_minus_days_overflow (today days : Z) :
  ~ representable today days ->
  exists msg, date_minus_days today days = Error (OverflowError msg).
Proof.
  intros Hno. unfold date_minus_days.
  destruct ((days <? -2147483648) || (2147483647 <? days)) eqn:H1; [eauto|].
  destruct ((days <? -999999999) || (999999999 <? days)) eqn:H2; [eauto|].
  destruct ((1 <=? today - days) && (today - days <=? 3652059)) eqn:H3; [|eauto].
  exfalso. apply Hno.
  apply orb_false_iff in H2. destruct H2 as [H2a H2b].
  apply Z.ltb_ge in H2a. apply Z.ltb_ge in H2b.
  apply andb_true_iff in H3. destruct H3 as [H3a H3b].
  apply Z.leb_le in H3a. apply Z.leb_le in H3b.
  unfold representable. lia.
Qed.

(** C10 as stated fails: an explicit pair is taken as given, also when its
    start lies after its end. *)
Lemma explicit_window_not_ordered :
  (0 <= 7)
  /\ scrape_window 7 (Some "2024-02-01") (Some "2024-01-01") sample_env initial_state
     = (Ok ("2024-02-01", "2024-01-01"), initial_state)
  /\ String.ltb "2024-01-01" "2024-02-01" = true.
Proof. split; [lia|]. split; reflexivity. Qed.

(** The default window does not exist for every N: a number of days that
    reaches back before [date.min] makes the construction raise. *)
Example far_window_overflows :
  scrape_window 1000000 None None sample_env initial_state
  = (Raise (OverflowError "date value out of range"), initial_state).
Proof. reflexivity. Qed.

(** C10, amended.  The choice of the window touches nothing.  The explicit
    pair is used, as given, exactly when both dates are provided (and
    non-empty).  In every other case, also when exactly one is given, both
    are ignored and the N-day default is computed: when today minus N days
    is a date (N of a magnitude a timedelta holds, the day between date.min
    and date.max) the window runs from that day to today, its start
    at-or-before its end when N >= 0; otherwise the construction raises
    OverflowError and there is no window. *)
Theorem scrape_window_spec (days : Z) (sd ed : option string) (env : Env) (s : State) :
  let explicit := truthy_opt sd && truthy_opt ed in
  let today := e_today env in
  (explicit = true ->
     exists w, scrape_window days sd ed env s = (Ok w, s)
               /\ sd = Some w.1 /\ ed = Some w.2)
  /\ (explicit = false -> representable today days ->
        scrape_window days sd ed env s
        = (Ok (e_date_isoformat env (today - days), e_date_isoformat env today), s)
        /\ (0 <= days -> today - days <= today))
  /\ (explicit = false -> ~ representable today days ->
        exists msg, scrape_window days sd ed env s = (Raise (OverflowError msg), s)).
Proof.
  cbn zeta.
  assert (Hdefault : truthy_opt sd && truthy_opt ed = false ->
                     scrape_window days sd ed env s = get_date_range days env s).
  { unfold scrape_window. destruct sd as [sd|], ed as [ed|]; simpl;
      rewrite ?andb_false_r; try reflexivity.
    intros ->. reflexivity. }
  split; [|split].
  - unfold scrape_window. destruct sd as [sd|], ed as [ed|]; simpl;
      rewrite ?andb_false_r; try discriminate.
    intros ->. eexists. split; [reflexivity|]. split; reflexivity.
  - intros He Hr. rewrite (Hdefault He), get_date_range_eq,
      (date_minus_days_representable _ _ Hr). split; [reflexivity|lia].
  - intros He Hr. rewrite (Hdefault He), get_date_range_eq.
    destruct (date_minus_days_overflow _ _ Hr) as (msg & ->). eauto.
Qed.

(** ** Storage round trip (C7) *)

Lemma is_expired_eq (T : OAuthTokens) (env : Env) (s : State) :
  is_expired T env s = (Ok (now_of env s >=? expires_at T - 300000000), tick s).
Proof. reflexivity. Qed.

Lemma to_dict_eq (T : OAuthTokens) (env : Env) (s : State) :
  to_dict T env s = (Ok (PDict (token_dict T (e_isoformat env (expires_at T)))), s).
Proof. reflexivity. Qed.

Lemma from_dict_token_dict (T : OAuthTokens) (printed : string) (env : Env) (s : State) :
  e_fromisoformat env printed = Value (expires_at T) ->
  from_dict (PDict (token_dict T printed)) env s = (Ok T, s).
Proof.
  intros Hiso.
  assert (Ha : token_dict T printed !! "access_token" = Some (PStr (access_token T)))
    by reflexivity.
  assert (Hr : token_dict T printed !! "refresh_token" = Some (PStr (refresh_token T)))
    by reflexivity.
  assert (He : token_dict T printed !! "expires_at" = Some (PStr printed))
    by reflexivity.
  assert (Ht : token_dict T printed !! "token_type" = Some (PStr (token_type T)))
    by reflexivity.
  unfold from_dict, bind, ask, lift, ret, dict_item, dict_get.
  rewrite Ha, Hr, He, Ht. cbn [as_str]. rewrite Hiso. destruct T; reflexivity.
Qed.

Lemma file_roundtrip (self : TokenStorage) (T : OAuthTokens) (env : Env) (s : State) :
  bootstrap_present env = false ->
  e_fromisoformat env (e_isoformat env (expires_at T)) = Value (expires_at T) ->
  exists s1 s2, save self T env s = (Ok tt, s1) /\ load self env s1 = (Ok (Some T), s2).
Proof.
  intros Hb Hiso. eexists. eexists. split; [reflexivity|].
  unfold bootstrap_present in Hb.
  cbn [load TokenStorage_protocol]. unfold TokenStorage_load.
  unfold bind at 1. cbn [get_settings ask]. rewrite Hb.
  unfold bind at 1. cbn [gets s_fs set_log set_fs]. rewrite lookup_insert_eq.
  unfold try_except. unfold bind at 1. cbn [json_loads_file file_text ret].
  unfold bind at 1. fold (token_dict T (e_isoformat env (expires_at T))).
  rewrite (from_dict_token_dict _ _ _ _ Hiso). reflexivity.
Qed.

Lemma decrypt_encrypt (self : DatabaseTokenStorage) (x : string) :
  cipher_inverts self x -> _decrypt self (_encrypt self x) = Value x.
Proof.
  unfold cipher_inverts, _decrypt, _encrypt. destruct (_cipher self); auto.
Qed.

Lemma db_save_eq (self : DatabaseTokenStorage) (T : OAuthTokens) (env : Env) (s : State) :
  e_pg_fail env (s_pg_sessions s) = None ->
  DatabaseTokenStorage_save self T env s
  = (Ok tt, set_log (s_log s ++ [(INFO, "Tokens saved to database (encrypted)")])
              (set_pg_tokens (Some (row_of self T))
                 (set_pg_sessions (S (s_pg_sessions s)) s))).
Proof.
  intros H. unfold DatabaseTokenStorage_save, bind, pg_session. rewrite H. reflexivity.
Qed.

Lemma database_roundtrip (self : DatabaseTokenStorage) (T : OAuthTokens)
      (env : Env) (s : State) :
  e_pg_fail env (s_pg_sessions s) = None ->
  e_pg_fail env (S (s_pg_sessions s)) = None ->
  token_type T <> "" ->
  cipher_inverts self (access_token T) ->
  cipher_inverts self (refresh_token T) ->
  exists s1 s2, save self T env s = (Ok tt, s1) /\ load self env s1 = (Ok (Some T), s2).
Proof.
  intros H1 H2 Hty Ha Hr.
  cbn [save load DatabaseTokenStorage_protocol].
  rewrite (db_save_eq _ _ _ _ H1).
  eexists. eexists. split; [reflexivity|].
  unfold DatabaseTokenStorage_load. msimpl. rewrite H2. msimpl.
  unfold row_of at 1. cbn [row_access_token]. rewrite (decrypt_encrypt _ _ Ha). msimpl.
  unfold row_of at 1. cbn [row_refresh_token]. rewrite (decrypt_encrypt _ _ Hr). msimpl.
  unfold row_of. cbn [row_expires_at row_token_type token_type_or_bearer].
  unfold truthy_str.
  destruct (String.eqb_spec (token_type T) "") as [E|_]; [contradiction|].
  cbn [negb]. destruct T; reflexivity.
Qed.

(** C7 as stated fails for the file store: with both bootstrap tokens present
    in the environment, [load] answers with them, not with what was saved. *)
Lemma file_load_prefers_environment :
  exists s1 s2 T',
    save sample_file_store sample_tokens bootstrap_env initial_state = (Ok tt, s1)
    /\ load sample_file_store bootstrap_env s1 = (Ok (Some T'), s2)
    /\ access_token T' = "boot-access"
    /\ T' <> sample_tokens.
Proof.
  do 3 eexists. split; [reflexivity|]. split; [reflexivity|].
  split; [reflexivity|]. discriminate.
Qed.

(** The database store maps an empty token type to "bearer". *)
Example database_empty_token_type :
  exists s1 s2,
    save plain_db_store (mkTokens "a" "r" 0 "") sample_env initial_state = (Ok tt, s1)
    /\ load plain_db_store sample_env s1 = (Ok (Some (mkTokens "a" "r" 0 "bearer")), s2).
Proof. do 2 eexists. split; reflexivity. Qed.

(** C7, amended.  Saving T and then loading from the same store gives back T
    in every field
    - for the file store, when the environment does not carry both bootstrap
      tokens (and the ISO codec reads back T's timestamp);
    - for the database store, with or without a cipher (whose [decrypt]
      undoes [encrypt] on T's two token strings), when both sessions open
      and T's token type is not empty. *)
Theorem save_load_roundtrip (T : OAuthTokens) (env : Env) (s : State) :
  (forall self : TokenStorage,
      bootstrap_present env = false ->
      e_fromisoformat env (e_isoformat env (expires_at T)) = Value (expires_at T) ->
      exists s1 s2, save self T env s = (Ok tt, s1) /\ load self env s1 = (Ok (Some T), s2))
  /\ (forall self : DatabaseTokenStorage,
      e_pg_fail env (s_pg_sessions s) = None ->
      e_pg_fail env (S (s_pg_sessions s)) = None ->
      token_type T <> "" ->
      cipher_inverts self (access_token T) ->
      cipher_inverts self (refresh_token T) ->
      exists s1 s2, save self T env s = (Ok tt, s1) /\ load self env s1 = (Ok (Some T), s2)).
Proof.
  split.
  - intros self. apply file_roundtrip.
  - intros self. apply database_roundtrip.
Qed.

(** The three configurations, run on the sample surroundings. *)
Example roundtrip_file_plain_encrypted :
  (exists s1 s2, save sample_file_store sample_tokens sample_env initial_state = (Ok tt, s1)
                 /\ load sample_file_store sample_env s1 = (Ok (Some sample_tokens), s2))
  /\ (exists s1 s2, save plain_db_store sample_tokens sample_env initial_state = (Ok tt, s1)
                    /\ load plain_db_store sample_env s1 = (Ok (Some sample_tokens), s2))
  /\ (exists s1 s2, save encrypted_db_store sample_tokens sample_env initial_state = (Ok tt, s1)
                    /\ load encrypted_db_store sample_env s1 = (Ok (Some sample_tokens), s2)).
Proof.
  split; [|split].
  - apply file_roundtrip; reflexivity.
  - apply database_roundtrip; try reflexivity; try discriminate; intros c Hc; discriminate.
  - apply database_roundtrip; try reflexivity; try discriminate;
      intros c Hc; injection Hc as <-; reflexivity.
Qed.

(** ** Bootstrap fallback of the database store (C6) *)

Lemma from_token_response_ok (response : pyval) (env : Env) (s : State) (T : OAuthTokens) :
  tokens_of_response response (now_of env s) = Value T ->
  from_token_response response env s = (Ok T, tick s).
Proof.
  unfold tokens_of_response, from_token_response, now_of. msimpl.
  destruct (dict_get response "expires_in" (PInt 3600)) as [ei|?]; [|discriminate..].
  msimpl.
  destruct (timedelta_of ei) as [delta|?]; [|discriminate..].
  destruct (dict_item response "access_token") as [a|?]; [|discriminate..]. msimpl.
  destruct (as_str a) as [a'|?]; [|discriminate..]. msimpl.
  destruct (dict_item response "refresh_token") as [r|?]; [|discriminate..]. msimpl.
  destruct (as_str r) as [r'|?]; [|discriminate..]. msimpl.
  destruct (dict_get response "token_type" (PStr "bearer")) as [t|?]; [|discriminate..].
  msimpl.
  destruct (as_str t) as [t'|?]; [|discriminate..]. msimpl.
  intros [= <-]. reflexivity.
Qed.

Lemma db_load_bootstrap (self : DatabaseTokenStorage) (env : Env) (s : State) :
  e_pg_fail env (s_pg_sessions s) = None ->
  s_pg_tokens s = None ->
  bootstrap_present env = true ->
  DatabaseTokenStorage_load self env s
  = (Ok (Some (bootstrap_tokens env (now_of env s))), after_bootstrap_load s).
Proof.
  intros Hs Hrow Hb. unfold bootstrap_present in Hb.
  unfold DatabaseTokenStorage_load, after_bootstrap_load. msimpl.
  rewrite Hs, Hrow. msimpl. rewrite Hb. reflexivity.
Qed.

(** ** The token manager (C1, C6, C3) *)

Section TokenManager.
Context {S : Type} `{!TokenStorageProtocol S}.
Variable self : WhoopAuth S.
Variable env : Env.

Lemma geb_true_iff (a b : Z) : (a >=? b) = true <-> a >= b.
Proof. rewrite Z.geb_le. lia. Qed.

Lemma geb_false_iff (a b : Z) : (a >=? b) = false <-> a < b.
Proof.
  destruct (a >=? b) eqn:E.
  - apply geb_true_iff in E. split; [discriminate|lia].
  - split; [|reflexivity]. intros _.
    destruct (Z_lt_ge_dec a b) as [?|Hge]; [assumption|].
    apply geb_true_iff in Hge. congruence.
Qed.

Lemma refresh_tokens_ok (rt : string) (s s1 s2 : State) (st : Z) (body : pyval)
      (T : OAuthTokens) :
  e_provider env (s_sent s) (refresh_request self rt) = Response st (Some body) ->
  200 <= st <= 299 ->
  from_token_response body env (set_sent (s_sent s ++ [refresh_request self rt]) s)
  = (Ok T, s1) ->
  save (storage self) T env s1 = (Ok tt, s2) ->
  refresh_tokens self (Some rt) env s = (Ok T, refresh_done T s2).
Proof.
  intros Hp Hst Hresp Hsave. revert Hresp.
  unfold refresh_tokens. msimpl. fold (refresh_request self rt). intros Hresp. rewrite Hp.
  unfold raise_for_status_json.
  replace ((200 <=? st) && (st <=? 299)) with true
    by (symmetry; apply andb_true_iff; split; apply Z.leb_le; lia).
  msimpl. rewrite Hresp. rewrite Hsave. reflexivity.
Qed.

Lemma get_valid_token_cached (s : State) (t : OAuthTokens) :
  s_tokens s = Some t ->
  ~ expired_at (now_of env s) t ->
  get_valid_token self env s = (Ok (access_token t), tick s).
Proof.
  intros Hc Hne. unfold get_valid_token. msimpl. rewrite Hc.
  rewrite is_expired_eq.
  replace (now_of env s >=? expires_at t - 300000000) with false
    by (symmetry; apply geb_false_iff; unfold expired_at in Hne; lia).
  reflexivity.
Qed.

Lemma get_valid_token_miss (s : State) :
  cache_unusable env s ->
  get_valid_token self env s = from_storage self env (state_at_load s).
Proof.
  unfold cache_unusable, state_at_load, get_valid_token, from_storage. msimpl.
  destruct (s_tokens s) as [t|]; [|reflexivity].
  intros Hexp. rewrite is_expired_eq.
  replace (now_of env s >=? expires_at t - 300000000) with true
    by (symmetry; apply geb_true_iff; exact Hexp).
  reflexivity.
Qed.

Lemma from_storage_none (s s2 : State) :
  load (storage self) env s = (Ok None, s2) ->
  from_storage self env s = (Raise not_authenticated, s2).
Proof. intros H. unfold from_storage. msimpl. rewrite H. reflexivity. Qed.

Lemma from_storage_valid (s s2 : State) (t : OAuthTokens) :
  load (storage self) env s = (Ok (Some t), s2) ->
  ~ expired_at (now_of env s2) t ->
  from_storage self env s = (Ok (access_token t), set_tokens (Some t) (tick s2)).
Proof.
  intros H Hne. unfold from_storage. msimpl. rewrite H. rewrite is_expired_eq.
  replace (now_of env s2 >=? expires_at t - 300000000) with false
    by (symmetry; apply geb_false_iff; unfold expired_at in Hne; lia).
  reflexivity.
Qed.

Lemma from_storage_expired (s s2 : State) (t : OAuthTokens) :
  load (storage self) env s = (Ok (Some t), s2) ->
  expired_at (now_of env s2) t ->
  from_storage self env s
  = match refresh_tokens self (Some (refresh_token t)) env (announce_refresh (tick s2)) with
    | (Ok t', s4) => (Ok (access_token t'), set_tokens (Some t') s4)
    | (Raise e, s4) => (Raise e, s4)
    | (OutOfFuel, s4) => (OutOfFuel, s4)
    end.
Proof.
  intros H Hexp. unfold from_storage. msimpl. rewrite H. rewrite is_expired_eq.
  replace (now_of env s2 >=? expires_at t - 300000000) with true
    by (symmetry; apply geb_true_iff; exact Hexp).
  unfold announce_refresh, tick. msimpl.
  destruct (refresh_tokens self (Some (refresh_token t)) env _) as [[t'|e|] s4]; reflexivity.
Qed.

Lemma refresh_tokens_inv (rt : string) (s s' : State) (T : OAuthTokens) :
  refresh_tokens self (Some rt) env s = (Ok T, s') ->
  exists st body s3 s4,
    e_provider env (s_sent s) (refresh_request self rt) = Response st (Some body)
    /\ 200 <= st <= 299
    /\ from_token_response body env (set_sent (s_sent s ++ [refresh_request self rt]) s)
       = (Ok T, s3)
    /\ save (storage self) T env s3 = (Ok tt, s4)
    /\ s' = refresh_done T s4.
Proof.
  unfold refresh_tokens. msimpl. fold (refresh_request self rt).
  destruct (e_provider env (s_sent s) (refresh_request self rt)) as [msg|st body] eqn:Hp;
    unfold raise_for_status_json; msimpl; [discriminate|].
  destruct ((200 <=? st) && (st <=? 299)) eqn:Hst; msimpl; [|discriminate].
  apply andb_true_iff in Hst. destruct Hst as [H1 H2].
  apply Z.leb_le in H1. apply Z.leb_le in H2.
  destruct body as [body|]; msimpl; [|discriminate].
  destruct (from_token_response body env _) as [[T1|e|] s3] eqn:Hresp; [|discriminate..].
  destruct (save (storage self) T1 env s3) as [[[]|e|] s4] eqn:Hsave; [|discriminate..].
  intros [= <- <-]. exists st, body, s3, s4. repeat split; try assumption; lia.
Qed.

Lemma from_token_response_inv (body : pyval) (s s1 : State) (T : OAuthTokens) :
  from_token_response body env s = (Ok T, s1) ->
  exists expires_in delta,
    dict_get body "expires_in" (PInt 3600) = Value expires_in
    /\ timedelta_of expires_in = Value delta
    /\ expires_at T = now_of env s + delta.
Proof.
  unfold from_token_response, now_of. msimpl.
  destruct (dict_get body "expires_in" (PInt 3600)) as [ei|?] eqn:Hei; [|discriminate..].
  msimpl.
  destruct (timedelta_of ei) as [delta|?] eqn:Hd; [|discriminate..].
  destruct (dict_item body "access_token") as [a|?]; [|discriminate..]. msimpl.
  destruct (as_str a) as [a'|?]; [|discriminate..]. msimpl.
  destruct (dict_item body "refresh_token") as [r|?]; [|discriminate..]. msimpl.
  destruct (as_str r) as [r'|?]; [|discriminate..]. msimpl.
  destruct (dict_get body "token_type" (PStr "bearer")) as [t|?]; [|discriminate..].
  msimpl.
  destruct (as_str t) as [t'|?]; [|discriminate..]. msimpl.
  intros [= <- <-]. exists ei, delta. split; [reflexivity|]. split; [exact Hd|reflexivity].
Qed.

Lemma get_valid_token_provenance (s s' : State) (a : string) :
  get_valid_token self env s = (Ok a, s') ->
  exists t, s_tokens s' = Some t /\ access_token t = a /\ provenance self env s t.
Proof.
  intros Hrun.
  assert (Hcase : (exists t, s_tokens s = Some t /\ ~ expired_at (now_of env s) t)
                  \/ cache_unusable env s).
  { unfold cache_unusable. destruct (s_tokens s) as [t|]; [|right; exact I].
    destruct (Z_lt_ge_dec (now_of env s) (expires_at t - 300000000)) as [Hlt|Hge].
    - left. exists t. split; [reflexivity|]. unfold expired_at. lia.
    - right. exact Hge. }
  destruct Hcase as [[t [Hc Hne]]|Hmiss].
  - rewrite (get_valid_token_cached _ _ Hc Hne) in Hrun. injection Hrun as <- <-.
    exists t. repeat split; [exact Hc|]. now apply from_cache.
  - rewrite (get_valid_token_miss _ Hmiss) in Hrun.
    destruct (load (storage self) env (state_at_load s)) as [[[t|]|e|] s2] eqn:Hload.
    + destruct (Z_lt_ge_dec (now_of env s2) (expires_at t - 300000000)) as [Hlt|Hge].
      * assert (Hne : ~ expired_at (now_of env s2) t) by (unfold expired_at; lia).
        rewrite (from_storage_valid _ _ _ Hload Hne) in Hrun. injection Hrun as <- <-.
        exists t. repeat split. now apply from_store with s2.
      * rewrite (from_storage_expired _ _ _ Hload Hge) in Hrun.
        destruct (refresh_tokens self (Some (refresh_token t)) env _)
          as [[t'|e|] s4] eqn:Href; [|discriminate..].
        injection Hrun as <- <-.
        destruct (refresh_tokens_inv _ _ _ _ Href)
          as (st & body & s3 & s5 & _ & _ & Hresp & Hsave & _).
        destruct (from_token_response_inv _ _ _ _ Hresp) as (ei & delta & Hei & Hd & Hat).
        exists t'. repeat split.
        eapply from_refresh; eauto.
    + rewrite (from_storage_none _ _ Hload) in Hrun. discriminate.
    + unfold from_storage in Hrun. revert Hrun. msimpl. rewrite Hload. discriminate.
    + unfold from_storage in Hrun. revert Hrun. msimpl. rewrite Hload. discriminate.
Qed.

End TokenManager.



(** ** Frame reasoning: relations between the state before and after that
       every step of a computation maintains *)

Section Frame.
Variable R : State -> State -> Prop.
Hypothesis R_refl : forall s, R s s.
Hypothesis R_trans : forall s1 s2 s3, R s1 s2 -> R s2 s3 -> R s1 s3.
Hypothesis R_ticks : forall s n, R s (set_ticks n s).
Hypothesis R_fs : forall s m, R s (set_fs m s).
Hypothesis R_pg_sessions : forall s n, R s (set_pg_sessions n s).
Hypothesis R_pg_tokens : forall s r, R s (set_pg_tokens r s).
Hypothesis R_pg_ops : forall s l, R s (set_pg_ops l s).
Hypothesis R_log : forall s l, R s (set_log l s).
Hypothesis R_tokens : forall s t, R s (set_tokens t s).
Hypothesis R_sent : forall s req, R s (set_sent (s_sent s ++ [req]) s).

Lemma respects_ret {A} (a : A) : respects R (ret a).
Proof. intros env s. apply R_refl. Qed.

Lemma respects_raise {A} (e : exn) : respects R (@raise A e).
Proof. intros env s. apply R_refl. Qed.

Lemma respects_lift {A} (r : result A) : respects R (lift r).
Proof. intros env s. apply R_refl. Qed.

Lemma respects_ask {A} (f : Env -> A) : respects R (ask f).
Proof. intros env s. apply R_refl. Qed.

Lemma respects_gets {A} (f : State -> A) : respects R (gets f).
Proof. intros env s. apply R_refl. Qed.

Lemma respects_bind {A B} (c : M A) (k : A -> M B) :
  respects R c -> (forall a, respects R (k a)) -> respects R (bind c k).
Proof.
  intros Hc Hk env s. unfold bind. specialize (Hc env s).
  destruct (c env s) as [[a|e|] s1]; cbn [snd] in *; try assumption.
  eapply R_trans; [eassumption|]. apply Hk.
Qed.

Lemma respects_try_except {A} (c : M A) (handles : exn -> bool) (h : exn -> M A) :
  respects R c -> (forall e, respects R (h e)) -> respects R (try_except c handles h).
Proof.
  intros Hc Hh env s. unfold try_except. specialize (Hc env s).
  destruct (c env s) as [[a|e|] s1]; cbn [snd] in *; try assumption.
  destruct (handles e); cbn [snd]; [|assumption].
  eapply R_trans; [eassumption|]. apply Hh.
Qed.

Lemma respects_modify (f : State -> State) :
  (forall s, R s (f s)) -> respects R (modify f).
Proof. intros Hf env s. apply Hf. Qed.

Lemma respects_logger (lvl : LogLevel) (msg : string) : respects R (logger lvl msg).
Proof. intros env s. apply R_log. Qed.

Lemma respects_datetime_now : respects R datetime_now.
Proof. intros env s. apply R_ticks. Qed.

Lemma respects_pg_session {A} (body : M A) : respects R body -> respects R (pg_session body).
Proof.
  intros Hb env s. unfold pg_session.
  destruct (e_pg_fail env (s_pg_sessions s)); cbn [snd]; [apply R_pg_sessions|].
  eapply R_trans; [apply R_pg_sessions|]. apply Hb.
Qed.

Lemma respects_pg_issue (op : DbOp) : respects R (pg_issue op).
Proof.
  intros env s. unfold pg_issue.
  destruct (e_pg_reject env (s_pg_ops s) op); apply R_pg_ops.
Qed.

Lemma respects_http_send (req : HttpRequest) : respects R (http_send req).
Proof. intros env s. apply R_sent. Qed.

Lemma respects_raise_for_status_json (o : HttpOutcome) : respects R (raise_for_status_json o).
Proof.
  destruct o as [msg|st [v|]]; cbn [raise_for_status_json];
    try destruct (_ && _); intros env s; apply R_refl.
Qed.

End Frame.

(** Decompose a computation along its binds and case distinctions. *)
Ltac frame_step :=
  first
    [ apply respects_bind; [assumption..| |intros ?]
    | apply respects_try_except; [assumption..| |intros ?]
    | apply respects_ret; assumption
    | apply respects_raise; assumption
    | apply respects_lift; assumption
    | apply respects_ask; assumption
    | apply respects_gets; assumption
    | apply respects_logger; assumption
    | apply respects_datetime_now; assumption
    | apply respects_pg_issue; assumption
    | apply respects_raise_for_status_json; assumption
    | apply respects_pg_session; [assumption..|]
    | apply respects_http_send; assumption
    | apply respects_modify; intros ?; solve [auto]
    | match goal with
      | |- respects _ (if ?b then _ else _) => destruct b
      | |- respects _ (match ?x with _ => _ end) => destruct x
      end ].

Ltac frame := repeat frame_step.

Section FrameOperations.
Variable R : State -> State -> Prop.
Hypothesis R_refl : forall s, R s s.
Hypothesis R_trans : forall s1 s2 s3, R s1 s2 -> R s2 s3 -> R s1 s3.
Hypothesis R_ticks : forall s n, R s (set_ticks n s).
Hypothesis R_pg_sessions : forall s n, R s (set_pg_sessions n s).
Hypothesis R_pg_tokens : forall s r, R s (set_pg_tokens r s).
Hypothesis R_pg_ops : forall s l, R s (set_pg_ops l s).
Hypothesis R_log : forall s l, R s (set_log l s).
Hypothesis R_tokens : forall s t, R s (set_tokens t s).

Lemma respects_is_expired (t : OAuthTokens) : respects R (is_expired t).
Proof. unfold is_expired. frame. Qed.

Lemma respects_from_token_response (body : pyval) : respects R (from_token_response body).
Proof. unfold from_token_response. frame. Qed.

Lemma respects_db_save (self : DatabaseTokenStorage) (T : OAuthTokens) :
  respects R (DatabaseTokenStorage_save self T).
Proof. unfold DatabaseTokenStorage_save. frame. Qed.

Lemma respects_db_load (self : DatabaseTokenStorage) :
  respects R (DatabaseTokenStorage_load self).
Proof. unfold DatabaseTokenStorage_load, get_settings. frame. Qed.

Lemma respects_for_each {A} (l : list A) (f : A -> M unit) :
  (forall x, respects R (f x)) -> respects R (for_each l f).
Proof.
  intros Hf. induction l as [|x l IH]; cbn [for_each]; [frame|].
  apply respects_bind; [assumption|apply Hf|intros _; exact IH].
Qed.

Lemma respects_upsert_user_profile (data : pyval) : respects R (upsert_user_profile data).
Proof. unfold upsert_user_profile, cur_execute, conn_commit. frame. Qed.

Lemma respects_upsert_body_measurement (data : pyval) :
  respects R (upsert_body_measurement data).
Proof. unfold upsert_body_measurement, cur_execute, conn_commit. frame. Qed.

Lemma respects_upsert_cycles (records : list pyval) : respects R (upsert_cycles records).
Proof.
  unfold upsert_cycles, cur_execute, conn_commit. destruct records; [frame|].
  apply respects_bind; [assumption| |intros _; frame].
  apply respects_for_each. intros x. frame.
Qed.

Lemma respects_upsert_recovery (records : list pyval) : respects R (upsert_recovery records).
Proof.
  unfold upsert_recovery, cur_execute, conn_commit. destruct records; [frame|].
  apply respects_bind; [assumption| |intros _; frame].
  apply respects_for_each. intros x. frame.
Qed.

Lemma respects_upsert_sleep (records : list pyval) : respects R (upsert_sleep records).
Proof.
  unfold upsert_sleep, cur_execute, conn_commit. destruct records; [frame|].
  apply respects_bind; [assumption| |intros _; frame].
  apply respects_for_each. intros x. frame.
Qed.

Lemma respects_upsert_workouts (records : list pyval) : respects R (upsert_workouts records).
Proof.
  unfold upsert_workouts, cur_execute, conn_commit. destruct records; [frame|].
  apply respects_bind; [assumption| |intros _; frame].
  apply respects_for_each. intros x. frame.
Qed.

(** Computations that talk to the provider. *)
Hypothesis R_sent : forall s req, R s (set_sent (s_sent s ++ [req]) s).

Variable self : WhoopAuth DatabaseTokenStorage.

Lemma respects_refresh_tokens (rt : option string) : respects R (refresh_tokens self rt).
Proof.
  unfold refresh_tokens. cbn [save load DatabaseTokenStorage_protocol].
  apply respects_bind; [assumption| |intros rt'].
  - destruct rt; [frame|].
    apply respects_bind; [assumption|apply respects_db_load|intros [t|]; frame].
  - apply respects_bind; [assumption|frame|intros o].
    apply respects_bind; [assumption|frame|intros body].
    apply respects_bind; [assumption|apply respects_from_token_response|intros T].
    apply respects_bind; [assumption|apply respects_db_save|intros _]. frame.
Qed.

Lemma respects_get_valid_token : respects R (get_valid_token self).
Proof.
  unfold get_valid_token. cbn [load DatabaseTokenStorage_protocol].
  apply respects_bind; [assumption|frame|intros cached].
  apply respects_bind; [assumption| |intros hit].
  - destruct cached; [|frame].
    apply respects_bind; [assumption|apply respects_is_expired|intros b; frame].
  - destruct hit; [frame|].
    apply respects_bind; [assumption|apply respects_db_load|intros [t|]; [|frame]].
    apply respects_bind; [assumption|apply respects_is_expired|intros b].
    apply respects_bind; [assumption| |intros t'; frame].
    destruct b; [|frame].
    apply respects_bind; [assumption|frame|intros _]. apply respects_refresh_tokens.
Qed.

Variable client : WhoopAPIClient DatabaseTokenStorage.
Hypothesis client_auth : auth client = self.

Lemma respects_get (endpoint : string) (params : list (string * pyval)) :
  respects R (_get client endpoint params).
Proof.
  unfold _get, _get_headers. rewrite client_auth.
  apply respects_bind; [assumption| |intros h; frame].
  apply respects_bind; [assumption|apply respects_get_valid_token|intros t; frame].
Qed.

Lemma respects_get_paginated_loop (fuel : nat) (endpoint sd ed : string)
      (acc : list pyval) (tok : pyval) :
  respects R (_get_paginated_loop fuel client endpoint sd ed acc tok).
Proof.
  revert acc tok. induction fuel as [|fuel IH]; intros acc tok; cbn [_get_paginated_loop].
  - frame.
  - apply respects_bind; [assumption|apply respects_get|intros data].
    apply respects_bind; [assumption|frame|intros records].
    apply respects_bind; [assumption|frame|intros items].
    apply respects_bind; [assumption|frame|intros nt].
    destruct (truthy nt); [apply IH|frame].
Qed.

Lemma respects_get_paginated (fuel : nat) (endpoint sd ed : string) :
  respects R (_get_paginated fuel client endpoint sd ed).
Proof. apply respects_get_paginated_loop. Qed.

End FrameOperations.

(** ** The forced refresh after a bootstrap load (C6) *)

Lemma refresh_tokens_some_eq {S} `{!TokenStorageProtocol S} (self : WhoopAuth S)
      (rt : string) (env : Env) (s : State) :
  refresh_tokens self (Some rt) env s
  = after_response self (e_provider env (s_sent s) (refresh_request self rt)) env
                   (set_sent (s_sent s ++ [refresh_request self rt]) s).
Proof. reflexivity. Qed.

Lemma after_response_same_sent (self : WhoopAuth DatabaseTokenStorage) (o : HttpOutcome) :
  respects same_sent (after_response self o).
Proof.
  assert (Hrefl : forall s, same_sent s s) by reflexivity.
  assert (Htrans : forall s1 s2 s3, same_sent s1 s2 -> same_sent s2 s3 -> same_sent s1 s3)
    by (unfold same_sent; congruence).
  assert (H1 : forall s n, same_sent s (set_ticks n s)) by reflexivity.
  assert (H2 : forall s n, same_sent s (set_pg_sessions n s)) by reflexivity.
  assert (H3 : forall s r, same_sent s (set_pg_tokens r s)) by reflexivity.
  assert (H4 : forall s l, same_sent s (set_log l s)) by reflexivity.
  assert (H5 : forall s t, same_sent s (set_tokens t s)) by reflexivity.
  unfold after_response. cbn [save DatabaseTokenStorage_protocol].
  apply respects_bind; [assumption|frame|intros body].
  apply respects_bind; [assumption|now apply respects_from_token_response|intros T].
  apply respects_bind; [assumption|now apply respects_db_save|intros _]. frame.
Qed.

Lemma db_refresh_sent (self : WhoopAuth DatabaseTokenStorage) (rt : string)
      (env : Env) (s : State) :
  s_sent (refresh_tokens self (Some rt) env s).2
  = (s_sent s ++ [refresh_request self rt])%list.
Proof. rewrite refresh_tokens_some_eq. apply after_response_same_sent. Qed.

(** C6.  When the database session opens, the token table has no row and the
    environment carries both bootstrap tokens, [load] returns a token built
    from them whose expiry is the instant of the load, hence at-or-before
    every later instant, at each of which [is_expired] holds.  A manager with
    nothing cached that is then asked for a valid token sends the refresh
    request carrying the bootstrap refresh token, whatever happens next; and
    when the provider answers it with a 2xx token response and the database
    accepts the write, the refreshed token is returned, cached, and stored in
    the token table. *)
Theorem database_bootstrap_fallback (store : DatabaseTokenStorage) (cid csecret : string)
        (env : Env) (s : State) :
  e_pg_fail env (s_pg_sessions s) = None ->
  s_pg_tokens s = None ->
  bootstrap_present env = true ->
  let T := bootstrap_tokens env (now_of env s) in
  let self := mkWhoopAuth cid csecret store in
  let req := refresh_request self (Settings.refresh_token (e_settings env)) in
  load store env s = (Ok (Some T), after_bootstrap_load s)
  /\ expires_at T <= now_of env s
  /\ (forall now, now_of env s <= now -> expired_at now T)
  /\ (s_tokens s = None ->
      e_clock env (s_ticks s) <= e_clock env (S (s_ticks s)) ->
      s_sent (get_valid_token self env s).2 = (s_sent s ++ [req])%list
      /\ (forall st body T',
            e_provider env (s_sent s) req = Response st (Some body) ->
            200 <= st <= 299 ->
            tokens_of_response body (e_clock env (S (S (s_ticks s)))) = Value T' ->
            e_pg_fail env (S (s_pg_sessions s)) = None ->
            exists s',
              get_valid_token self env s = (Ok (access_token T'), s')
              /\ s_pg_tokens s' = Some (row_of store T')
              /\ s_tokens s' = Some T')).
Proof.
  intros Hs Hrow Hb T self req.
  assert (Hload : load store env s = (Ok (Some T), after_bootstrap_load s))
    by (apply db_load_bootstrap; assumption).
  split; [exact Hload|].
  split; [unfold T, bootstrap_tokens; cbn [expires_at]; lia|].
  split; [intros now Hnow; unfold expired_at, T, bootstrap_tokens; cbn [expires_at]; lia|].
  intros Hcache Hclock.
  assert (Hmiss : cache_unusable env s) by (unfold cache_unusable; now rewrite Hcache).
  assert (Hat : state_at_load s = s) by (unfold state_at_load; now rewrite Hcache).
  assert (Hexp : expired_at (now_of env (after_bootstrap_load s)) T).
  { unfold expired_at, T, bootstrap_tokens, now_of, after_bootstrap_load.
    cbn [expires_at s_ticks set_ticks]. lia. }
  pose proof (get_valid_token_miss self env s Hmiss) as Hrun. rewrite Hat in Hrun.
  rewrite (from_storage_expired self env s _ T Hload Hexp) in Hrun.
  set (sr := announce_refresh (tick (after_bootstrap_load s))) in *.
  assert (Hsent : s_sent sr = s_sent s) by reflexivity.
  split.
  - rewrite Hrun.
    pose proof (db_refresh_sent self (refresh_token T) env sr) as Hr.
    destruct (refresh_tokens self (Some (refresh_token T)) env sr) as [[t'|e|] s4];
      cbn [snd] in *; rewrite <- Hsent; exact Hr.
  - intros st body T' Hp Hst Hresp Hpg.
    assert (Hft : from_token_response body env
                    (set_sent (s_sent sr ++ [req]) sr)
                  = (Ok T', tick (set_sent (s_sent sr ++ [req]) sr)))
      by (apply from_token_response_ok; exact Hresp).
    assert (Hsave := db_save_eq store T' env (tick (set_sent (s_sent sr ++ [req]) sr)) Hpg).
    rewrite <- Hsent in Hp.
    change (DatabaseTokenStorage_save store T') with (save (storage self) T') in Hsave.
    rewrite (refresh_tokens_ok self env (refresh_token T) sr _ _ st body T' Hp Hst Hft Hsave)
      in Hrun.
    eexists. split; [exact Hrun|]. split; reflexivity.
Qed.

Lemma database_bootstrap_fallback_witness :
  load plain_db_store bootstrap_env initial_state
  = (Ok (Some (bootstrap_tokens bootstrap_env (now_of bootstrap_env initial_state))),
     after_bootstrap_load initial_state).
Proof.
  exact (proj1 (database_bootstrap_fallback plain_db_store "client" "secret"
                  bootstrap_env initial_state eq_refl eq_refl eq_refl)).
Defined.

(** ** The interactive flow (C3) *)

(** C3.  In every run of [authorize_interactive] whose callback carries a
    state value other than the nonce generated at the start of the run (or
    none), the flow fails and no token exchange takes place: no request is
    sent, nothing is cached, nothing is written to the file or database
    store.  When the callback delivers a code (a code parameter and no error
    parameter), the failure is the state-mismatch error. *)
Theorem state_mismatch_short_circuits {S : Type} `{!TokenStorageProtocol S}
        (self : WhoopAuth S) (port : Z) (open_browser : bool) (env : Env) (s : State)
        (params : QueryParams) :
  let nonce := e_token_urlsafe env (s_nonces s) in
  let url := authorization_url self env (redirect_uri_of port) nonce in
  e_callback env url open_browser = Some params ->
  callback_state params <> Some nonce ->
  (exists e s',
      authorize_interactive self port open_browser env s = (Raise e, s')
      /\ s_sent s' = s_sent s
      /\ s_tokens s' = s_tokens s
      /\ s_fs s' = s_fs s
      /\ s_pg_tokens s' = s_pg_tokens s)
  /\ (forall code rest,
        params !! "error" = None ->
        params !! "code" = Some (code :: rest) ->
        exists s',
          authorize_interactive self port open_browser env s = (Raise state_mismatch, s')
          /\ authorization_code (s_handler s') = Some code).
Proof.
  intros nonce url Hcb Hstate.
  unfold authorize_interactive, get_authorization_url. msimpl.
  fold (redirect_uri_of port). fold nonce.
  fold (authorization_url self env (redirect_uri_of port) nonce). fold url.
  rewrite Hcb. unfold do_GET, callback_state in *.
  split.
  - destruct (params !! "error") as [[|e l]|]; cbn [first]; msimpl;
      cbn [authorization_code state error any_exception]; msimpl;
      cbn [authorization_code state error].
    + do 2 eexists. split; [reflexivity|]. repeat split.
    + destruct (truthy_str e); msimpl; cbn [authorization_code];
        do 2 eexists; (split; [reflexivity|]); repeat split.
    + destruct (params !! "code") as [[|c l]|]; cbn [first]; msimpl;
        cbn [authorization_code state error any_exception]; msimpl;
        cbn [authorization_code state error];
        [do 2 eexists; (split; [reflexivity|]); repeat split| |
         do 2 eexists; (split; [reflexivity|]); repeat split].
      destruct (params !! "state") as [[|x l']|]; cbn [first]; msimpl;
        cbn [authorization_code state error any_exception]; msimpl;
        cbn [authorization_code state error];
        rewrite bool_decide_eq_false_2 by (first [exact Hstate|discriminate]);
        do 2 eexists; (split; [reflexivity|]); repeat split.
  - intros code rest Herr Hcode. rewrite Herr, Hcode. msimpl.
    cbn [first authorization_code state error any_exception].
    destruct (params !! "state") as [[|x l]|]; cbn [first]; msimpl;
      cbn [authorization_code state error any_exception]; msimpl;
      cbn [authorization_code state error];
      rewrite bool_decide_eq_false_2 by (first [exact Hstate|discriminate]);
      eexists; (split; [reflexivity|]); reflexivity.
Qed.

Lemma state_mismatch_short_circuits_witness :
  exists s',
    authorize_interactive sample_auth 8080 true forged_callback_env initial_state
    = (Raise state_mismatch, s')
    /\ authorization_code (s_handler s') = Some "abc".
Proof.
  destruct (state_mismatch_short_circuits sample_auth 8080 true forged_callback_env
              initial_state forged_params) as [_ Hcode].
  - reflexivity.
  - vm_compute. discriminate.
  - apply (Hcode "abc" []); reflexivity.
Defined.

(** ** Pagination (C4) *)

Section Pagination.
Context {S : Type} `{!TokenStorageProtocol S}.
Variable client : WhoopAPIClient S.
Variable env : Env.
Variable t : OAuthTokens.
Hypothesis t_lasts : forall n, e_clock env n < expires_at t - 300000000.
Variables endpoint sd ed : string.

Lemma get_with_cached_token (params : list (string * pyval)) (s : State) (body : pyval) :
  s_tokens s = Some t ->
  e_provider env (s_sent s) (api_request (access_token t) endpoint params)
  = Response 200 (Some body) ->
  _get client endpoint params env s
  = (Ok body,
     set_sent (s_sent s ++ [api_request (access_token t) endpoint params]) (tick s)).
Proof.
  intros Hc Hp. unfold _get, _get_headers. msimpl.
  assert (Hne : ~ expired_at (now_of env s) t)
    by (unfold expired_at, now_of; specialize (t_lasts (s_ticks s)); lia).
  rewrite (get_valid_token_cached (auth client) env s t Hc Hne). msimpl.
  unfold tick. msimpl. fold (api_request (access_token t) endpoint params).
  rewrite Hp. reflexivity.
Qed.

Lemma page_request_eq (token : string) (cursor : pyval) :
  page_request token endpoint sd ed cursor
  = api_request token endpoint (page_params sd ed cursor).
Proof. reflexivity. Qed.

Lemma loop_collects (init : list Page) (last : Page) :
  forall (fuel : nat) (s : State) (acc : list pyval) (cursor : pyval),
    s_tokens s = Some t ->
    hands_out env (access_token t) endpoint sd ed (s_sent s) cursor (init ++ [last]) ->
    Forall well_formed_page (init ++ [last]) ->
    Forall (fun p => truthy (page_next p) = true) init ->
    truthy (page_next last) = false ->
    (length init < fuel)%nat ->
    exists s',
      _get_paginated_loop fuel client endpoint sd ed acc cursor env s
      = (Ok (acc ++ concat (page_records <$> (init ++ [last]))), s')
      /\ s_sent s'
         = s_sent s ++ (page_request (access_token t) endpoint sd ed
                          <$> cursors cursor (init ++ [last])).
Proof.
  induction init as [|p init IH]; intros fuel s acc cursor Hc Hserve Hwf Hmore Hlast Hfuel.
  - destruct fuel as [|fuel]; [cbn in Hfuel; lia|].
    cbn [app] in *. apply Forall_cons_1 in Hwf. destruct Hwf as [[Hrec Hnext] _].
    destruct Hserve as [Hp _]. rewrite page_request_eq in Hp.
    cbn [_get_paginated_loop]. unfold bind at 1.
    rewrite (get_with_cached_token _ _ _ Hc Hp).
    msimpl. rewrite Hrec. cbn [iterate]. rewrite Hnext. rewrite Hlast.
    eexists. split.
    + cbn [fmap list_fmap concat]. rewrite app_nil_r. reflexivity.
    + reflexivity.
  - destruct fuel as [|fuel]; [cbn in Hfuel; lia|].
    cbn [app] in *. apply Forall_cons_1 in Hwf. destruct Hwf as [[Hrec Hnext] Hwf].
    apply Forall_cons_1 in Hmore. destruct Hmore as [Hp_more Hmore].
    destruct Hserve as [Hp Hrest]. rewrite page_request_eq in Hp.
    cbn [_get_paginated_loop]. unfold bind at 1.
    rewrite (get_with_cached_token _ _ _ Hc Hp).
    msimpl. rewrite Hrec. cbn [iterate]. rewrite Hnext. rewrite Hp_more.
    set (s1 := mkState _ _ _ _ _ _ _ _ _ _ _).
    destruct (IH fuel s1 (acc ++ page_records p) (page_next p)) as (s' & Hrun & Hsent).
    + exact Hc.
    + exact Hrest.
    + exact Hwf.
    + exact Hmore.
    + exact Hlast.
    + cbn [length] in Hfuel. lia.
    + exists s'. split.
      * rewrite Hrun. cbn [fmap list_fmap concat]. rewrite app_assoc. reflexivity.
      * rewrite Hsent. subst s1. cbn [s_sent cursors fmap list_fmap].
        rewrite <- app_assoc. reflexivity.
Qed.

End Pagination.

Lemma length_cursors (c : pyval) (pages : list Page) :
  length (cursors c pages) = length pages.
Proof.
  revert c. induction pages as [|p pages IH]; intros c; cbn [cursors length];
    [reflexivity|]. now rewrite IH.
Qed.




(** ** Computations that always come to an end *)

Lemma total_ret {A} (a : A) : total (ret a).
Proof. intros env s. discriminate. Qed.

Lemma total_raise {A} (e : exn) : total (@raise A e).
Proof. intros env s. discriminate. Qed.

Lemma total_lift {A} (r : result A) : total (lift r).
Proof. intros env s. destruct r; discriminate. Qed.

Lemma total_ask {A} (f : Env -> A) : total (ask f).
Proof. intros env s. discriminate. Qed.

Lemma total_gets {A} (f : State -> A) : total (gets f).
Proof. intros env s. discriminate. Qed.

Lemma total_modify (f : State -> State) : total (modify f).
Proof. intros env s. discriminate. Qed.

Lemma total_logger (lvl : LogLevel) (msg : string) : total (logger lvl msg).
Proof. intros env s. discriminate. Qed.

Lemma total_datetime_now : total datetime_now.
Proof. intros env s. discriminate. Qed.

Lemma total_http_send (req : HttpRequest) : total (http_send req).
Proof. intros env s. discriminate. Qed.

Lemma total_bind {A B} (c : M A) (k : A -> M B) :
  total c -> (forall a, total (k a)) -> total (bind c k).
Proof.
  intros Hc Hk env s. unfold bind. specialize (Hc env s).
  destruct (c env s) as [[a|e|] s1]; cbn [fst] in *;
    [apply Hk|discriminate|contradiction].
Qed.

Lemma total_try_except {A} (c : M A) (handles : exn -> bool) (h : exn -> M A) :
  total c -> (forall e, total (h e)) -> total (try_except c handles h).
Proof.
  intros Hc Hh env s. unfold try_except. specialize (Hc env s).
  destruct (c env s) as [[a|e|] s1]; cbn [fst] in *; [discriminate| |contradiction].
  destruct (handles e); [apply Hh|discriminate].
Qed.

Lemma total_pg_session {A} (body : M A) : total body -> total (pg_session body).
Proof.
  intros Hb env s. unfold pg_session.
  destruct (e_pg_fail env (s_pg_sessions s)); [discriminate|apply Hb].
Qed.

Lemma total_pg_issue (op : DbOp) : total (pg_issue op).
Proof.
  intros env s. unfold pg_issue.
  destruct (e_pg_reject env (s_pg_ops s) op); discriminate.
Qed.

Lemma total_raise_for_status_json (o : HttpOutcome) : total (raise_for_status_json o).
Proof.
  destruct o as [msg|st [v|]]; cbn [raise_for_status_json];
    try destruct (_ && _); intros env s; discriminate.
Qed.

Ltac totality_step :=
  first
    [ apply total_bind; [|intros ?]
    | apply total_try_except; [|intros ?]
    | apply total_ret
    | apply total_raise
    | apply total_lift
    | apply total_ask
    | apply total_gets
    | apply total_modify
    | apply total_logger
    | apply total_datetime_now
    | apply total_http_send
    | apply total_pg_issue
    | apply total_raise_for_status_json
    | apply total_pg_session
    | match goal with
      | |- total (if ?b then _ else _) => destruct b
      | |- total (match ?x with _ => _ end) => destruct x
      end ].

Ltac totality := repeat totality_step.

Lemma total_for_each {A} (l : list A) (f : A -> M unit) :
  (forall x, total (f x)) -> total (for_each l f).
Proof.
  intros Hf. induction l as [|x l IH]; cbn [for_each]; [totality|].
  apply total_bind; [apply Hf|intros _; exact IH].
Qed.

Lemma total_upsert_user_profile (data : pyval) : total (upsert_user_profile data).
Proof. unfold upsert_user_profile, cur_execute, conn_commit. totality. Qed.

Lemma total_upsert_body_measurement (data : pyval) : total (upsert_body_measurement data).
Proof. unfold upsert_body_measurement, cur_execute, conn_commit. totality. Qed.

Lemma total_upsert_cycles (records : list pyval) : total (upsert_cycles records).
Proof.
  unfold upsert_cycles, cur_execute, conn_commit. destruct records; [totality|].
  apply total_bind; [|intros _; totality]. apply total_for_each. intros x. totality.
Qed.

Lemma total_upsert_recovery (records : list pyval) : total (upsert_recovery records).
Proof.
  unfold upsert_recovery, cur_execute, conn_commit. destruct records; [totality|].
  apply total_bind; [|intros _; totality]. apply total_for_each. intros x. totality.
Qed.

Lemma total_upsert_sleep (records : list pyval) : total (upsert_sleep records).
Proof.
  unfold upsert_sleep, cur_execute, conn_commit. destruct records; [totality|].
  apply total_bind; [|intros _; totality]. apply total_for_each. intros x. totality.
Qed.

Lemma total_upsert_workouts (records : list pyval) : total (upsert_workouts records).
Proof.
  unfold upsert_workouts, cur_execute, conn_commit. destruct records; [totality|].
  apply total_bind; [|intros _; totality]. apply total_for_each. intros x. totality.
Qed.

Lemma total_get_valid_token (self : WhoopAuth DatabaseTokenStorage) :
  total (get_valid_token self).
Proof.
  unfold get_valid_token, refresh_tokens, is_expired, from_token_response.
  cbn [save load DatabaseTokenStorage_protocol].
  unfold DatabaseTokenStorage_load, DatabaseTokenStorage_save, get_settings.
  totality.
Qed.

Lemma total_get (client : WhoopAPIClient DatabaseTokenStorage) (endpoint : string)
      (params : list (string * pyval)) :
  total (_get client endpoint params).
Proof.
  unfold _get, _get_headers.
  apply total_bind; [|intros h; totality].
  apply total_bind; [apply total_get_valid_token|intros tk; totality].
Qed.

(** ** Termination of the pagination loop against a provider that stops
       handing out cursors *)

Lemma sent_grows_get_valid_token (self : WhoopAuth DatabaseTokenStorage)
      (env : Env) (s : State) :
  sent_grows s (get_valid_token self env s).2.
Proof.
  apply respects_get_valid_token; unfold sent_grows; intros; cbn [s_sent set_ticks
    set_pg_sessions set_pg_tokens set_log set_tokens set_sent];
    rewrite ?length_app; cbn [length]; lia.
Qed.

Lemma get_inv {S : Type} `{!TokenStorageProtocol S} (client : WhoopAPIClient S)
      (endpoint : string) (params : list (string * pyval)) (env : Env)
      (s s1 : State) (data : pyval) :
  _get client endpoint params env s = (Ok data, s1) ->
  exists token sg st,
    get_valid_token (auth client) env s = (Ok token, sg)
    /\ e_provider env (s_sent sg) (api_request token endpoint params)
       = Response st (Some data)
    /\ s1 = set_sent (s_sent sg ++ [api_request token endpoint params]) sg.
Proof.
  unfold _get, _get_headers. msimpl.
  destruct (get_valid_token (auth client) env s) as [[token|e|] sg]; [|discriminate..].
  msimpl. fold (api_request token endpoint params).
  destruct (e_provider env (s_sent sg) (api_request token endpoint params))
    as [msg|st [v|]] eqn:Hp; unfold raise_for_status_json; msimpl; try discriminate;
    destruct ((200 <=? st) && (st <=? 299)); msimpl; try discriminate.
  intros [= <- <-]. exists token, sg, st. repeat split. exact Hp.
Qed.

Lemma loop_terminates (client : WhoopAPIClient DatabaseTokenStorage) (env : Env)
      (bound : nat) (endpoint sd ed : string) :
  cursor_free_after env bound ->
  forall (f : nat) (s : State) (acc : list pyval) (cursor : pyval),
    (bound <= length (s_sent s) + f)%nat ->
    (_get_paginated_loop (Datatypes.S f) client endpoint sd ed acc cursor env s).1
    <> OutOfFuel.
Proof.
  intros Hfree. induction f as [|f IH]; intros s acc cursor Hbound;
    cbn [_get_paginated_loop]; unfold bind at 1;
    destruct (_get client endpoint (page_params sd ed cursor) env s)
      as [[data|e|] s1] eqn:Hget; cbn [fst]; try discriminate;
    try (pose proof (total_get client endpoint (page_params sd ed cursor) env s) as Ht;
         rewrite Hget in Ht; contradiction).
  - destruct (get_inv _ _ _ _ _ _ _ Hget) as (token & sg & st & Hgvt & Hp & ->).
    pose proof (sent_grows_get_valid_token (auth client) env s) as Hgrow.
    rewrite Hgvt in Hgrow. unfold sent_grows in Hgrow. cbn [snd] in Hgrow.
    msimpl.
    destruct (dict_get data "records" (PList [])) as [records|?]; [|discriminate].
    destruct (iterate records) as [items|?]; [|discriminate].
    destruct (dict_get data "next_token" PNone) as [nt|?] eqn:Hnt; [|discriminate].
    destruct (truthy nt) eqn:Htr; [|discriminate].
    assert (Hlt : (bound <= length (s_sent sg))%nat) by lia.
    rewrite (Hfree _ _ _ _ _ Hlt Hp Hnt) in Htr. discriminate.
  - destruct (get_inv _ _ _ _ _ _ _ Hget) as (token & sg & st & Hgvt & Hp & ->).
    pose proof (sent_grows_get_valid_token (auth client) env s) as Hgrow.
    rewrite Hgvt in Hgrow. unfold sent_grows in Hgrow. cbn [snd] in Hgrow.
    unfold bind at 1. cbn [lift].
    destruct (dict_get data "records" (PList [])) as [records|?]; [|discriminate].
    unfold bind at 1. cbn [lift].
    destruct (iterate records) as [items|?]; [|discriminate].
    unfold bind at 1. cbn [lift].
    destruct (dict_get data "next_token" PNone) as [nt|?] eqn:Hnt; [|discriminate].
    destruct (truthy nt) eqn:Htr; [|discriminate].
    apply IH. cbn [s_sent set_sent]. rewrite length_app. cbn [length].
    destruct (Nat.le_gt_cases bound (length (s_sent sg))) as [Hle|Hgt]; [|lia].
    rewrite (Hfree _ _ _ _ _ Hle Hp Hnt) in Htr. discriminate.
Qed.

(** ** The orchestrator (C5) *)

Lemma guarded_run (name : string) (work : M nat) (env : Env) (s : State) :
  (work env (scraping name s)).1 <> OutOfFuel ->
  same_stats (scraping name s) (work env (scraping name s)).2 ->
  exists s',
    guarded name work env s = (Ok tt, s')
    /\ s_stats s' = <[name := entry_of (work env (scraping name s)).1]> (s_stats s).
Proof.
  unfold guarded, set_stat, same_stats, scraping. msimpl.
  destruct (work env _) as [[n|e|] s1]; cbn [fst snd entry_of any_exception];
    intros Hfuel Hstats; [| |contradiction]; msimpl; rewrite Hstats;
    eexists; (split; [reflexivity|reflexivity]).
Qed.

Lemma scrape_user_profile_guarded (self : WhoopScraper) (env : Env) (s : State) :
  _scrape_user_profile self env s = guarded "user_profile" (user_profile_work self) env s.
Proof.
  unfold _scrape_user_profile, guarded, user_profile_work. msimpl.
  destruct (get_user_profile (client self) env _) as [[data|e|] s1]; [|reflexivity..].
  destruct (upsert_user_profile data env s1) as [[[]|e|] s2]; reflexivity.
Qed.

Lemma scrape_body_measurement_guarded (self : WhoopScraper) (env : Env) (s : State) :
  _scrape_body_measurement self env s
  = guarded "body_measurement" (body_measurement_work self) env s.
Proof.
  unfold _scrape_body_measurement, guarded, body_measurement_work. msimpl.
  destruct (get_body_measurement (client self) env _) as [[data|e|] s1]; [|reflexivity..].
  destruct (upsert_body_measurement data env s1) as [[[]|e|] s2]; reflexivity.
Qed.

Lemma scrape_cycles_guarded (fuel : nat) (self : WhoopScraper) (env : Env) (s : State) :
  _scrape_cycles fuel self env s = guarded "cycles" (cycles_work fuel self) env s.
Proof.
  unfold _scrape_cycles, guarded, cycles_work. msimpl.
  destruct (get_cycles fuel (client self) _ _ env _) as [[data|e|] s1]; [|reflexivity..].
  destruct (upsert_cycles data env s1) as [[n|e|] s2]; reflexivity.
Qed.

Lemma scrape_recovery_guarded (fuel : nat) (self : WhoopScraper) (env : Env) (s : State) :
  _scrape_recovery fuel self env s = guarded "recovery" (recovery_work fuel self) env s.
Proof.
  unfold _scrape_recovery, guarded, recovery_work. msimpl.
  destruct (get_recovery fuel (client self) _ _ env _) as [[data|e|] s1]; [|reflexivity..].
  destruct (upsert_recovery data env s1) as [[n|e|] s2]; reflexivity.
Qed.

Lemma scrape_sleep_guarded (fuel : nat) (self : WhoopScraper) (env : Env) (s : State) :
  _scrape_sleep fuel self env s = guarded "sleep" (sleep_work fuel self) env s.
Proof.
  unfold _scrape_sleep, guarded, sleep_work. msimpl.
  destruct (get_sleep fuel (client self) _ _ env _) as [[data|e|] s1]; [|reflexivity..].
  destruct (upsert_sleep data env s1) as [[n|e|] s2]; reflexivity.
Qed.

Lemma scrape_workouts_guarded (fuel : nat) (self : WhoopScraper) (env : Env) (s : State) :
  _scrape_workouts fuel self env s = guarded "workouts" (workouts_work fuel self) env s.
Proof.
  unfold _scrape_workouts, guarded, workouts_work. msimpl.
  destruct (get_workouts fuel (client self) _ _ env _) as [[data|e|] s1]; [|reflexivity..].
  destruct (upsert_workouts data env s1) as [[n|e|] s2]; reflexivity.
Qed.

Ltac stats_facts :=
  assert (R_refl : forall s, same_stats s s) by reflexivity;
  assert (R_trans : forall s1 s2 s3, same_stats s1 s2 -> same_stats s2 s3 -> same_stats s1 s3)
    by (unfold same_stats; congruence);
  assert (R_ticks : forall s n, same_stats s (set_ticks n s)) by reflexivity;
  assert (R_pg_sessions : forall s n, same_stats s (set_pg_sessions n s)) by reflexivity;
  assert (R_pg_tokens : forall s r, same_stats s (set_pg_tokens r s)) by reflexivity;
  assert (R_pg_ops : forall s l, same_stats s (set_pg_ops l s)) by reflexivity;
  assert (R_log : forall s l, same_stats s (set_log l s)) by reflexivity;
  assert (R_tokens : forall s t, same_stats s (set_tokens t s)) by reflexivity;
  assert (R_sent : forall s req, same_stats s (set_sent (s_sent s ++ [req]) s))
    by reflexivity.

Section Categories.
Variable self : WhoopScraper.

Lemma same_stats_get (endpoint : string) (params : list (string * pyval)) :
  respects same_stats (_get (client self) endpoint params).
Proof. stats_facts. now apply respects_get with (self := auth (client self)). Qed.

Lemma same_stats_get_paginated (fuel : nat) (endpoint sd ed : string) :
  respects same_stats (_get_paginated fuel (client self) endpoint sd ed).
Proof. stats_facts. now apply respects_get_paginated with (self := auth (client self)). Qed.

Lemma same_stats_user_profile_work : respects same_stats (user_profile_work self).
Proof.
  stats_facts. unfold user_profile_work, get_user_profile.
  apply respects_bind; [assumption| |intros data].
  - apply respects_bind; [assumption|frame|intros _].
    apply respects_bind; [assumption|apply same_stats_get|intros d; frame].
  - apply respects_bind; [assumption|now apply respects_upsert_user_profile|intros _; frame].
Qed.

Lemma same_stats_body_measurement_work : respects same_stats (body_measurement_work self).
Proof.
  stats_facts. unfold body_measurement_work, get_body_measurement.
  apply respects_bind; [assumption| |intros data].
  - apply respects_bind; [assumption|frame|intros _].
    apply respects_bind; [assumption|apply same_stats_get|intros d; frame].
  - apply respects_bind;
      [assumption|now apply respects_upsert_body_measurement|intros _; frame].
Qed.

Lemma same_stats_cycles_work (fuel : nat) : respects same_stats (cycles_work fuel self).
Proof.
  stats_facts. unfold cycles_work, get_cycles.
  apply respects_bind; [assumption| |intros data; now apply respects_upsert_cycles].
  apply respects_bind; [assumption|frame|intros _].
  apply respects_bind; [assumption|apply same_stats_get_paginated|intros d; frame].
Qed.

Lemma same_stats_recovery_work (fuel : nat) : respects same_stats (recovery_work fuel self).
Proof.
  stats_facts. unfold recovery_work, get_recovery.
  apply respects_bind; [assumption| |intros data; now apply respects_upsert_recovery].
  apply respects_bind; [assumption|frame|intros _].
  apply respects_bind; [assumption|apply same_stats_get_paginated|intros d; frame].
Qed.

Lemma same_stats_sleep_work (fuel : nat) : respects same_stats (sleep_work fuel self).
Proof.
  stats_facts. unfold sleep_work, get_sleep.
  apply respects_bind; [assumption| |intros data; now apply respects_upsert_sleep].
  apply respects_bind; [assumption|frame|intros _].
  apply respects_bind; [assumption|apply same_stats_get_paginated|intros d; frame].
Qed.

Lemma same_stats_workouts_work (fuel : nat) : respects same_stats (workouts_work fuel self).
Proof.
  stats_facts. unfold workouts_work, get_workouts.
  apply respects_bind; [assumption| |intros data; now apply respects_upsert_workouts].
  apply respects_bind; [assumption|frame|intros _].
  apply respects_bind; [assumption|apply same_stats_get_paginated|intros d; frame].
Qed.

Lemma total_user_profile_work : total (user_profile_work self).
Proof.
  unfold user_profile_work, get_user_profile.
  apply total_bind; [|intros data].
  - apply total_bind; [totality|intros _].
    apply total_bind; [apply total_get|intros d; totality].
  - apply total_bind; [apply total_upsert_user_profile|intros _; totality].
Qed.

Lemma total_body_measurement_work : total (body_measurement_work self).
Proof.
  unfold body_measurement_work, get_body_measurement.
  apply total_bind; [|intros data].
  - apply total_bind; [totality|intros _].
    apply total_bind; [apply total_get|intros d; totality].
  - apply total_bind; [apply total_upsert_body_measurement|intros _; totality].
Qed.

Variable env : Env.
Variable bound : nat.
Hypothesis provider_stops : cursor_free_after env bound.

Lemma get_paginated_terminates (f : nat) (endpoint sd ed : string) (s : State) :
  (bound <= f)%nat ->
  (_get_paginated (Datatypes.S f) (client self) endpoint sd ed env s).1 <> OutOfFuel.
Proof.
  intros Hb. unfold _get_paginated.
  apply (loop_terminates (client self) env bound endpoint sd ed provider_stops). lia.
Qed.

Lemma cycles_work_terminates (f : nat) (s : State) :
  (bound <= f)%nat -> (cycles_work (Datatypes.S f) self env s).1 <> OutOfFuel.
Proof.
  intros Hb. unfold cycles_work, get_cycles. msimpl.
  pose proof (get_paginated_terminates f "/cycle" (start_date self) (end_date self)
                (set_log (s_log s ++ [(INFO, "Fetching cycles from " +:+ start_date self
                                               +:+ " to " +:+ end_date self)]) s) Hb) as Ht.
  revert Ht. unfold set_log. cbn [s_ticks s_sent s_fs s_pg_sessions s_pg_tokens s_pg_ops
    s_log s_nonces s_tokens s_handler s_stats].
  destruct (_get_paginated _ _ _ _ _ env _) as [[records|e|] s1]; cbn [fst];
    intros Ht; [|discriminate|contradiction].
  apply total_upsert_cycles.
Qed.

Lemma recovery_work_terminates (f : nat) (s : State) :
  (bound <= f)%nat -> (recovery_work (Datatypes.S f) self env s).1 <> OutOfFuel.
Proof.
  intros Hb. unfold recovery_work, get_recovery. msimpl.
  pose proof (get_paginated_terminates f "/recovery" (start_date self) (end_date self)
                (set_log (s_log s ++ [(INFO, "Fetching recovery from " +:+ start_date self
                                               +:+ " to " +:+ end_date self)]) s) Hb) as Ht.
  revert Ht. unfold set_log. cbn [s_ticks s_sent s_fs s_pg_sessions s_pg_tokens s_pg_ops
    s_log s_nonces s_tokens s_handler s_stats].
  destruct (_get_paginated _ _ _ _ _ env _) as [[records|e|] s1]; cbn [fst];
    intros Ht; [|discriminate|contradiction].
  apply total_upsert_recovery.
Qed.

Lemma sleep_work_terminates (f : nat) (s : State) :
  (bound <= f)%nat -> (sleep_work (Datatypes.S f) self env s).1 <> OutOfFuel.
Proof.
  intros Hb. unfold sleep_work, get_sleep. msimpl.
  pose proof (get_paginated_terminates f "/activity/sleep" (start_date self) (end_date self)
                (set_log (s_log s ++ [(INFO, "Fetching sleep from " +:+ start_date self
                                               +:+ " to " +:+ end_date self)]) s) Hb) as Ht.
  revert Ht. unfold set_log. cbn [s_ticks s_sent s_fs s_pg_sessions s_pg_tokens s_pg_ops
    s_log s_nonces s_tokens s_handler s_stats].
  destruct (_get_paginated _ _ _ _ _ env _) as [[records|e|] s1]; cbn [fst];
    intros Ht; [|discriminate|contradiction].
  apply total_upsert_sleep.
Qed.

Lemma workouts_work_terminates (f : nat) (s : State) :
  (bound <= f)%nat -> (workouts_work (Datatypes.S f) self env s).1 <> OutOfFuel.
Proof.
  intros Hb. unfold workouts_work, get_workouts. msimpl.
  pose proof (get_paginated_terminates f "/activity/workout" (start_date self)
                (end_date self)
                (set_log (s_log s ++ [(INFO, "Fetching workouts from " +:+ start_date self
                                               +:+ " to " +:+ end_date self)]) s) Hb) as Ht.
  revert Ht. unfold set_log. cbn [s_ticks s_sent s_fs s_pg_sessions s_pg_tokens s_pg_ops
    s_log s_nonces s_tokens s_handler s_stats].
  destruct (_get_paginated _ _ _ _ _ env _) as [[records|e|] s1]; cbn [fst];
    intros Ht; [|discriminate|contradiction].
  apply total_upsert_workouts.
Qed.

End Categories.

Lemma pydict_lookup_set_eq {V : Type} (k : string) (v : V) (d : pydict V) :
  <[k := v]> d !! k = Some v.
Proof.
  unfold insert, lookup, pydict_insert, pydict_lookup.
  induction d as [|[k0 v0] d IH]; cbn [pydict_set pydict_get].
  - now rewrite String.eqb_refl.
  - destruct (String.eqb k0 k) eqn:E; cbn [pydict_get]; rewrite E; [reflexivity|exact IH].
Qed.

Lemma pydict_lookup_set_ne {V : Type} (k k' : string) (v : V) (d : pydict V) :
  k <> k' -> <[k := v]> d !! k' = d !! k'.
Proof.
  intros Hne. unfold insert, lookup, pydict_insert, pydict_lookup.
  induction d as [|[k0 v0] d IH]; cbn [pydict_set pydict_get].
  - destruct (String.eqb k k') eqn:E; [apply String.eqb_eq in E; contradiction|reflexivity].
  - destruct (String.eqb k0 k) eqn:E; cbn [pydict_get].
    + apply String.eqb_eq in E. subst k0.
      destruct (String.eqb k k') eqn:E'; [apply String.eqb_eq in E'; contradiction|].
      reflexivity.
    + rewrite IH. reflexivity.
Qed.

Lemma bind_ends {A B} (c : M A) (k : A -> M B) env s :
  (bind c k env s).1 <> OutOfFuel -> (c env s).1 <> OutOfFuel.
Proof.
  unfold bind. destruct (c env s) as [[a|e|] s1]; cbn [fst]; intros H;
    [discriminate|discriminate|now contradiction H].
Qed.

Lemma guarded_ends (name : string) (work : M nat) (env : Env) (s : State) :
  (guarded name work env s).1 <> OutOfFuel ->
  same_stats (scraping name s) (work env (scraping name s)).2 ->
  exists s',
    guarded name work env s = (Ok tt, s')
    /\ s_stats s' = <[name := entry_of (work env (scraping name s)).1]> (s_stats s).
Proof.
  unfold guarded, set_stat, same_stats, scraping. msimpl.
  destruct (work env _) as [[n|e|] s1]; cbn [fst snd entry_of any_exception];
    intros Hfuel Hstats; [| |contradiction]; msimpl; rewrite Hstats;
    eexists; (split; [reflexivity|reflexivity]).
Qed.

Lemma scrape_all_run (fuel : nat) (self : WhoopScraper) (env : Env) (s : State) :
  e_pg_fail env (s_pg_sessions s) = None ->
  scrape_all fuel self env s
  = match all_categories fuel self env (connected self s) with
    | (Ok _, s6) =>
        match e_pg_reject env (s_pg_ops s6) Commit with
        | None =>
            (Ok (s_stats s6),
             set_log (s_log s6 ++ [(INFO, "Scrape completed successfully")])
                     (set_pg_ops (s_pg_ops s6 ++ [Commit]) s6))
        | Some msg =>
            (Raise (PsycopgError msg), set_pg_ops (s_pg_ops s6 ++ [Commit]) s6)
        end
    | (Raise e, s') => (Raise e, s')
    | (OutOfFuel, s') => (OutOfFuel, s')
    end.
Proof.
  intros Hconn. unfold scrape_all, with_connection. fold (start_message self).
  fold (all_categories fuel self). set (body := all_categories fuel self).
  msimpl. rewrite Hconn.
  change (mkState (s_ticks s) (s_sent s) (s_fs s) (S (s_pg_sessions s)) (s_pg_tokens s)
                  (s_pg_ops s) (s_log s ++ [(INFO, start_message self)]) (s_nonces s)
                  (s_tokens s) (s_handler s) (s_stats s))
    with (connected self s).
  destruct (body env (connected self s)) as [[[]|e|] s6]; [|reflexivity|reflexivity].
  destruct (e_pg_reject env (s_pg_ops s6) Commit); reflexivity.
Qed.



Lemma partial_env_stops : cursor_free_after partial_env 0.
Proof.
  intros hist req st body nt _ Hp Hnt. destruct req as [url data|url headers params];
    cbn [partial_env e_provider] in Hp; [discriminate|].
  destruct (String.eqb url (BASE_URL +:+ "/cycle")); [discriminate|].
  injection Hp as <- <-. cbn in Hnt. injection Hnt as <-. reflexivity.
Qed.


(** The partial-failure scenario, run: the profile succeeds, cycles fail on
    the network, and the categories after cycles are still carried out. *)
Example partial_failure_run :
  match (scrape_all 1 sample_scraper partial_env authorized_state).1 with
  | Ok stats =>
      stats !! "user_profile" = Some (Success 1)
      /\ stats !! "cycles" = Some (Failure "network unreachable")
      /\ stats !! "recovery" = Some (Success 0)
      /\ stats !! "sleep" = Some (Success 0)
      /\ stats !! "workouts" = Some (Success 0)
      /\ stats.*1 = categories
  | _ => False
  end.
Proof. vm_compute. repeat split; reflexivity. Qed.

(** * Further properties of the code *)

(** ** The file store *)

(** X1.  Without bootstrap tokens in the environment, [TokenStorage.load]
    answers "no tokens" and raises nothing when the file does not exist, when
    its text is not JSON (a warning is logged and the file is left as it
    is), and when its JSON object has no access_token. *)
Theorem file_load_unusable_file (self : TokenStorage) (env : Env) (s : State) :
  bootstrap_present env = false ->
  (s_fs s !! path self = None -> load self env s = (Ok None, s))
  /\ (forall mode,
        s_fs s !! path self = Some (mkFile Malformed mode) ->
        load self env s
        = (Ok None,
           set_log (s_log s ++ [(WARNING, "Failed to load tokens: Expecting value")]) s))
  /\ (forall d mode,
        s_fs s !! path self = Some (mkFile (JsonText (PDict d)) mode) ->
        d !! "access_token" = None ->
        load self env s
        = (Ok None,
           set_log (s_log s ++ [(WARNING, "Failed to load tokens: 'access_token'")]) s)).
Proof.
  intros Hb. unfold bootstrap_present in Hb.
  cbn [load TokenStorage_protocol]. unfold TokenStorage_load.
  split; [|split].
  - intros Hf. msimpl. rewrite Hb. msimpl. rewrite Hf. reflexivity.
  - intros mode Hf. msimpl. rewrite Hb. msimpl. rewrite Hf.
    unfold json_loads_file. cbn [file_text]. msimpl. reflexivity.
  - intros d mode Hf Hk. msimpl. rewrite Hb. msimpl. rewrite Hf.
    unfold json_loads_file, from_dict, dict_item. cbn [file_text]. msimpl.
    rewrite Hk. reflexivity.
Qed.

Lemma file_load_unusable_file_witness :
  load sample_file_store sample_env initial_state = (Ok None, initial_state).
Proof.
  apply (proj1 (file_load_unusable_file sample_file_store sample_env initial_state eq_refl)).
  reflexivity.
Defined.

(** X2.  A token file that parses as JSON and has the two token strings but
    whose expires_at is rejected by [datetime.fromisoformat] makes
    [TokenStorage.load] raise that ValueError: the handler of the loader
    catches JSON and key errors only. *)
Theorem file_load_bad_timestamp_raises (self : TokenStorage) (env : Env) (s : State)
        (d : gmap string pyval) (mode : Z) (a r x msg : string) :
  bootstrap_present env = false ->
  s_fs s !! path self = Some (mkFile (JsonText (PDict d)) mode) ->
  d !! "access_token" = Some (PStr a) ->
  d !! "refresh_token" = Some (PStr r) ->
  d !! "expires_at" = Some (PStr x) ->
  e_fromisoformat env x = Error (ValueError msg) ->
  load self env s = (Raise (ValueError msg), s).
Proof.
  intros Hb Hf Ha Hr Hx Hiso. unfold bootstrap_present in Hb.
  cbn [load TokenStorage_protocol]. unfold TokenStorage_load. msimpl.
  rewrite Hb. msimpl. rewrite Hf.
  unfold json_loads_file, from_dict, dict_item. cbn [file_text]. msimpl.
  rewrite Ha. cbn [as_str]. rewrite Hr. cbn [as_str]. rewrite Hx. cbn [as_str].
  rewrite Hiso. reflexivity.
Qed.

Lemma file_load_bad_timestamp_raises_witness :
  load sample_file_store sample_env garbled_state
  = (Raise (ValueError "Invalid isoformat string"), garbled_state).
Proof.
  eapply (file_load_bad_timestamp_raises sample_file_store sample_env garbled_state);
    reflexivity.
Defined.

(** X3.  [TokenStorage.clear] removes the token file and nothing else; after
    it, with no bootstrap tokens in the environment, [load] finds nothing,
    and a second [clear] changes nothing at all. *)
Theorem file_clear_forgets (self : TokenStorage) (env : Env) (s : State) :
  bootstrap_present env = false ->
  exists s1,
    clear self env s = (Ok tt, s1)
    /\ s_fs s1 !! path self = None
    /\ (forall p, p <> path self -> s_fs s1 !! p = s_fs s !! p)
    /\ load self env s1 = (Ok None, s1)
    /\ clear self env s1 = (Ok tt, s1).
Proof.
  intros Hb. unfold bootstrap_present in Hb.
  cbn [load clear TokenStorage_protocol]. unfold TokenStorage_clear, TokenStorage_load.
  msimpl. destruct (s_fs s !! path self) as [f|] eqn:Hf; msimpl.
  - eexists. split; [reflexivity|]. msimpl.
    split; [apply lookup_delete_eq|].
    split; [intros p Hp; apply lookup_delete_ne; congruence|].
    rewrite Hb. msimpl. rewrite lookup_delete_eq. split; reflexivity.
  - exists s. split; [reflexivity|]. split; [exact Hf|].
    split; [reflexivity|]. rewrite Hb, Hf. split; reflexivity.
Qed.

Lemma file_clear_forgets_witness :
  exists s1,
    clear sample_file_store sample_env garbled_state = (Ok tt, s1)
    /\ s_fs s1 !! path sample_file_store = None.
Proof.
  destruct (file_clear_forgets sample_file_store sample_env garbled_state eq_refl)
    as (s1 & Hc & Hgone & _).
  exists s1. split; assumption.
Defined.

(** X4.  [TokenStorage.save] replaces the token file by the serialised token
    with permission bits 0o600 (384), whatever the file held before, and
    touches no other file. *)
Theorem file_save_owner_only (self : TokenStorage) (T : OAuthTokens) (env : Env) (s : State) :
  exists s1,
    save self T env s = (Ok tt, s1)
    /\ s_fs s1 !! path self
       = Some (mkFile (JsonText (PDict (token_dict T (e_isoformat env (expires_at T))))) 384)
    /\ (forall p, p <> path self -> s_fs s1 !! p = s_fs s !! p).
Proof.
  eexists. split; [reflexivity|]. msimpl.
  split; [apply lookup_insert_eq|].
  intros p Hp. apply lookup_insert_ne. congruence.
Qed.

(** X5.  When the environment carries both bootstrap tokens,
    [TokenStorage.load] returns them without looking at the file, with an
    expiry one year (365 days) after the reading of the clock; that token is
    not expired at that reading. *)
Theorem file_load_bootstrap_priority (self : TokenStorage) (env : Env) (s : State) :
  bootstrap_present env = true ->
  let T := mkTokens (Settings.access_token (e_settings env))
                    (Settings.refresh_token (e_settings env))
                    (now_of env s + 31536000000000) "bearer" in
  load self env s
  = (Ok (Some T),
     tick (set_log (s_log s ++ [(DEBUG, "Loading tokens from environment variables")]) s))
  /\ ~ expired_at (now_of env s) T.
Proof.
  intros Hb T. unfold bootstrap_present in Hb. split.
  - cbn [load TokenStorage_protocol]. unfold TokenStorage_load. msimpl.
    rewrite Hb. reflexivity.
  - unfold expired_at, T. cbn [expires_at]. lia.
Qed.

Lemma file_load_bootstrap_priority_witness :
  (load sample_file_store bootstrap_env garbled_state).1
  = Ok (Some (mkTokens "boot-access" "boot-refresh" 31537000000000 "bearer")).
Proof.
  rewrite (proj1 (file_load_bootstrap_priority sample_file_store bootstrap_env
                    garbled_state eq_refl)).
  reflexivity.
Defined.

(** ** The database store *)

(** X6.  A database error while loading is never fatal:
    [DatabaseTokenStorage.load] logs a warning and answers with the bootstrap
    tokens of the environment (expiring at once) when both are present, and
    with "no tokens" otherwise; the token table is not touched. *)
Theorem db_load_survives_database_error (self : DatabaseTokenStorage) (env : Env)
        (s : State) (msg : string) :
  e_pg_fail env (s_pg_sessions s) = Some msg ->
  exists s',
    load self env s = (Ok (bootstrap_fallback env (now_of env s)), s')
    /\ database_warning msg ∈ s_log s'
    /\ s_pg_tokens s' = s_pg_tokens s.
Proof.
  intros Hfail. cbn [load DatabaseTokenStorage_protocol].
  unfold DatabaseTokenStorage_load, bootstrap_fallback, bootstrap_present, database_warning.
  msimpl. rewrite Hfail. cbn [is_psycopg_error exn_str]. msimpl.
  destruct (truthy_str (Settings.access_token (e_settings env))
            && truthy_str (Settings.refresh_token (e_settings env))); msimpl.
  - eexists. split; [reflexivity|]. split; [|reflexivity]. msimpl.
    rewrite !elem_of_app. left. right. apply list_elem_of_singleton. reflexivity.
  - eexists. split; [reflexivity|]. split; [|reflexivity]. msimpl.
    rewrite !elem_of_app. right. apply list_elem_of_singleton. reflexivity.
Qed.

Lemma db_load_survives_database_error_witness :
  (load plain_db_store down_env initial_state).1 = Ok None.
Proof.
  destruct (db_load_survives_database_error plain_db_store down_env initial_state
              "connection refused" eq_refl) as (s' & Hrun & _).
  rewrite Hrun. reflexivity.
Defined.

(** X7.  A stored row whose access token the cipher cannot decrypt makes
    [DatabaseTokenStorage.load] raise the cipher's error: it is not treated
    as a missing row, and the bootstrap tokens are not tried. *)
Theorem db_load_undecryptable_row_raises (self : DatabaseTokenStorage) (env : Env)
        (s : State) (r : TokenRow) (c : Fernet) (e : exn) :
  e_pg_fail env (s_pg_sessions s) = None ->
  s_pg_tokens s = Some r ->
  _cipher self = Some c ->
  decrypt c (row_access_token r) = Error e ->
  is_psycopg_error e = false ->
  exists s', load self env s = (Raise e, s') /\ s_ticks s' = s_ticks s.
Proof.
  intros Hs Hrow Hc Hdec He. cbn [load DatabaseTokenStorage_protocol].
  unfold DatabaseTokenStorage_load, _decrypt. msimpl. rewrite Hs, Hrow. msimpl.
  rewrite Hc, Hdec. rewrite He. eexists. split; reflexivity.
Qed.

Lemma db_load_undecryptable_row_raises_witness :
  (load encrypted_db_store bootstrap_env foreign_row_state).1 = Raise InvalidToken.
Proof.
  destruct (db_load_undecryptable_row_raises encrypted_db_store bootstrap_env
              foreign_row_state (mkRow "x-old" "x-r1" 0 (Some "bearer")) marker_cipher
              InvalidToken eq_refl eq_refl eq_refl eq_refl eq_refl) as (s' & Hrun & _).
  rewrite Hrun. reflexivity.
Defined.

(** X8.  The token table holds one row: of two tokens saved one after the
    other, [DatabaseTokenStorage.load] returns the second. *)
Theorem db_save_last_write_wins (self : DatabaseTokenStorage) (T1 T2 : OAuthTokens)
        (env : Env) (s : State) :
  e_pg_fail env (s_pg_sessions s) = None ->
  e_pg_fail env (S (s_pg_sessions s)) = None ->
  e_pg_fail env (S (S (s_pg_sessions s))) = None ->
  token_type T2 <> "" ->
  cipher_inverts self (access_token T2) ->
  cipher_inverts self (refresh_token T2) ->
  exists s1 s2 s3,
    save self T1 env s = (Ok tt, s1)
    /\ save self T2 env s1 = (Ok tt, s2)
    /\ s_pg_tokens s2 = Some (row_of self T2)
    /\ load self env s2 = (Ok (Some T2), s3).
Proof.
  intros H0 H1 H2 Hty Ha Hr.
  pose proof (db_save_eq self T1 env s H0) as Hs1.
  set (s1 := set_log _ _) in Hs1.
  destruct (database_roundtrip self T2 env s1 H1 H2 Hty Ha Hr) as (s2 & s3 & Hs2 & Hl).
  exists s1, s2, s3. split; [exact Hs1|]. split; [exact Hs2|]. split; [|exact Hl].
  cbn [save DatabaseTokenStorage_protocol] in Hs2.
  rewrite (db_save_eq self T2 env s1 H1) in Hs2. injection Hs2 as <-. reflexivity.
Qed.

Lemma db_save_last_write_wins_witness :
  exists s1 s2 s3,
    save encrypted_db_store sample_tokens sample_env initial_state = (Ok tt, s1)
    /\ save encrypted_db_store long_lived_tokens sample_env s1 = (Ok tt, s2)
    /\ s_pg_tokens s2 = Some (row_of encrypted_db_store long_lived_tokens)
    /\ load encrypted_db_store sample_env s2 = (Ok (Some long_lived_tokens), s3).
Proof.
  apply (db_save_last_write_wins encrypted_db_store sample_tokens long_lived_tokens
           sample_env initial_state); try reflexivity; try discriminate;
    intros c Hc; injection Hc as <-; reflexivity.
Defined.

(** X9.  [DatabaseTokenStorage.clear] empties the token table; a [load] after
    it no longer sees the stored token and falls back to the bootstrap tokens
    of the environment, or to "no tokens". *)
Theorem db_clear_forgets (self : DatabaseTokenStorage) (env : Env) (s : State) :
  e_pg_fail env (s_pg_sessions s) = None ->
  e_pg_fail env (S (s_pg_sessions s)) = None ->
  exists s1 s2,
    clear self env s = (Ok tt, s1)
    /\ s_pg_tokens s1 = None
    /\ load self env s1 = (Ok (bootstrap_fallback env (now_of env s)), s2).
Proof.
  intros H0 H1. cbn [clear load DatabaseTokenStorage_protocol].
  unfold DatabaseTokenStorage_clear, DatabaseTokenStorage_load, bootstrap_fallback,
    bootstrap_present, bootstrap_tokens, now_of.
  msimpl. rewrite H0. msimpl. eexists.
  match goal with |- exists s2, _ /\ _ /\ ?run = _ => exists (run.2) end.
  split; [reflexivity|]. split; [reflexivity|].
  msimpl. rewrite H1. msimpl.
  destruct (truthy_str (Settings.access_token (e_settings env))
            && truthy_str (Settings.refresh_token (e_settings env))); reflexivity.
Qed.

Lemma db_clear_forgets_witness :
  exists s1 s2,
    clear plain_db_store sample_env stale_row_state = (Ok tt, s1)
    /\ s_pg_tokens s1 = None
    /\ load plain_db_store sample_env s1 = (Ok None, s2).
Proof.
  exact (db_clear_forgets plain_db_store sample_env stale_row_state eq_refl eq_refl).
Defined.

(** X10.  A database error while writing is fatal: [save] and [clear] of the
    database store raise it, and the token table keeps what it held. *)
Theorem db_write_errors_propagate (self : DatabaseTokenStorage) (T : OAuthTokens)
        (env : Env) (s : State) (msg : string) :
  e_pg_fail env (s_pg_sessions s) = Some msg ->
  save self T env s = (Raise (PsycopgError msg), set_pg_sessions (S (s_pg_sessions s)) s)
  /\ clear self env s = (Raise (PsycopgError msg), set_pg_sessions (S (s_pg_sessions s)) s)
  /\ s_pg_tokens (save self T env s).2 = s_pg_tokens s
  /\ s_pg_tokens (clear self env s).2 = s_pg_tokens s.
Proof.
  intros Hfail. cbn [save clear DatabaseTokenStorage_protocol].
  unfold DatabaseTokenStorage_save, DatabaseTokenStorage_clear. msimpl.
  rewrite Hfail. repeat split.
Qed.

Lemma db_write_errors_propagate_witness :
  (save plain_db_store sample_tokens down_env stale_row_state).1
  = Raise (PsycopgError "connection refused").
Proof.
  rewrite (proj1 (db_write_errors_propagate plain_db_store sample_tokens down_env
                    stale_row_state "connection refused" eq_refl)).
  reflexivity.
Defined.

(** ** The token endpoint *)



(** X12.  [exchange_code] caches the new token only after the store has
    saved it: when [save] succeeds the token is returned and cached, and when
    [save] raises, [exchange_code] raises the same error from the state
    [save] left, with the cache as it was. *)
Theorem exchange_code_saves_before_caching {S : Type} `{!TokenStorageProtocol S}
        (self : WhoopAuth S) (env : Env) (s s1 : State) (st : Z) (body : pyval)
        (T : OAuthTokens) (code redirect_uri : string) :
  let req := exchange_request self code redirect_uri in
  e_provider env (s_sent s) req = Response st (Some body) ->
  200 <= st <= 299 ->
  from_token_response body env (set_sent (s_sent s ++ [req]) s) = (Ok T, s1) ->
  (forall s2, save (storage self) T env s1 = (Ok tt, s2) ->
     exchange_code self code redirect_uri env s = (Ok T, exchange_done T s2))
  /\ (forall e s2, save (storage self) T env s1 = (Raise e, s2) ->
        exchange_code self code redirect_uri env s = (Raise e, s2)).
Proof.
  intros req Hp Hst Hresp. revert Hresp. unfold req in *.
  unfold exchange_code, raise_for_status_json, exchange_done. msimpl.
  fold (exchange_request self code redirect_uri). intros Hresp. rewrite Hp.
  replace ((200 <=? st) && (st <=? 299)) with true
    by (symmetry; apply andb_true_iff; split; apply Z.leb_le; lia).
  msimpl. rewrite Hresp. split.
  - intros s2 Hsave. rewrite Hsave. reflexivity.
  - intros e s2 Hsave. rewrite Hsave. reflexivity.
Qed.

Lemma exchange_code_saves_before_caching_witness :
  (exchange_code sample_auth "abc" "http://localhost:8080/callback" short_lived_env
                 initial_state).1
  = Ok (mkTokens "new" "r2" 1060000000 "bearer").
Proof.
  destruct (exchange_code_saves_before_caching sample_auth short_lived_env initial_state
              _ 200 short_lived_response (mkTokens "new" "r2" 1060000000 "bearer")
              "abc" "http://localhost:8080/callback" eq_refl ltac:(lia) eq_refl)
    as [Hok _].
  erewrite Hok; reflexivity.
Defined.

(** X13.  [refresh_tokens] without an argument takes the refresh token of
    what the store loads and goes on as if it had been passed; when the store
    has nothing it raises ValueError straight away, from the state [load]
    left, so that no request is sent. *)
Theorem refresh_tokens_from_store {S : Type} `{!TokenStorageProtocol S}
        (self : WhoopAuth S) (env : Env) (s : State) :
  refresh_tokens self None env s
  = match load (storage self) env s with
    | (Ok (Some t), s2) => refresh_tokens self (Some (refresh_token t)) env s2
    | (Ok None, s2) => (Raise no_stored_tokens, s2)
    | (Raise e, s2) => (Raise e, s2)
    | (OutOfFuel, s2) => (OutOfFuel, s2)
    end.
Proof.
  unfold refresh_tokens. msimpl.
  destruct (load (storage self) env s) as [[[t|]|e|] s2]; reflexivity.
Qed.

(** X14.  A token response that names neither expires_in nor token_type gives
    a bearer token expiring 3600 seconds after the reading of the clock; with
    an integer expires_in of n seconds it expires n seconds after it. *)
Theorem from_token_response_defaults (d : gmap string pyval) (a r : string)
        (env : Env) (s : State) :
  d !! "access_token" = Some (PStr a) ->
  d !! "refresh_token" = Some (PStr r) ->
  d !! "token_type" = None ->
  (d !! "expires_in" = None ->
     from_token_response (PDict d) env s
     = (Ok (mkTokens a r (now_of env s + 3600000000) "bearer"), tick s))
  /\ (forall n, d !! "expires_in" = Some (PInt n) ->
        from_token_response (PDict d) env s
        = (Ok (mkTokens a r (now_of env s + n * 1000000) "bearer"), tick s)).
Proof.
  intros Ha Hr Ht. split.
  - intros He. apply from_token_response_ok.
    unfold tokens_of_response, dict_get, dict_item. rewrite He, Ha, Hr, Ht. reflexivity.
  - intros n He. apply from_token_response_ok.
    unfold tokens_of_response, dict_get, dict_item. rewrite He, Ha, Hr, Ht. reflexivity.
Qed.

Lemma from_token_response_defaults_witness :
  from_token_response (PDict minimal_response) sample_env initial_state
  = (Ok (mkTokens "new" "r2" 4600000000 "bearer"), tick initial_state).
Proof.
  apply (proj1 (from_token_response_defaults minimal_response "new" "r2" sample_env
                  initial_state eq_refl eq_refl eq_refl)).
  reflexivity.
Defined.

(** X15.  A 2xx token response that carries an access token (a string) and
    no refresh_token, whether or not it states a lifetime (expires_in absent
    or a number), makes [refresh_tokens] raise KeyError after the request has
    gone out; the access token it carried is neither saved nor cached. *)
Theorem refresh_without_new_refresh_token {S : Type} `{!TokenStorageProtocol S}
        (self : WhoopAuth S) (env : Env) (s : State) (st : Z)
        (d : gmap string pyval) (a rt : string) :
  e_provider env (s_sent s) (refresh_request self rt) = Response st (Some (PDict d)) ->
  200 <= st <= 299 ->
  lifetime_readable d ->
  d !! "access_token" = Some (PStr a) ->
  d !! "refresh_token" = None ->
  refresh_tokens self (Some rt) env s
  = (Raise (KeyError "refresh_token"),
     tick (set_sent (s_sent s ++ [refresh_request self rt]) s)).
Proof.
  intros Hp Hst Hlife Ha Hr. unfold lifetime_readable in Hlife.
  unfold refresh_tokens, raise_for_status_json, from_token_response, dict_get, dict_item.
  msimpl. fold (refresh_request self rt). rewrite Hp.
  replace ((200 <=? st) && (st <=? 299)) with true
    by (symmetry; apply andb_true_iff; split; apply Z.leb_le; lia).
  msimpl. destruct (d !! "expires_in") as [v|].
  - destruct Hlife as (delta & Hdelta). rewrite Hdelta, Ha. cbn [as_str]. rewrite Hr.
    reflexivity.
  - cbn [timedelta_of]. rewrite Ha. cbn [as_str]. rewrite Hr. reflexivity.
Qed.

Lemma refresh_without_new_refresh_token_witness :
  (refresh_tokens sample_auth (Some "r1") access_only_env stale_row_state).1
  = Raise (KeyError "refresh_token")
  /\ s_pg_tokens (refresh_tokens sample_auth (Some "r1") access_only_env stale_row_state).2
     = s_pg_tokens stale_row_state.
Proof.
  assert (Hlife : lifetime_readable access_only_response)
    by (vm_compute; eexists; reflexivity).
  rewrite (refresh_without_new_refresh_token sample_auth access_only_env stale_row_state
             200 access_only_response "new" "r1" eq_refl ltac:(lia) Hlife eq_refl eq_refl).
  split; reflexivity.
Defined.



(** ** The interactive flow *)

(** X17.  In [authorize_interactive] an error parameter of the callback wins
    over everything else it carries: the flow raises "Authorization failed"
    with that error, the code of the callback is not even captured, and no
    request is sent. *)
Theorem authorize_interactive_denied {S : Type} `{!TokenStorageProtocol S}
        (self : WhoopAuth S) (port : Z) (open_browser : bool) (env : Env) (s : State)
        (params : QueryParams) (e : string) (rest : list string) :
  let nonce := e_token_urlsafe env (s_nonces s) in
  let url := authorization_url self env (redirect_uri_of port) nonce in
  e_callback env url open_browser = Some params ->
  params !! "error" = Some (e :: rest) ->
  truthy_str e = true ->
  authorize_interactive self port open_browser env s
  = (Raise (authorization_denied e),
     set_handler (mkHandler None None (Some e)) (awaiting_callback url s)).
Proof.
  intros nonce url Hcb He Ht.
  unfold authorize_interactive, get_authorization_url. msimpl.
  fold (redirect_uri_of port). fold nonce.
  fold (authorization_url self env (redirect_uri_of port) nonce). fold url.
  rewrite Hcb. unfold do_GET. rewrite He. cbn [first]. msimpl.
  cbn [authorization_code state error]. rewrite Ht. reflexivity.
Qed.

Lemma authorize_interactive_denied_witness :
  (authorize_interactive sample_auth 8080 false (with_callback (Some denied_params) sample_env)
                         initial_state).1
  = Raise (authorization_denied "access_denied").
Proof.
  rewrite (authorize_interactive_denied sample_auth 8080 false
             (with_callback (Some denied_params) sample_env) initial_state
             denied_params "access_denied" [] eq_refl eq_refl eq_refl).
  reflexivity.
Defined.

(** X18.  When no callback arrives before the wait ends, or the callback
    carries neither an error nor a code, [authorize_interactive] raises
    "Authorization timed out or failed"; it has drawn a nonce and logged the
    address, and has sent nothing. *)
Theorem authorize_interactive_times_out {S : Type} `{!TokenStorageProtocol S}
        (self : WhoopAuth S) (port : Z) (open_browser : bool) (env : Env) (s : State) :
  let nonce := e_token_urlsafe env (s_nonces s) in
  let url := authorization_url self env (redirect_uri_of port) nonce in
  (e_callback env url open_browser = None
   \/ exists params, e_callback env url open_browser = Some params
                     /\ params !! "error" = None /\ params !! "code" = None) ->
  authorize_interactive self port open_browser env s
  = (Raise authorization_timed_out, awaiting_callback url s).
Proof.
  intros nonce url Hcb.
  unfold authorize_interactive, get_authorization_url. msimpl.
  fold (redirect_uri_of port). fold nonce.
  fold (authorization_url self env (redirect_uri_of port) nonce). fold url.
  destruct Hcb as [Hcb | (params & Hcb & He & Hc)]; rewrite Hcb.
  - reflexivity.
  - unfold do_GET. rewrite He, Hc. reflexivity.
Qed.

Lemma authorize_interactive_times_out_witness :
  (authorize_interactive sample_auth 8080 true sample_env initial_state).1
  = Raise authorization_timed_out
  /\ s_sent (authorize_interactive sample_auth 8080 true sample_env initial_state).2 = [].
Proof.
  rewrite (authorize_interactive_times_out sample_auth 8080 true sample_env initial_state
             (or_introl eq_refl)).
  split; reflexivity.
Defined.

(** X19.  When the callback carries a code and the nonce of this run, and no
    error, [authorize_interactive] is [exchange_code] for that code and for
    the redirect address that was put into the authorization address; the
    handler then holds the code and the nonce. *)
Theorem authorize_interactive_exchanges {S : Type} `{!TokenStorageProtocol S}
        (self : WhoopAuth S) (port : Z) (open_browser : bool) (env : Env) (s : State)
        (params : QueryParams) (code : string) (rest : list string) :
  let nonce := e_token_urlsafe env (s_nonces s) in
  let url := authorization_url self env (redirect_uri_of port) nonce in
  e_callback env url open_browser = Some params ->
  params !! "error" = None ->
  params !! "code" = Some (code :: rest) ->
  callback_state params = Some nonce ->
  authorize_interactive self port open_browser env s
  = exchange_code self code (redirect_uri_of port) env
      (set_handler (mkHandler (Some code) (Some nonce) None) (awaiting_callback url s)).
Proof.
  intros nonce url Hcb He Hc Hst.
  unfold authorize_interactive, get_authorization_url. msimpl.
  fold (redirect_uri_of port). fold nonce.
  fold (authorization_url self env (redirect_uri_of port) nonce). fold url.
  rewrite Hcb. unfold do_GET, callback_state in *. rewrite He, Hc. cbn [first]. msimpl.
  destruct (params !! "state") as [[|x l]|]; try discriminate.
  injection Hst as ->. cbn [first]. msimpl. cbn [authorization_code state error].
  rewrite bool_decide_eq_true_2 by reflexivity. reflexivity.
Qed.

Lemma authorize_interactive_exchanges_witness :
  (authorize_interactive sample_auth 8080 false
     (with_callback (Some granted_params) short_lived_env) initial_state).1
  = Ok (mkTokens "new" "r2" 1060000000 "bearer").
Proof.
  rewrite (authorize_interactive_exchanges sample_auth 8080 false
             (with_callback (Some granted_params) short_lived_env) initial_state
             granted_params "abc" [] eq_refl eq_refl eq_refl eq_refl).
  reflexivity.
Defined.

(** ** API calls *)

Lemma get_with_cached_token_outcome {S : Type} `{!TokenStorageProtocol S}
      (client : WhoopAPIClient S) (env : Env) (t : OAuthTokens)
      (endpoint : string) (params : list (string * pyval)) (s : State) :
  (forall n, e_clock env n < expires_at t - 300000000) ->
  s_tokens s = Some t ->
  _get client endpoint params env s
  = raise_for_status_json
      (e_provider env (s_sent s) (api_request (access_token t) endpoint params)) env
      (set_sent (s_sent s ++ [api_request (access_token t) endpoint params]) (tick s)).
Proof.
  intros Hlasts Hc. unfold _get, _get_headers. msimpl.
  assert (Hne : ~ expired_at (now_of env s) t)
    by (unfold expired_at, now_of; specialize (Hlasts (s_ticks s)); lia).
  rewrite (get_valid_token_cached (auth client) env s t Hc Hne). msimpl.
  unfold tick. msimpl. reflexivity.
Qed.

(** X20.  [_get] sends at most one request, and only with a token: when the
    token manager raises, [_get] raises the same error from the state the
    manager left; otherwise it sends one request carrying the token the
    manager returned for this call.  A missing response is a transport
    error, a status outside 2xx a status error whatever the body, a 2xx body
    that is not JSON a decode error, and a 2xx JSON body is returned. *)
Theorem get_sends_one_authorized_request {S : Type} `{!TokenStorageProtocol S}
        (client : WhoopAPIClient S) (endpoint : string) (params : list (string * pyval))
        (env : Env) (s : State) :
  match get_valid_token (auth client) env s with
  | (Ok token, s1) =>
      let req := api_request token endpoint params in
      let run := _get client endpoint params env s in
      run.2 = set_sent (s_sent s1 ++ [req]) s1
      /\ match e_provider env (s_sent s1) req with
         | NoResponse msg => run.1 = Raise (TransportError msg)
         | Response st body =>
             (st < 200 \/ 299 < st -> run.1 = Raise (HTTPStatusError st))
             /\ (200 <= st <= 299 ->
                 run.1 = match body with Some v => Ok v | None => Raise JSONDecodeError end)
         end
  | (Raise e, s1) => _get client endpoint params env s = (Raise e, s1)
  | (OutOfFuel, s1) => _get client endpoint params env s = (OutOfFuel, s1)
  end.
Proof.
  unfold _get, _get_headers, raise_for_status_json. msimpl.
  destruct (get_valid_token (auth client) env s) as [[token|e|] s1]; msimpl;
    [|reflexivity|reflexivity].
  fold (api_request token endpoint params).
  destruct (e_provider env (s_sent s1) (api_request token endpoint params))
    as [msg|st body]; cbn zeta.
  - split; reflexivity.
  - destruct ((200 <=? st) && (st <=? 299)) eqn:Hst.
    + apply andb_true_iff in Hst. destruct Hst as [H1 H2].
      apply Z.leb_le in H1. apply Z.leb_le in H2.
      destruct body; (split; [reflexivity|]); (split; [lia|reflexivity]).
    + apply andb_false_iff in Hst.
      split; [reflexivity|]. split; [reflexivity|].
      intros [H1 H2]. destruct Hst as [Hst|Hst]; apply Z.leb_gt in Hst; lia.
Qed.

Lemma loop_aborts {S : Type} `{!TokenStorageProtocol S}
      (client : WhoopAPIClient S) (env : Env) (t : OAuthTokens) (endpoint sd ed : string)
      (response : HttpOutcome) (e : exn) (init : list Page) :
  (forall n, e_clock env n < expires_at t - 300000000) ->
  fails_with response e ->
  forall (fuel : nat) (s : State) (acc : list pyval) (cursor : pyval),
    s_tokens s = Some t ->
    hands_out env (access_token t) endpoint sd ed (s_sent s) cursor init ->
    e_provider env
      (s_sent s ++ (page_request (access_token t) endpoint sd ed <$> cursors cursor init))
      (page_request (access_token t) endpoint sd ed (final_cursor cursor init))
    = response ->
    Forall well_formed_page init ->
    Forall (fun p => truthy (page_next p) = true) init ->
    (length init < fuel)%nat ->
    exists s',
      _get_paginated_loop fuel client endpoint sd ed acc cursor env s = (Raise e, s')
      /\ s_sent s'
         = s_sent s ++ (page_request (access_token t) endpoint sd ed
                          <$> (cursors cursor init ++ [final_cursor cursor init])).
Proof.
  intros Hlasts Hfail.
  induction init as [|p init IH]; intros fuel s acc cursor Hc Hserve Hans Hwf Hmore Hfuel.
  - destruct fuel as [|fuel]; [cbn in Hfuel; lia|].
    cbn [cursors final_cursor fmap list_fmap] in Hans. rewrite app_nil_r in Hans.
    cbn [_get_paginated_loop]. unfold bind at 1.
    rewrite (get_with_cached_token_outcome client env t endpoint _ s Hlasts Hc).
    change (api_request (access_token t) endpoint (page_params sd ed cursor))
      with (page_request (access_token t) endpoint sd ed cursor).
    rewrite Hans, Hfail. eexists. split; reflexivity.
  - destruct fuel as [|fuel]; [cbn in Hfuel; lia|].
    apply Forall_cons_1 in Hwf. destruct Hwf as [[Hrec Hnext] Hwf].
    apply Forall_cons_1 in Hmore. destruct Hmore as [Hp_more Hmore].
    destruct Hserve as [Hp Hrest].
    change (page_request (access_token t) endpoint sd ed cursor)
      with (api_request (access_token t) endpoint (page_params sd ed cursor)) in Hp.
    cbn [_get_paginated_loop]. unfold bind at 1.
    rewrite (get_with_cached_token client env t Hlasts endpoint _ _ _ Hc Hp).
    msimpl. rewrite Hrec. cbn [iterate]. rewrite Hnext. rewrite Hp_more.
    set (s1 := mkState _ _ _ _ _ _ _ _ _ _ _).
    destruct (IH fuel s1 (acc ++ page_records p) (page_next p)) as (s' & Hrun & Hsent).
    + exact Hc.
    + exact Hrest.
    + subst s1. cbn [s_sent]. cbn [cursors final_cursor fmap list_fmap] in Hans.
      rewrite <- app_assoc. exact Hans.
    + exact Hwf.
    + exact Hmore.
    + cbn [length] in Hfuel. lia.
    + exists s'. split; [exact Hrun|]. rewrite Hsent. subst s1.
      cbn [s_sent cursors final_cursor fmap list_fmap app]. rewrite <- app_assoc.
      reflexivity.
Qed.



Lemma loop_never_stops {S : Type} `{!TokenStorageProtocol S}
      (client : WhoopAPIClient S) (env : Env) (t : OAuthTokens) (endpoint sd ed : string)
      (p : Page) :
  (forall n, e_clock env n < expires_at t - 300000000) ->
  (forall hist req, e_provider env hist req = Response 200 (Some (page_body p))) ->
  well_formed_page p ->
  truthy (page_next p) = true ->
  forall (fuel : nat) (s : State) (acc : list pyval) (cursor : pyval),
    s_tokens s = Some t ->
    exists s',
      _get_paginated_loop fuel client endpoint sd ed acc cursor env s = (OutOfFuel, s')
      /\ length (s_sent s') = (length (s_sent s) + fuel)%nat.
Proof.
  intros Hlasts Hp [Hrec Hnext] Hmore.
  induction fuel as [|fuel IH]; intros s acc cursor Hc.
  - exists s. split; [reflexivity|]. lia.
  - cbn [_get_paginated_loop]. unfold bind at 1.
    rewrite (get_with_cached_token client env t Hlasts endpoint _ _ _ Hc (Hp _ _)).
    msimpl. rewrite Hrec. cbn [iterate]. rewrite Hnext. rewrite Hmore.
    set (s1 := mkState _ _ _ _ _ _ _ _ _ _ _).
    destruct (IH s1 (acc ++ page_records p) (page_next p) Hc) as (s' & Hrun & Hsent).
    exists s'. split; [exact Hrun|]. rewrite Hsent. subst s1. cbn [s_sent].
    rewrite length_app. cbn [length]. lia.
Qed.



(** ** Writing to the database *)

Lemma batch_run (stmt : Statement) (flatten : pyval -> result (gmap string pyval))
      (records : list pyval) :
  forall env s,
  exists done ps,
    done `prefix_of` records
    /\ Forall2 (fun record params => flatten record = Value params) done ps
    /\ s_pg_ops (batch stmt flatten records env s).2
       = s_pg_ops s ++ (Execute stmt <$> ps)
    /\ match (batch stmt flatten records env s).1 with
       | Ok _ => done = records
       | Raise _ => True
       | OutOfFuel => False
       end.
Proof.
  induction records as [|r records IH]; intros env s.
  - exists [], []. split; [apply prefix_nil|]. split; [constructor|].
    cbn. rewrite app_nil_r. split; reflexivity.
  - unfold batch. cbn [for_each]. fold (batch stmt flatten records).
    unfold cur_execute, pg_issue. msimpl.
    destruct (flatten r) as [p|e] eqn:Hr; msimpl.
    + destruct (e_pg_reject env (s_pg_ops s) (Execute stmt p)) as [msg|] eqn:Hrej; msimpl.
      * exists [r], [p]. split; [exists records; reflexivity|].
        split; [repeat constructor; exact Hr|]. split; [reflexivity|exact I].
      * set (s1 := mkState _ _ _ _ _ _ _ _ _ _ _).
        destruct (IH env s1) as (done & ps & Hpre & Hall & Hops & Hres).
        exists (r :: done), (p :: ps).
        split; [apply prefix_cons; exact Hpre|].
        split; [constructor; assumption|].
        split.
        -- rewrite Hops. subst s1. cbn [s_pg_ops fmap list_fmap].
           rewrite <- app_assoc. reflexivity.
        -- destruct ((batch stmt flatten records env s1).1); [|exact I|exact Hres].
           now subst done.
    + exists [], []. split; [apply prefix_nil|]. split; [constructor|].
      cbn. rewrite app_nil_r. split; [reflexivity|exact I].
Qed.

Lemma upsert_shape (stmt : Statement) (flatten : pyval -> result (gmap string pyval))
      (msg : string) (records : list pyval) (env : Env) (s : State) :
  batch_outcome stmt flatten records env s
    ((batch stmt flatten records ;; conn_commit ;; logger INFO msg ;; ret (length records))
       env s).
Proof.
  destruct (batch_run stmt flatten records env s) as (done & ps & Hpre & Hall & Hops & Hres).
  exists done, ps. split; [exact Hpre|]. split; [exact Hall|].
  destruct (batch stmt flatten records env s) as [[[]|e|] s1] eqn:Hb;
    cbn [fst snd] in Hops, Hres; unfold conn_commit, pg_issue, logger; msimpl;
    rewrite Hb; msimpl.
  - rewrite Hops.
    destruct (e_pg_reject env (s_pg_ops s ++ (Execute stmt <$> ps)) Commit) as [m|] eqn:Hc;
      msimpl.
    + right. split; [exact Hres|]. split; [now rewrite <- app_assoc|].
      exists m. split; reflexivity.
    + split; [reflexivity|]. split; [exact Hres|]. split; [now rewrite <- app_assoc|].
      reflexivity.
  - left. exact Hops.
  - exact Hres.
Qed.

(** X23.  Each multi-record upsert, given a non-empty list, comes to an end
    and works through the records in order: one statement per record with
    that record's flattened parameters, then a single commit, and the number
    of records as result.  When it raises (a record that cannot be flattened,
    a statement or the commit rejected) it has issued statements for a prefix
    of the records only and no commit, unless the commit itself was
    rejected. *)
Theorem upsert_commits_after_all_records (records : list pyval) (env : Env) (s : State) :
  records <> [] ->
  batch_outcome UpsertCycle cycle_params records env s (upsert_cycles records env s)
  /\ batch_outcome UpsertRecovery recovery_params records env s
       (upsert_recovery records env s)
  /\ batch_outcome UpsertSleep sleep_params records env s (upsert_sleep records env s)
  /\ batch_outcome UpsertWorkout workout_params records env s
       (upsert_workouts records env s).
Proof.
  intros Hne. destruct records as [|r records]; [congruence|].
  repeat split.
  - exact (upsert_shape UpsertCycle cycle_params _ (r :: records) env s).
  - exact (upsert_shape UpsertRecovery recovery_params _ (r :: records) env s).
  - exact (upsert_shape UpsertSleep sleep_params _ (r :: records) env s).
  - exact (upsert_shape UpsertWorkout workout_params _ (r :: records) env s).
Qed.

Lemma upsert_commits_after_all_records_witness :
  batch_outcome UpsertCycle cycle_params two_cycles sample_env initial_state
    (upsert_cycles two_cycles sample_env initial_state)
  /\ (upsert_cycles two_cycles sample_env initial_state).1 = Ok 2%nat.
Proof.
  split; [|reflexivity].
  apply (upsert_commits_after_all_records two_cycles sample_env initial_state).
  discriminate.
Defined.

(** X24.  The default "unknown" for a missing user_id is reached for a
    profile and never for a body measurement: a profile without user_id is
    upserted under "unknown", while a body measurement without user_id fails
    on the parameters of its DELETE, before anything is sent to the
    server. *)
Theorem missing_user_id_profile_and_measurement (d : gmap string pyval)
        (env : Env) (s : State) :
  d !! "user_id" = None ->
  upsert_body_measurement (PDict d) env s = (Raise missing_user_id, s)
  /\ exists p,
       user_profile_params (PDict d) = Value p
       /\ p !! "user_id" = Some (PStr "unknown")
       /\ s_pg_ops (upsert_user_profile (PDict d) env s).2
          = match e_pg_reject env (s_pg_ops s) (Execute UpsertUserProfile p) with
            | Some _ => s_pg_ops s ++ [Execute UpsertUserProfile p]
            | None => s_pg_ops s ++ [Execute UpsertUserProfile p; Commit]
            end.
Proof.
  intros Hu. split.
  - unfold upsert_body_measurement, delete_params. rewrite Hu. reflexivity.
  - unfold upsert_user_profile, user_profile_params, params_of, extract, dict_get.
    cbn [rbind]. rewrite Hu. eexists. split; [reflexivity|].
    split; [reflexivity|].
    unfold cur_execute, conn_commit, pg_issue, logger. msimpl.
    destruct (e_pg_reject env (s_pg_ops s) _) as [m|]; msimpl; [reflexivity|].
    destruct (e_pg_reject env _ Commit) as [m|]; msimpl; now rewrite <- app_assoc.
Qed.

Lemma missing_user_id_profile_and_measurement_witness :
  upsert_body_measurement (PDict anonymous_measurement) sample_env initial_state
  = (Raise missing_user_id, initial_state).
Proof.
  exact (proj1 (missing_user_id_profile_and_measurement anonymous_measurement sample_env
                  initial_state eq_refl)).
Defined.

(** X25.  [upsert_body_measurement] replaces within one transaction: for
    data with a user_id it issues the DELETE with the data as parameters,
    the INSERT with the flattened data (under the same user_id) and then the
    commit, stopping at the first of them the server rejects; so that it
    returns only after an accepted commit, and a rejected INSERT leaves the
    DELETE uncommitted. *)
Theorem body_measurement_replaces_in_one_transaction (d : gmap string pyval) (uid : pyval)
        (env : Env) (s : State) :
  d !! "user_id" = Some uid ->
  exists p,
    body_measurement_params (PDict d) = Value p
    /\ p !! "user_id" = Some uid
    /\ let del := Execute DeleteBodyMeasurement d in
       let ins := Execute InsertBodyMeasurement p in
       let run := upsert_body_measurement (PDict d) env s in
       match e_pg_reject env (s_pg_ops s) del with
       | Some m => run.1 = Raise (PsycopgError m) /\ s_pg_ops run.2 = s_pg_ops s ++ [del]
       | None =>
           match e_pg_reject env (s_pg_ops s ++ [del]) ins with
           | Some m =>
               run.1 = Raise (PsycopgError m) /\ s_pg_ops run.2 = s_pg_ops s ++ [del; ins]
           | None =>
               s_pg_ops run.2 = s_pg_ops s ++ [del; ins; Commit]
               /\ run.1 = match e_pg_reject env (s_pg_ops s ++ [del; ins]) Commit with
                          | Some m => Raise (PsycopgError m)
                          | None => Ok tt
                          end
           end
       end.
Proof.
  intros Hu.
  unfold upsert_body_measurement, delete_params, body_measurement_params, params_of,
    extract, dict_get. cbn [rbind]. rewrite Hu. eexists. split; [reflexivity|].
  split; [reflexivity|]. cbn zeta.
  unfold cur_execute, conn_commit, pg_issue, logger. msimpl.
  destruct (e_pg_reject env (s_pg_ops s) _) as [m|]; msimpl; [split; reflexivity|].
  destruct (e_pg_reject env (s_pg_ops s ++ _) (Execute InsertBodyMeasurement _)) as [m|];
    msimpl; [split; [reflexivity|now rewrite <- app_assoc]|].
  rewrite <- !app_assoc. cbn [app].
  destruct (e_pg_reject env _ Commit) as [m|]; msimpl; split; reflexivity.
Qed.

Lemma body_measurement_replaces_in_one_transaction_witness :
  (upsert_body_measurement (PDict (<["user_id" := PInt 7]> anonymous_measurement))
     sample_env initial_state).1 = Ok tt.
Proof.
  assert (Hu : (<["user_id" := PInt 7]> anonymous_measurement : gmap string pyval)
               !! "user_id" = Some (PInt 7)) by (vm_compute; reflexivity).
  destruct (body_measurement_replaces_in_one_transaction
              (<["user_id" := PInt 7]> anonymous_measurement) (PInt 7)
              sample_env initial_state Hu) as (p & _ & _ & Hrun).
  cbn zeta in Hrun. destruct Hrun as [_ Hrun]. exact Hrun.
Defined.

(** ** The scraper and its command *)

(** X26.  [WhoopScraper.__init__] first fixes the window; when that raises
    (a number of days out of range) the construction ends there, before any
    store is built.  Otherwise it builds a database token store for the
    database of the settings: without an encryption key the store has no
    cipher, and every token saved through the scraper reaches the token table
    as it is; with a key the constructor of the cipher decides: its cipher is
    used, or its error ends the construction. *)
Theorem scraper_token_storage (days : Z) (sd ed : option string) (env : Env) (s : State) :
  let settings := e_settings env in
  let key := Settings.encryption_key settings in
  let run := WhoopScraper_init days sd ed env s in
  match scrape_window days sd ed env s with
  | (Ok w, _) =>
      if truthy_str key then
        match e_fernet env key with
        | Error e => run.1 = Raise e
        | Value c =>
            exists sc, run.1 = Ok sc
              /\ (start_date sc, end_date sc) = w
              /\ storage (auth (client sc))
                 = mkDatabaseTokenStorage (Settings.database_url settings) (Some c)
        end
      else
        exists sc, run.1 = Ok sc
          /\ (start_date sc, end_date sc) = w
          /\ storage (auth (client sc))
             = mkDatabaseTokenStorage (Settings.database_url settings) None
          /\ forall T env' s',
               e_pg_fail env' (s_pg_sessions s') = None ->
               s_pg_tokens (save (storage (auth (client sc))) T env' s').2
               = Some (plain_row T)
  | (Raise e, _) => run.1 = Raise e
  | (OutOfFuel, _) => run.1 = OutOfFuel
  end.
Proof.
  cbn zeta.
  destruct (scrape_window days sd ed env s) as [[[w1 w2]|e|] s1] eqn:Hw;
    unfold WhoopScraper_init, DatabaseTokenStorage_init, WhoopAuth_init; msimpl;
    rewrite Hw; msimpl; [|reflexivity|reflexivity].
  destruct (truthy_str (Settings.encryption_key (e_settings env))) eqn:Hk; msimpl.
  - rewrite ?Hk. msimpl.
    destruct (e_fernet env (Settings.encryption_key (e_settings env))) as [c|e]; msimpl.
    + eexists. split; [reflexivity|]. split; reflexivity.
    + reflexivity.
  - eexists. split; [reflexivity|]. split; [reflexivity|]. split; [reflexivity|].
    intros T env' s' Hc. cbn [save DatabaseTokenStorage_protocol client auth storage].
    rewrite (db_save_eq _ T env' s' Hc). reflexivity.
Qed.

Lemma scrape_all_unconnected (fuel : nat) (self : WhoopScraper) (env : Env) (s : State)
      (msg : string) :
  e_pg_fail env (s_pg_sessions s) = Some msg ->
  scrape_all fuel self env s = (Raise (PsycopgError msg), connected self s).
Proof.
  intros Hfail. unfold scrape_all, with_connection, pg_session, connected.
  fold (start_message self). msimpl. rewrite Hfail. reflexivity.
Qed.

(** X27.  When the database connection cannot be opened, [scrape_all] raises
    the database error before any category is attempted: the opening line is
    logged, and no request is sent, no statement issued and no entry written
    to the result map. *)
Theorem scrape_all_needs_connection (fuel : nat) (self : WhoopScraper) (env : Env)
        (s : State) (msg : string) :
  e_pg_fail env (s_pg_sessions s) = Some msg ->
  exists s',
    scrape_all fuel self env s = (Raise (PsycopgError msg), s')
    /\ s_log s' = s_log s ++ [(INFO, start_message self)]
    /\ s_sent s' = s_sent s
    /\ s_pg_ops s' = s_pg_ops s
    /\ s_stats s' = s_stats s
    /\ s_tokens s' = s_tokens s.
Proof.
  intros Hfail. exists (connected self s).
  split; [now apply scrape_all_unconnected|]. repeat split.
Qed.

Lemma scrape_all_needs_connection_witness :
  (scrape_all 1 sample_scraper down_env authorized_state).1
  = Raise (PsycopgError "connection refused").
Proof.
  destruct (scrape_all_needs_connection 1 sample_scraper down_env authorized_state
              "connection refused" eq_refl) as (s' & Hrun & _).
  rewrite Hrun. reflexivity.
Defined.

(** A class of providers against which every run ends: those that stop
    handing out cursors after some number of requests. *)
Lemma scrape_all_ends_when_cursors_stop (fuel : nat) (self : WhoopScraper) (env : Env)
      (s : State) (bound : nat) :
  e_pg_fail env (s_pg_sessions s) = None ->
  cursor_free_after env bound ->
  (bound < fuel)%nat ->
  (scrape_all fuel self env s).1 <> OutOfFuel.
Proof.
  intros Hconn Hstop Hfuel.
  destruct fuel as [|f]; [lia|]. assert (Hb : (bound <= f)%nat) by lia.
  destruct (guarded_run "user_profile" (user_profile_work self) env (connected self s))
    as (s1 & H1 & _);
    [apply total_user_profile_work|apply same_stats_user_profile_work|].
  destruct (guarded_run "body_measurement" (body_measurement_work self) env s1)
    as (s2 & H2 & _);
    [apply total_body_measurement_work|apply same_stats_body_measurement_work|].
  destruct (guarded_run "cycles" (cycles_work (S f) self) env s2) as (s3 & H3 & _);
    [now apply cycles_work_terminates with bound|apply same_stats_cycles_work|].
  destruct (guarded_run "recovery" (recovery_work (S f) self) env s3) as (s4 & H4 & _);
    [now apply recovery_work_terminates with bound|apply same_stats_recovery_work|].
  destruct (guarded_run "sleep" (sleep_work (S f) self) env s4) as (s5 & H5 & _);
    [now apply sleep_work_terminates with bound|apply same_stats_sleep_work|].
  destruct (guarded_run "workouts" (workouts_work (S f) self) env s5) as (s6 & H6 & _);
    [now apply workouts_work_terminates with bound|apply same_stats_workouts_work|].
  rewrite <- scrape_user_profile_guarded in H1.
  rewrite <- scrape_body_measurement_guarded in H2.
  rewrite <- scrape_cycles_guarded in H3.
  rewrite <- scrape_recovery_guarded in H4.
  rewrite <- scrape_sleep_guarded in H5.
  rewrite <- scrape_workouts_guarded in H6.
  rewrite (scrape_all_run _ _ _ _ Hconn). unfold all_categories.
  rewrite (bind_ok _ _ _ _ _ _ H1), (bind_ok _ _ _ _ _ _ H2), (bind_ok _ _ _ _ _ _ H3),
    (bind_ok _ _ _ _ _ _ H4), (bind_ok _ _ _ _ _ _ H5), H6.
  destruct (e_pg_reject env (s_pg_ops s6) Commit); discriminate.
Qed.

Example partial_env_run_ends :
  (scrape_all 1 sample_scraper partial_env authorized_state).1 <> OutOfFuel.
Proof.
  apply (scrape_all_ends_when_cursors_stop 1 sample_scraper partial_env authorized_state 0);
    [reflexivity|exact partial_env_stops|lia].
Qed.

Lemma bind_never_raises {A B} (c : M A) (k : A -> M B) (e : exn) :
  (forall env s, (c env s).1 <> Raise e) ->
  (forall a env s, (k a env s).1 <> Raise e) ->
  forall env s, (bind c k env s).1 <> Raise e.
Proof.
  intros Hc Hk env s. unfold bind. specialize (Hc env s).
  destruct (c env s) as [[a|e'|] s1]; cbn [fst] in *;
    [apply Hk|intros Heq; apply Hc; congruence|discriminate].
Qed.

Lemma guarded_never_raises (name : string) (work : M nat) (e : exn) :
  forall env s, (guarded name work env s).1 <> Raise e.
Proof.
  intros env s. unfold guarded, set_stat. msimpl.
  destruct (work env _) as [[n|e0|] s1]; cbn [any_exception fst]; msimpl; discriminate.
Qed.

Lemma all_categories_never_raise (fuel : nat) (self : WhoopScraper) (e : exn) :
  forall env s, (all_categories fuel self env s).1 <> Raise e.
Proof.
  unfold all_categories.
  apply bind_never_raises;
    [intros env s; rewrite scrape_user_profile_guarded; apply guarded_never_raises
    |intros _].
  apply bind_never_raises;
    [intros env s; rewrite scrape_body_measurement_guarded; apply guarded_never_raises
    |intros _].
  apply bind_never_raises;
    [intros env s; rewrite scrape_cycles_guarded; apply guarded_never_raises|intros _].
  apply bind_never_raises;
    [intros env s; rewrite scrape_recovery_guarded; apply guarded_never_raises|intros _].
  apply bind_never_raises;
    [intros env s; rewrite scrape_sleep_guarded; apply guarded_never_raises|intros _].
  intros env s. rewrite scrape_workouts_guarded. apply guarded_never_raises.
Qed.

Lemma scrape_window_state (days : Z) (sd ed : option string) (env : Env) (s : State) :
  (scrape_window days sd ed env s).2 = s.
Proof.
  unfold scrape_window.
  destruct sd as [sd|], ed as [ed|]; try destruct (truthy_str sd && truthy_str ed);
    rewrite ?get_date_range_eq; try reflexivity;
    destruct (date_minus_days (e_today env) days); reflexivity.
Qed.

Lemma WhoopScraper_init_sessions (days : Z) (sd ed : option string) (env : Env)
      (s s1 : State) (sc : WhoopScraper) :
  WhoopScraper_init days sd ed env s = (Ok sc, s1) ->
  s_pg_sessions s1 = s_pg_sessions s.
Proof.
  pose proof (scrape_window_state days sd ed env s) as Hw.
  destruct (scrape_window days sd ed env s) as [[w|e|] s0] eqn:Hrun; cbn [snd] in Hw;
    subst s0; unfold WhoopScraper_init, DatabaseTokenStorage_init, WhoopAuth_init; msimpl;
    rewrite Hrun; msimpl; [|discriminate|discriminate].
  destruct (truthy_str (Settings.encryption_key (e_settings env))) eqn:Hk; msimpl;
    rewrite ?Hk; msimpl;
    [destruct (e_fernet env (Settings.encryption_key (e_settings env))) as [c|e]; msimpl|];
    intros Heq; first [discriminate Heq | injection Heq as _ <-; reflexivity].
Qed.


